(** * ikago, package [internal/pcap]: layer builders and the packet pipelines

    A shallow embedding of [internal/pcap/layer.go]: the layer constructors
    ([CreateTCPLayer], [CreateIPv4Layer], [FlagIPv4Layer], [createTCP],
    [createIPv4]), the outbound pipeline [Pcap.handleListen] and the
    inbound pipeline [Pcap.handle], together with the parts of
    [github.com/google/gopacket] and of Go's [net] package they call.

    Conventions.
    - A Go [uintN] is a [Z]; every place where Go wraps is written out
      with [mod].
    - A [[]byte] is a [list byte]; a nil slice is the empty list.
    - A [*pcap.Handle] is an opaque identity.
    - A handler processes one packet; its result is the new [Pcap] state
      and what it did with the packet ([Outcome]).  The capture loops run
      one handler at a time here; the races of the Go program on [seq],
      [id] and the NAT table are outside this model.
    - What the package takes from elsewhere is a parameter of the
      pipelines: [net.IP.String], the transport decoders of gopacket, and
      the two checksum functions of the package that live in another
      file. *)

From Stdlib Require Import ZArith List Lia Bool.
From Stdlib.Strings Require Import Byte.
From stdpp Require Import base decidable countable gmap strings list pretty.
Import ListNotations.
Local Open Scope Z_scope.

(** ** Bytes and fixed-width integers *)

Abbreviation byte := Byte.byte.

Definition byte_val (b : byte) : Z := Z.of_N (Byte.to_N b).

Definition byte_of_Z (z : Z) : byte :=
  match Byte.of_N (Z.to_N (z mod 256)) with
  | Some b => b
  | None => Byte.x00
  end.

Definition bytes_of (zs : list Z) : list byte := map byte_of_Z zs.

Definition uint8 (z : Z) : Z := z mod 2 ^ 8.
Definition uint16 (z : Z) : Z := z mod 2 ^ 16.
Definition uint32 (z : Z) : Z := z mod 2 ^ 32.

(** [len(s)] of a slice. *)
Definition len {A} (l : list A) : Z := Z.of_nat (length l).

(** [binary.BigEndian.PutUint16] and [PutUint32]. *)
Definition PutUint16 (v : Z) : list byte :=
  [byte_of_Z (Z.shiftr v 8); byte_of_Z v].

Definition PutUint32 (v : Z) : list byte :=
  [byte_of_Z (Z.shiftr v 24); byte_of_Z (Z.shiftr v 16);
   byte_of_Z (Z.shiftr v 8); byte_of_Z v].

(** [binary.LittleEndian.PutUint32]. *)
Definition PutUint32LE (v : Z) : list byte :=
  [byte_of_Z v; byte_of_Z (Z.shiftr v 8);
   byte_of_Z (Z.shiftr v 16); byte_of_Z (Z.shiftr v 24)].

(** Go's slice expression [s[lo:hi]] for indices that are in range. *)
Definition slice {A} (lo hi : nat) (s : list A) : list A :=
  firstn (hi - lo) (skipn lo s).

(** ** [net.IP] *)

Definition IP := list byte.

Definition isZeros (p : list byte) : bool :=
  forallb (fun b => byte_val b =? 0) p.

(** [net.IP.To4]: the four-byte form of an IPv4 address, [None] for Go's
    nil result. *)
Definition To4 (ip : IP) : option IP :=
  if (length ip =? 4)%nat then Some ip
  else if (length ip =? 16)%nat
          && isZeros (slice 0 10 ip)
          && (byte_val (nth 10 ip Byte.x00) =? 255)
          && (byte_val (nth 11 ip Byte.x00) =? 255)
       then Some (slice 12 16 ip)
       else None.

Definition is_nil {A} (l : list A) : bool :=
  match l with [] => true | _ => false end.

Record IPNet := { IPNet_IP : IP; IPNet_Mask : list byte }.

(** ** gopacket layer types *)

Inductive LayerType :=
| LayerTypeZero
| LayerTypePayload
| LayerTypeFragment
| LayerTypeEthernet
| LayerTypeLoopback
| LayerTypeIPv4
| LayerTypeIPv6
| LayerTypeICMPv4
| LayerTypeTCP
| LayerTypeUDP
| LayerTypeSCTP
| LayerTypeUDPLite
| LayerTypeRUDP.

Global Instance LayerType_eq_dec : EqDecision LayerType.
Proof. solve_decision. Defined.

Definition LayerType_to_nat (t : LayerType) : nat :=
  match t with
  | LayerTypeZero => 0 | LayerTypePayload => 1 | LayerTypeFragment => 2
  | LayerTypeEthernet => 3 | LayerTypeLoopback => 4 | LayerTypeIPv4 => 5
  | LayerTypeIPv6 => 6 | LayerTypeICMPv4 => 7 | LayerTypeTCP => 8
  | LayerTypeUDP => 9 | LayerTypeSCTP => 10 | LayerTypeUDPLite => 11
  | LayerTypeRUDP => 12
  end%nat.

Definition LayerType_of_nat (n : nat) : LayerType :=
  match n with
  | 1 => LayerTypePayload | 2 => LayerTypeFragment
  | 3 => LayerTypeEthernet | 4 => LayerTypeLoopback | 5 => LayerTypeIPv4
  | 6 => LayerTypeIPv6 | 7 => LayerTypeICMPv4 | 8 => LayerTypeTCP
  | 9 => LayerTypeUDP | 10 => LayerTypeSCTP | 11 => LayerTypeUDPLite
  | 12 => LayerTypeRUDP | _ => LayerTypeZero
  end%nat.

Lemma LayerType_of_to_nat t : LayerType_of_nat (LayerType_to_nat t) = t.
Proof. destruct t; reflexivity. Defined.

Global Instance LayerType_countable : Countable LayerType :=
  inj_countable' LayerType_to_nat LayerType_of_nat LayerType_of_to_nat.

(** [layers.IPProtocol] values used by the builders. *)
Definition IPProtocolICMPv4 : Z := 1.
Definition IPProtocolTCP : Z := 6.
Definition IPProtocolUDP : Z := 17.

(** [layers.IPv4Flag] bits. *)
Definition IPv4EvilBit : Z := 4.
Definition IPv4DontFragment : Z := 2.
Definition IPv4MoreFragments : Z := 1.

(** [layers.EthernetType] values. *)
Definition EthernetTypeLLC : Z := 0.
Definition EthernetTypeIPv4 : Z := 0x0800.
Definition EthernetTypeIPv6 : Z := 0x86DD.

(** ** Layers

    Every gopacket layer embeds [BaseLayer]; its [Contents] are the bytes
    the layer was decoded from, and [LayerContents()] returns them.  A
    layer built by a struct literal has nil [Contents]: only the decoders
    fill the field, [SerializeTo] does not. *)

Record IPv4 := {
  IPv4_Contents : list byte;
  IPv4_Payload : list byte;
  IPv4_Version : Z;
  IPv4_IHL : Z;
  IPv4_TOS : Z;
  IPv4_Length : Z;
  IPv4_Id : Z;
  IPv4_Flags : Z;
  IPv4_FragOffset : Z;
  IPv4_TTL : Z;
  IPv4_Protocol : Z;
  IPv4_Checksum : Z;
  IPv4_SrcIP : IP;
  IPv4_DstIP : IP
}.

Record IPv6 := {
  IPv6_Contents : list byte;
  IPv6_Payload : list byte;
  IPv6_Version : Z;
  IPv6_Length : Z;
  IPv6_NextHeader : Z;
  IPv6_HopLimit : Z;
  IPv6_SrcIP : IP;
  IPv6_DstIP : IP
}.

Inductive NetworkLayer :=
| NL_IPv4 (l : IPv4)
| NL_IPv6 (l : IPv6).

(** [tcpipchecksum.pseudoheader]: the network layer a transport layer was
    bound to by [SetNetworkLayerForChecksum]. *)
Record TCP := {
  TCP_Contents : list byte;
  TCP_SrcPort : Z;
  TCP_DstPort : Z;
  TCP_Seq : Z;
  TCP_Ack : Z;
  TCP_DataOffset : Z;
  TCP_FIN : bool; TCP_SYN : bool; TCP_RST : bool; TCP_PSH : bool;
  TCP_ACK : bool; TCP_URG : bool; TCP_ECE : bool; TCP_CWR : bool;
  TCP_NS : bool;
  TCP_Window : Z;
  TCP_Checksum : Z;
  TCP_Urgent : Z;
  TCP_pseudoheader : option NetworkLayer
}.

Record UDP := {
  UDP_Contents : list byte;
  UDP_SrcPort : Z;
  UDP_DstPort : Z;
  UDP_Length : Z;
  UDP_Checksum : Z;
  UDP_pseudoheader : option NetworkLayer
}.

(** The other layers of gopacket that implement [TransportLayer]. *)
Inductive OtherTransport := SCTP | UDPLite | RUDP.

Inductive TransportLayer :=
| TL_TCP (t : TCP)
| TL_UDP (u : UDP)
| TL_Other (k : OtherTransport) (contents : list byte).

Record Loopback := { Loopback_Family : Z }.

Record Ethernet := {
  Ethernet_SrcMAC : list byte;
  Ethernet_DstMAC : list byte;
  Ethernet_EthernetType : Z;
  Ethernet_Length : Z
}.

Inductive LinkLayer :=
| LL_Loopback (l : Loopback)
| LL_Ethernet (e : Ethernet).

Definition NetworkLayer_LayerType (l : NetworkLayer) : LayerType :=
  match l with
  | NL_IPv4 _ => LayerTypeIPv4
  | NL_IPv6 _ => LayerTypeIPv6
  end.

Definition NetworkLayer_LayerContents (l : NetworkLayer) : list byte :=
  match l with
  | NL_IPv4 l => IPv4_Contents l
  | NL_IPv6 l => IPv6_Contents l
  end.

Definition OtherTransport_LayerType (k : OtherTransport) : LayerType :=
  match k with
  | SCTP => LayerTypeSCTP
  | UDPLite => LayerTypeUDPLite
  | RUDP => LayerTypeRUDP
  end.

Definition TransportLayer_LayerType (l : TransportLayer) : LayerType :=
  match l with
  | TL_TCP _ => LayerTypeTCP
  | TL_UDP _ => LayerTypeUDP
  | TL_Other k _ => OtherTransport_LayerType k
  end.

Definition TransportLayer_LayerContents (l : TransportLayer) : list byte :=
  match l with
  | TL_TCP t => TCP_Contents t
  | TL_UDP u => UDP_Contents u
  | TL_Other _ c => c
  end.

Definition LinkLayer_LayerType (l : LinkLayer) : LayerType :=
  match l with
  | LL_Loopback _ => LayerTypeLoopback
  | LL_Ethernet _ => LayerTypeEthernet
  end.

(** Field updates written [layer.Field = v] in the source. *)
Definition IPv4_set_Flags (v : Z) (l : IPv4) : IPv4 :=
  {| IPv4_Contents := IPv4_Contents l; IPv4_Payload := IPv4_Payload l;
     IPv4_Version := IPv4_Version l; IPv4_IHL := IPv4_IHL l;
     IPv4_TOS := IPv4_TOS l; IPv4_Length := IPv4_Length l;
     IPv4_Id := IPv4_Id l; IPv4_Flags := v;
     IPv4_FragOffset := IPv4_FragOffset l; IPv4_TTL := IPv4_TTL l;
     IPv4_Protocol := IPv4_Protocol l; IPv4_Checksum := IPv4_Checksum l;
     IPv4_SrcIP := IPv4_SrcIP l; IPv4_DstIP := IPv4_DstIP l |}.

Definition IPv4_set_FragOffset (v : Z) (l : IPv4) : IPv4 :=
  {| IPv4_Contents := IPv4_Contents l; IPv4_Payload := IPv4_Payload l;
     IPv4_Version := IPv4_Version l; IPv4_IHL := IPv4_IHL l;
     IPv4_TOS := IPv4_TOS l; IPv4_Length := IPv4_Length l;
     IPv4_Id := IPv4_Id l; IPv4_Flags := IPv4_Flags l;
     IPv4_FragOffset := v; IPv4_TTL := IPv4_TTL l;
     IPv4_Protocol := IPv4_Protocol l; IPv4_Checksum := IPv4_Checksum l;
     IPv4_SrcIP := IPv4_SrcIP l; IPv4_DstIP := IPv4_DstIP l |}.

Definition IPv4_set_Protocol (v : Z) (l : IPv4) : IPv4 :=
  {| IPv4_Contents := IPv4_Contents l; IPv4_Payload := IPv4_Payload l;
     IPv4_Version := IPv4_Version l; IPv4_IHL := IPv4_IHL l;
     IPv4_TOS := IPv4_TOS l; IPv4_Length := IPv4_Length l;
     IPv4_Id := IPv4_Id l; IPv4_Flags := IPv4_Flags l;
     IPv4_FragOffset := IPv4_FragOffset l; IPv4_TTL := IPv4_TTL l;
     IPv4_Protocol := v; IPv4_Checksum := IPv4_Checksum l;
     IPv4_SrcIP := IPv4_SrcIP l; IPv4_DstIP := IPv4_DstIP l |}.

Definition IPv4_set_Length (v : Z) (l : IPv4) : IPv4 :=
  {| IPv4_Contents := IPv4_Contents l; IPv4_Payload := IPv4_Payload l;
     IPv4_Version := IPv4_Version l; IPv4_IHL := IPv4_IHL l;
     IPv4_TOS := IPv4_TOS l; IPv4_Length := v;
     IPv4_Id := IPv4_Id l; IPv4_Flags := IPv4_Flags l;
     IPv4_FragOffset := IPv4_FragOffset l; IPv4_TTL := IPv4_TTL l;
     IPv4_Protocol := IPv4_Protocol l; IPv4_Checksum := IPv4_Checksum l;
     IPv4_SrcIP := IPv4_SrcIP l; IPv4_DstIP := IPv4_DstIP l |}.

Definition IPv4_set_Checksum (v : Z) (l : IPv4) : IPv4 :=
  {| IPv4_Contents := IPv4_Contents l; IPv4_Payload := IPv4_Payload l;
     IPv4_Version := IPv4_Version l; IPv4_IHL := IPv4_IHL l;
     IPv4_TOS := IPv4_TOS l; IPv4_Length := IPv4_Length l;
     IPv4_Id := IPv4_Id l; IPv4_Flags := IPv4_Flags l;
     IPv4_FragOffset := IPv4_FragOffset l; IPv4_TTL := IPv4_TTL l;
     IPv4_Protocol := IPv4_Protocol l; IPv4_Checksum := v;
     IPv4_SrcIP := IPv4_SrcIP l; IPv4_DstIP := IPv4_DstIP l |}.

Definition TCP_set_Checksum (v : Z) (t : TCP) : TCP :=
  {| TCP_Contents := TCP_Contents t;
     TCP_SrcPort := TCP_SrcPort t; TCP_DstPort := TCP_DstPort t;
     TCP_Seq := TCP_Seq t; TCP_Ack := TCP_Ack t;
     TCP_DataOffset := TCP_DataOffset t;
     TCP_FIN := TCP_FIN t; TCP_SYN := TCP_SYN t; TCP_RST := TCP_RST t;
     TCP_PSH := TCP_PSH t; TCP_ACK := TCP_ACK t; TCP_URG := TCP_URG t;
     TCP_ECE := TCP_ECE t; TCP_CWR := TCP_CWR t; TCP_NS := TCP_NS t;
     TCP_Window := TCP_Window t; TCP_Checksum := v;
     TCP_Urgent := TCP_Urgent t;
     TCP_pseudoheader := TCP_pseudoheader t |}.

Definition TCP_set_pseudoheader (n : NetworkLayer) (t : TCP) : TCP :=
  {| TCP_Contents := TCP_Contents t;
     TCP_SrcPort := TCP_SrcPort t; TCP_DstPort := TCP_DstPort t;
     TCP_Seq := TCP_Seq t; TCP_Ack := TCP_Ack t;
     TCP_DataOffset := TCP_DataOffset t;
     TCP_FIN := TCP_FIN t; TCP_SYN := TCP_SYN t; TCP_RST := TCP_RST t;
     TCP_PSH := TCP_PSH t; TCP_ACK := TCP_ACK t; TCP_URG := TCP_URG t;
     TCP_ECE := TCP_ECE t; TCP_CWR := TCP_CWR t; TCP_NS := TCP_NS t;
     TCP_Window := TCP_Window t; TCP_Checksum := TCP_Checksum t;
     TCP_Urgent := TCP_Urgent t;
     TCP_pseudoheader := Some n |}.

Definition UDP_set_pseudoheader (n : NetworkLayer) (u : UDP) : UDP :=
  {| UDP_Contents := UDP_Contents u;
     UDP_SrcPort := UDP_SrcPort u; UDP_DstPort := UDP_DstPort u;
     UDP_Length := UDP_Length u; UDP_Checksum := UDP_Checksum u;
     UDP_pseudoheader := Some n |}.

(** ** The layer builders of [layer.go] *)

(** [CreateTCPLayer]. *)
Definition CreateTCPLayer (srcPort dstPort seq ack : Z) : TCP :=
  {| TCP_Contents := [];
     TCP_SrcPort := srcPort; TCP_DstPort := dstPort;
     TCP_Seq := seq; TCP_Ack := ack;
     TCP_DataOffset := 5;
     TCP_FIN := false; TCP_SYN := false; TCP_RST := false;
     TCP_PSH := true; TCP_ACK := true; TCP_URG := false;
     TCP_ECE := false; TCP_CWR := false; TCP_NS := false;
     TCP_Window := 65535; TCP_Checksum := 0; TCP_Urgent := 0;
     TCP_pseudoheader := None |}.

(** [createTCP], the constructor the outbound pipeline uses. *)
Definition createTCP (srcPort dstPort seq : Z) : TCP :=
  {| TCP_Contents := [];
     TCP_SrcPort := srcPort; TCP_DstPort := dstPort;
     TCP_Seq := seq; TCP_Ack := 0;
     TCP_DataOffset := 5;
     TCP_FIN := false; TCP_SYN := false; TCP_RST := false;
     TCP_PSH := true; TCP_ACK := true; TCP_URG := false;
     TCP_ECE := false; TCP_CWR := false; TCP_NS := false;
     TCP_Window := 0; TCP_Checksum := 0; TCP_Urgent := 0;
     TCP_pseudoheader := None |}.

(** [CreateUDPLayer]. *)
Definition CreateUDPLayer (srcPort dstPort : Z) : UDP :=
  {| UDP_Contents := []; UDP_SrcPort := srcPort; UDP_DstPort := dstPort;
     UDP_Length := 0; UDP_Checksum := 0; UDP_pseudoheader := None |}.

(** [createIPv4]. *)
Definition createIPv4 (srcIP dstIP : IP) (id ttl : Z) : IPv4 :=
  {| IPv4_Contents := []; IPv4_Payload := [];
     IPv4_Version := 4; IPv4_IHL := 5; IPv4_TOS := 0; IPv4_Length := 0;
     IPv4_Id := id; IPv4_Flags := IPv4DontFragment; IPv4_FragOffset := 0;
     IPv4_TTL := ttl; IPv4_Protocol := IPProtocolTCP; IPv4_Checksum := 0;
     IPv4_SrcIP := srcIP; IPv4_DstIP := dstIP |}.

(** The errors [CreateIPv4Layer] returns. *)
Inductive BuildError :=
| InvalidSourceIP
| InvalidDestinationIP
| TransportNotSupport (t : LayerType).

(** [CreateIPv4Layer].  The Go function returns the new header and, through
    the pointer it was given, leaves the transport layer bound to it
    ([SetNetworkLayerForChecksum], which accepts every [*layers.IPv4]);
    here the bound transport layer is the second component of the
    result. *)
Definition CreateIPv4Layer (srcIP dstIP : IP) (id ttl : Z)
    (transportLayer : TransportLayer) : BuildError + (IPv4 * TransportLayer) :=
  match To4 srcIP with
  | None => inl InvalidSourceIP
  | Some _ =>
    match To4 dstIP with
    | None => inl InvalidDestinationIP
    | Some _ =>
      let ipv4Layer :=
        {| IPv4_Contents := []; IPv4_Payload := [];
           IPv4_Version := 4; IPv4_IHL := 5; IPv4_TOS := 0;
           IPv4_Length := 0; IPv4_Id := id;
           IPv4_Flags := IPv4DontFragment; IPv4_FragOffset := 0;
           IPv4_TTL := ttl; IPv4_Protocol := 0; IPv4_Checksum := 0;
           IPv4_SrcIP := srcIP; IPv4_DstIP := dstIP |} in
      match transportLayer with
      | TL_TCP tcpLayer =>
        let ipv4Layer := IPv4_set_Protocol IPProtocolTCP ipv4Layer in
        inr (ipv4Layer,
             TL_TCP (TCP_set_pseudoheader (NL_IPv4 ipv4Layer) tcpLayer))
      | TL_UDP udpLayer =>
        let ipv4Layer := IPv4_set_Protocol IPProtocolUDP ipv4Layer in
        inr (ipv4Layer,
             TL_UDP (UDP_set_pseudoheader (NL_IPv4 ipv4Layer) udpLayer))
      | TL_Other k _ => inl (TransportNotSupport (OtherTransport_LayerType k))
      end
    end
  end.

(** [FlagIPv4Layer]. *)
Definition FlagIPv4Layer (layer : IPv4) (df mf : bool) (offset : Z) : IPv4 :=
  let layer := if df then IPv4_set_Flags IPv4DontFragment layer else layer in
  let layer := if mf then IPv4_set_Flags IPv4MoreFragments layer else layer in
  let layer := if negb df && negb mf then IPv4_set_Flags 0 layer else layer in
  IPv4_set_FragOffset offset layer.

(** ** Checksum engine

    [checkSum] and [CheckTCPIPv4Sum] belong to this package but their file
    is not part of the sources at hand.  The pipelines below take the two
    functions as parameters; [spec_checkSum] and [spec_CheckTCPIPv4Sum]
    are what the specification says they compute. *)

(** Sum of the big-endian 16-bit words of [data]; an odd last byte is
    padded on the right with a zero byte. *)
Fixpoint sum16 (data : list byte) : Z :=
  match data with
  | [] => 0
  | [a] => byte_val a * 256
  | a :: b :: rest => byte_val a * 256 + byte_val b + sum16 rest
  end.

(** End-around carry: the carries above bit 15 are added back in, twice,
    which folds every sum below 2^32 into 16 bits. *)
Definition fold16 (s : Z) : Z :=
  let s := s mod 2 ^ 16 + s / 2 ^ 16 in
  s mod 2 ^ 16 + s / 2 ^ 16.

(** Modelled from the spec: the missing [checkSum(data []byte) uint16], the
    one's-complement sum over the 16-bit words of [data], folded and
    complemented.  The caller passes a header whose checksum field is
    still zero. *)
Definition spec_checkSum (data : list byte) : Z :=
  uint16 (Z.lnot (fold16 (sum16 data))).

(** [layers.TCP.flagsAndOffset]: the data offset in the top four bits, the
    nine flags below. *)
Definition TCP_flagsAndOffset (t : TCP) : Z :=
  let bit (b : bool) (m : Z) := if b then m else 0 in
  uint16
    (Z.lor (Z.shiftl (TCP_DataOffset t) 12)
    (Z.lor (bit (TCP_FIN t) 0x0001)
    (Z.lor (bit (TCP_SYN t) 0x0002)
    (Z.lor (bit (TCP_RST t) 0x0004)
    (Z.lor (bit (TCP_PSH t) 0x0008)
    (Z.lor (bit (TCP_ACK t) 0x0010)
    (Z.lor (bit (TCP_URG t) 0x0020)
    (Z.lor (bit (TCP_ECE t) 0x0040)
    (Z.lor (bit (TCP_CWR t) 0x0080)
           (bit (TCP_NS t) 0x0100)))))))))).

(** The twenty bytes [layers.TCP.SerializeTo] writes for a header without
    options, with [csum] in the checksum field. *)
Definition TCP_header (t : TCP) (csum : Z) : list byte :=
  PutUint16 (TCP_SrcPort t) ++ PutUint16 (TCP_DstPort t)
  ++ PutUint32 (TCP_Seq t) ++ PutUint32 (TCP_Ack t)
  ++ PutUint16 (TCP_flagsAndOffset t) ++ PutUint16 (TCP_Window t)
  ++ PutUint16 csum ++ PutUint16 (TCP_Urgent t).

(** The four address bytes an IPv4 header carries for [ip]. *)
Definition ip4_bytes (ip : IP) : list byte :=
  match To4 ip with
  | Some b => b
  | None => ip
  end.

(** The IPv4 pseudo-header: source, destination, zero, protocol 6 and the
    TCP length. *)
Definition pseudo_header (srcIP dstIP : IP) (tcpLength : Z) : list byte :=
  ip4_bytes srcIP ++ ip4_bytes dstIP
  ++ [byte_of_Z 0; byte_of_Z IPProtocolTCP] ++ PutUint16 tcpLength.

(** Modelled from the spec: the missing [CheckTCPIPv4Sum(layer, payload,
    ipv4) uint16], the one's-complement sum of the IPv4 pseudo-header, the
    TCP header with a zero checksum and the payload, where the TCP length
    is header plus payload length; folded and complemented. *)
Definition spec_CheckTCPIPv4Sum (layer : TCP) (payload : list byte) (ipv4 : IPv4) : Z :=
  let header := TCP_header layer 0 in
  spec_checkSum
    (pseudo_header (IPv4_SrcIP ipv4) (IPv4_DstIP ipv4)
                   (len header + len payload)
     ++ header ++ payload).

(** What a receiver checks: the one's-complement sum over the header
    (checksum field included) is all ones. *)
Definition ipv4_checksum_verifies (header : list byte) : bool :=
  fold16 (sum16 header) =? 0xFFFF.

(** The same over pseudo-header and TCP segment (header and payload). *)
Definition tcp_checksum_verifies (srcIP dstIP : IP) (segment : list byte) : bool :=
  fold16 (sum16 (pseudo_header srcIP dstIP (len segment) ++ segment)) =? 0xFFFF.

(** ** gopacket serialization

    [gopacket.SerializeLayers] clears the buffer and calls [SerializeTo] on
    the layers from the last to the first; each call prepends its header
    to the bytes written so far.  The pipelines pass the zero
    [SerializeOptions], so no length or checksum is fixed up and no layer
    is changed.  The layers the pipelines build carry no IPv4 or TCP
    options. *)

Inductive SerializableLayer :=
| SLoopback (l : Loopback)
| SEthernet (e : Ethernet)
| SIPv4 (ip : IPv4)
| STCP (t : TCP)
| SPayload (data : list byte).

(** [layers.Loopback.SerializeTo]: the protocol family, four bytes in
    little-endian order. *)
Definition Loopback_SerializeTo (l : Loopback) (b : list byte) : option (list byte) :=
  Some (PutUint32LE (Loopback_Family l) ++ b).

(** [layers.Ethernet.SerializeTo]: both addresses must be six bytes long;
    a frame shorter than 60 bytes is padded with zero bytes at its end. *)
Definition Ethernet_SerializeTo (eth : Ethernet) (b : list byte) : option (list byte) :=
  if negb (length (Ethernet_DstMAC eth) =? 6)%nat then None
  else if negb (length (Ethernet_SrcMAC eth) =? 6)%nat then None
  else
    let head := Ethernet_DstMAC eth ++ Ethernet_SrcMAC eth in
    let typ :=
      if negb (Ethernet_Length eth =? 0)
         || (Ethernet_EthernetType eth =? EthernetTypeLLC)
      then
        if negb (Ethernet_EthernetType eth =? EthernetTypeLLC) then None
        else if 0x0600 <? Ethernet_Length eth then None
        else Some (PutUint16 (Ethernet_Length eth))
      else Some (PutUint16 (Ethernet_EthernetType eth)) in
    match typ with
    | None => None
    | Some typ =>
      let frame := head ++ typ ++ b in
      Some (frame ++ repeat Byte.x00 (60 - length frame))
    end.

Definition IPv4_flagsfrags (ip : IPv4) : Z :=
  uint16 (Z.lor (Z.shiftl (IPv4_Flags ip) 13) (IPv4_FragOffset ip)).

(** The twenty header bytes of [layers.IPv4.SerializeTo]. *)
Definition IPv4_header (ip : IPv4) (src dst : list byte) : list byte :=
  [byte_of_Z (Z.lor (Z.shiftl (IPv4_Version ip) 4) (IPv4_IHL ip));
   byte_of_Z (IPv4_TOS ip)]
  ++ PutUint16 (IPv4_Length ip) ++ PutUint16 (IPv4_Id ip)
  ++ PutUint16 (IPv4_flagsfrags ip)
  ++ [byte_of_Z (IPv4_TTL ip); byte_of_Z (IPv4_Protocol ip)]
  ++ PutUint16 (IPv4_Checksum ip) ++ src ++ dst.

(** [layers.IPv4.SerializeTo]; [AddressTo4] refuses an address that has no
    four-byte form. *)
Definition IPv4_SerializeTo (ip : IPv4) (b : list byte) : option (list byte) :=
  match To4 (IPv4_SrcIP ip), To4 (IPv4_DstIP ip) with
  | Some src, Some dst => Some (IPv4_header ip src dst ++ b)
  | _, _ => None
  end.

Definition TCP_SerializeTo (t : TCP) (b : list byte) : option (list byte) :=
  Some (TCP_header t (TCP_Checksum t) ++ b).

Definition SerializeTo (l : SerializableLayer) (b : list byte) : option (list byte) :=
  match l with
  | SLoopback l => Loopback_SerializeTo l b
  | SEthernet e => Ethernet_SerializeTo e b
  | SIPv4 ip => IPv4_SerializeTo ip b
  | STCP t => TCP_SerializeTo t b
  | SPayload data => Some (data ++ b)
  end.

Definition SerializeLayers (layers : list SerializableLayer) : option (list byte) :=
  fold_right (fun l acc => match acc with
                           | Some b => SerializeTo l b
                           | None => None
                           end) (Some []) layers.

Definition LinkLayer_serializable (l : LinkLayer) : SerializableLayer :=
  match l with
  | LL_Loopback l => SLoopback l
  | LL_Ethernet e => SEthernet e
  end.

(** ** Devices, handles and the NAT table *)

Record Device := {
  Device_Name : string;
  Device_FriendlyName : string;
  Device_IsLoop : bool;
  Device_HardwareAddr : list byte;
  Device_IPAddrs : list IPNet
}.

Definition nil_IPNet : IPNet := {| IPNet_IP := []; IPNet_Mask := [] |}.

(** Modelled from the spec: the missing accessor [Device.IPv4()], the first
    IPv4 address of the device if present; a network with a nil IP
    otherwise (the callers test [.IP] against nil). *)
Definition Device_IPv4 (d : Device) : IPNet :=
  match List.find (fun a => bool_decide (is_Some (To4 (IPNet_IP a)))) (Device_IPAddrs d) with
  | Some a => a
  | None => nil_IPNet
  end.

(** Modelled from the spec: the missing accessor [Device.IPv6()], the first
    IPv6 address of the device if present. *)
Definition Device_IPv6 (d : Device) : IPNet :=
  match List.find (fun a => (length (IPNet_IP a) =? 16)%nat
                            && negb (bool_decide (is_Some (To4 (IPNet_IP a)))))
                  (Device_IPAddrs d) with
  | Some a => a
  | None => nil_IPNet
  end.

(** A [*pcap.Handle]. *)
Definition Handle := N.

(** [Quintuple], the key of the NAT table.  Its declaration is in a file
    that is not at hand; the fields and their types are those of the two
    struct literals in [layer.go]. *)
Record Quintuple := {
  Quintuple_SrcIP : string;
  Quintuple_SrcPort : Z;
  Quintuple_DstIP : string;
  Quintuple_DstPort : Z;
  Quintuple_Protocol : LayerType
}.

Global Instance Quintuple_eq_dec : EqDecision Quintuple.
Proof. solve_decision. Defined.

Definition Quintuple_to_tuple (q : Quintuple) : string * Z * string * Z * LayerType :=
  (Quintuple_SrcIP q, Quintuple_SrcPort q, Quintuple_DstIP q, Quintuple_DstPort q, Quintuple_Protocol q).

Definition Quintuple_of_tuple (t : string * Z * string * Z * LayerType) : Quintuple :=
  let '(a, b, c, d, e) := t in
  {| Quintuple_SrcIP := a; Quintuple_SrcPort := b; Quintuple_DstIP := c; Quintuple_DstPort := d; Quintuple_Protocol := e |}.

Lemma Quintuple_of_to_tuple q : Quintuple_of_tuple (Quintuple_to_tuple q) = q.
Proof. destruct q; reflexivity. Defined.

Global Instance Quintuple_countable : Countable Quintuple :=
  inj_countable' Quintuple_to_tuple Quintuple_of_tuple Quintuple_of_to_tuple.

(** [Pcap]. *)
Record Pcap := {
  Pcap_ListenPort : Z;
  Pcap_UpPort : Z;
  Pcap_ServerIP : IP;
  Pcap_ServerPort : Z;
  Pcap_ListenDevs : list Device;
  Pcap_UpDev : Device;
  Pcap_GatewayDev : Device;
  Pcap_listenHandles : list Handle;
  Pcap_upHandle : Handle;
  Pcap_seq : Z;
  Pcap_id : Z;
  Pcap_nat : gmap Quintuple Handle
}.

Definition set_seq (v : Z) (p : Pcap) : Pcap :=
  {| Pcap_ListenPort := Pcap_ListenPort p; Pcap_UpPort := Pcap_UpPort p; Pcap_ServerIP := Pcap_ServerIP p;
     Pcap_ServerPort := Pcap_ServerPort p; Pcap_ListenDevs := Pcap_ListenDevs p; Pcap_UpDev := Pcap_UpDev p;
     Pcap_GatewayDev := Pcap_GatewayDev p; Pcap_listenHandles := Pcap_listenHandles p;
     Pcap_upHandle := Pcap_upHandle p; Pcap_seq := v; Pcap_id := Pcap_id p; Pcap_nat := Pcap_nat p |}.

Definition set_id (v : Z) (p : Pcap) : Pcap :=
  {| Pcap_ListenPort := Pcap_ListenPort p; Pcap_UpPort := Pcap_UpPort p; Pcap_ServerIP := Pcap_ServerIP p;
     Pcap_ServerPort := Pcap_ServerPort p; Pcap_ListenDevs := Pcap_ListenDevs p; Pcap_UpDev := Pcap_UpDev p;
     Pcap_GatewayDev := Pcap_GatewayDev p; Pcap_listenHandles := Pcap_listenHandles p;
     Pcap_upHandle := Pcap_upHandle p; Pcap_seq := Pcap_seq p; Pcap_id := v; Pcap_nat := Pcap_nat p |}.

Definition set_nat (v : gmap Quintuple Handle) (p : Pcap) : Pcap :=
  {| Pcap_ListenPort := Pcap_ListenPort p; Pcap_UpPort := Pcap_UpPort p; Pcap_ServerIP := Pcap_ServerIP p;
     Pcap_ServerPort := Pcap_ServerPort p; Pcap_ListenDevs := Pcap_ListenDevs p; Pcap_UpDev := Pcap_UpDev p;
     Pcap_GatewayDev := Pcap_GatewayDev p; Pcap_listenHandles := Pcap_listenHandles p;
     Pcap_upHandle := Pcap_upHandle p; Pcap_seq := Pcap_seq p; Pcap_id := Pcap_id p; Pcap_nat := v |}.

(** [Pcap.gatewayDevIP]: [p.GatewayDev.IPAddrs[0].IP]; indexing an empty
    slice panics. *)
Definition gatewayDevIP (p : Pcap) : option IP :=
  match Device_IPAddrs (Pcap_GatewayDev p) with
  | a :: _ => Some (IPNet_IP a)
  | [] => None
  end.

(** ** Packets *)

(** A decoded [gopacket.Packet], as far as the pipelines look at it: the
    results of [NetworkLayer()], [TransportLayer()] and
    [ApplicationLayer()] ([None] for nil; for the application layer the
    [LayerContents()]). *)
Record Packet := {
  pkt_network : option NetworkLayer;
  pkt_transport : option TransportLayer;
  pkt_application : option (list byte)
}.

(** Why a handler printed an error and returned. *)
Inductive Diag :=
| MissingNetworkLayer
| NotSupport (t : LayerType)
| MissingTransportLayer
| IPVersionTransitionNotSupport
| IPv6NotSupport
| SerializeFailed
| EmptyPayload
| TypeNotSupport
| IPVersionNotSupport (v : Z).

(** What a handler did with a packet: it returned early ([Drop]); it called
    [WritePacketData data] on a handle ([Inject]; an error of the write is
    only printed); or it panicked. *)
Inductive Outcome :=
| Drop (e : Diag)
| Inject (h : Handle) (data : list byte)
| Panic.

(** [layers.IPv4.DecodeFromBytes], the fields read before the header is
    validated.  Under 20 bytes the decoder returns at once and the layer
    keeps Go's zero value.  [decodeIPv4] makes the layer the packet's
    network layer before it looks at the decoder's error.  [Contents] and
    [Payload] hold the decoder's first guess, which it narrows once the
    lengths are validated; the pipeline does not read them. *)
Definition zero_IPv4 : IPv4 :=
  {| IPv4_Contents := []; IPv4_Payload := [];
     IPv4_Version := 0; IPv4_IHL := 0; IPv4_TOS := 0; IPv4_Length := 0;
     IPv4_Id := 0; IPv4_Flags := 0; IPv4_FragOffset := 0; IPv4_TTL := 0;
     IPv4_Protocol := 0; IPv4_Checksum := 0;
     IPv4_SrcIP := []; IPv4_DstIP := [] |}.

Definition Uint16 (hi lo : byte) : Z := byte_val hi * 256 + byte_val lo.

Definition IPv4_DecodeFromBytes (data : list byte) : IPv4 :=
  if (length data <? 20)%nat then zero_IPv4
  else
    let at_ i := nth i data Byte.x00 in
    let flagsfrags := Uint16 (at_ 6%nat) (at_ 7%nat) in
    {| IPv4_Contents := data; IPv4_Payload := [];
       IPv4_Version := Z.shiftr (byte_val (at_ 0%nat)) 4;
       IPv4_IHL := Z.land (byte_val (at_ 0%nat)) 0x0F;
       IPv4_TOS := byte_val (at_ 1%nat);
       IPv4_Length := Uint16 (at_ 2%nat) (at_ 3%nat);
       IPv4_Id := Uint16 (at_ 4%nat) (at_ 5%nat);
       IPv4_Flags := Z.shiftr flagsfrags 13;
       IPv4_FragOffset := Z.land flagsfrags 0x1FFF;
       IPv4_TTL := byte_val (at_ 8%nat);
       IPv4_Protocol := byte_val (at_ 9%nat);
       IPv4_Checksum := Uint16 (at_ 10%nat) (at_ 11%nat);
       IPv4_SrcIP := slice 12 16 data;
       IPv4_DstIP := slice 16 20 data |}.

(** [layers.IPv6.DecodeFromBytes], likewise; it needs 40 bytes. *)
Definition zero_IPv6 : IPv6 :=
  {| IPv6_Contents := []; IPv6_Payload := []; IPv6_Version := 0;
     IPv6_Length := 0; IPv6_NextHeader := 0; IPv6_HopLimit := 0;
     IPv6_SrcIP := []; IPv6_DstIP := [] |}.

Definition IPv6_DecodeFromBytes (data : list byte) : IPv6 :=
  if (length data <? 40)%nat then zero_IPv6
  else
    let at_ i := nth i data Byte.x00 in
    {| IPv6_Contents := slice 0 40 data; IPv6_Payload := skipn 40 data;
       IPv6_Version := Z.shiftr (byte_val (at_ 0%nat)) 4;
       IPv6_Length := Uint16 (at_ 4%nat) (at_ 5%nat);
       IPv6_NextHeader := byte_val (at_ 6%nat);
       IPv6_HopLimit := byte_val (at_ 7%nat);
       IPv6_SrcIP := slice 8 24 data;
       IPv6_DstIP := slice 24 40 data |}.

(** [gopacket.NewPacket(data, first, gopacket.Default).NetworkLayer()] for
    the two first-layer decoders the inbound pipeline asks for. *)
Definition NewPacket_NetworkLayer (data : list byte) (first : LayerType) : option NetworkLayer :=
  match first with
  | LayerTypeIPv4 => Some (NL_IPv4 (IPv4_DecodeFromBytes data))
  | LayerTypeIPv6 => Some (NL_IPv6 (IPv6_DecodeFromBytes data))
  | _ => None
  end.

(** The first nibble of a byte string. *)
Definition first_nibble (data : list byte) : Z :=
  Z.shiftr (byte_val (nth 0 data Byte.x00)) 4.

(** ** The pipelines *)

Section Pipelines.

(** [net.IP.String], Go's textual form of an address. *)
Variable IP_String : IP -> string.

(** [checkSum] and [CheckTCPIPv4Sum] of this package. *)
Variable checkSum : list byte -> Z.
Variable CheckTCPIPv4Sum : TCP -> list byte -> IPv4 -> Z.

(** [gopacket.NewPacket(data, LayerTypeIPv4, gopacket.Default)
    .TransportLayer()]: the transport layer gopacket's decoders find behind
    the IPv4 header of [data], [None] for nil. *)
Variable NewPacket_IPv4_TransportLayer : list byte -> option TransportLayer.

(** The link layer both pipelines put in front of what they send on the
    upstream side; [t] is the EtherType chosen by the caller's switch. *)
Definition upstream_Ethernet (p : Pcap) (t : Z) : Ethernet :=
  {| Ethernet_SrcMAC := Device_HardwareAddr (Pcap_UpDev p);
     Ethernet_DstMAC := Device_HardwareAddr (Pcap_GatewayDev p);
     Ethernet_EthernetType := t;
     Ethernet_Length := 0 |}.

(** [Pcap.handleListen]: the outbound pipeline, for a packet captured on
    the listen handle [handle]. *)
Definition handleListen (p : Pcap) (packet : Packet) (handle : Handle) : Pcap * Outcome :=
  (* Parse packet *)
  match pkt_network packet with
  | None => (p, Drop MissingNetworkLayer)
  | Some networkLayer =>
    let '(srcIP, dstIP, ttl) :=
      match networkLayer with
      | NL_IPv4 ipv4Layer =>
        (IPv4_SrcIP ipv4Layer, IPv4_DstIP ipv4Layer, IPv4_TTL ipv4Layer)
      | NL_IPv6 ipv6Layer =>
        (IPv6_SrcIP ipv6Layer, IPv6_DstIP ipv6Layer, 0)
      end in
    match pkt_transport packet with
    | None => (p, Drop MissingTransportLayer)
    | Some transportLayer =>
      let transportLayerType := TransportLayer_LayerType transportLayer in
      let '(srcPort, dstPort) :=
        match transportLayer with
        | TL_TCP tcpLayer => (TCP_SrcPort tcpLayer, TCP_DstPort tcpLayer)
        | TL_UDP udpLayer => (UDP_SrcPort udpLayer, UDP_DstPort udpLayer)
        | TL_Other _ _ => (0, 0)
        end in
      (* Construct contents of new application layer *)
      let contents :=
        NetworkLayer_LayerContents networkLayer
        ++ TransportLayer_LayerContents transportLayer
        ++ match pkt_application packet with
           | Some c => c
           | None => []
           end in
      (* Create new transport layer in TCP *)
      let newTransportLayer :=
        createTCP (Pcap_UpPort p) (Pcap_ServerPort p) (Pcap_seq p) in
      let p := set_seq (uint32 (Pcap_seq p + 1)) p in
      (* Decide IPv4 or IPv6 *)
      match gatewayDevIP p with
      | None => (p, Panic)
      | Some gatewayIP =>
        match To4 gatewayIP with
        | Some _ =>
          let upDevIP := IPNet_IP (Device_IPv4 (Pcap_UpDev p)) in
          if is_nil upDevIP then (p, Drop IPVersionTransitionNotSupport)
          else
            (* Create new network layer in IPv4 *)
            let ipv4 :=
              createIPv4 upDevIP (Pcap_ServerIP p) (Pcap_id p) (uint8 (ttl - 1)) in
            let p := set_id (uint16 (Pcap_id p + 1)) p in
            (* Checksum of transport layer *)
            let newTransportLayer :=
              TCP_set_Checksum (CheckTCPIPv4Sum newTransportLayer contents ipv4)
                               newTransportLayer in
            (* Fill length and checksum of network layer *)
            let ipv4 :=
              IPv4_set_Length
                (uint16 ((uint16 (IPv4_IHL ipv4)
                          + uint16 (len (TCP_Contents newTransportLayer))
                          + uint16 (len contents)) * 8)) ipv4 in
            let ipv4 := IPv4_set_Checksum (checkSum (IPv4_Contents ipv4)) ipv4 in
            (* Create new link layer *)
            let newLinkLayer :=
              if Device_IsLoop (Pcap_UpDev p)
              then LL_Loopback {| Loopback_Family := 0 |}
              else LL_Ethernet (upstream_Ethernet p EthernetTypeIPv4) in
            (* Append quintuple *)
            let q := {| Quintuple_SrcIP := IP_String srcIP;
                        Quintuple_SrcPort := srcPort;
                        Quintuple_DstIP := IP_String dstIP;
                        Quintuple_DstPort := dstPort;
                        Quintuple_Protocol := transportLayerType |} in
            let p := set_nat (<[q := handle]> (Pcap_nat p)) p in
            (* Serialize layers *)
            match SerializeLayers [LinkLayer_serializable newLinkLayer;
                                   SIPv4 ipv4;
                                   STCP newTransportLayer;
                                   SPayload contents] with
            | None => (p, Drop SerializeFailed)
            | Some data =>
              (* Write packet data *)
              (p, Inject (Pcap_upHandle p) data)
            end
        | None =>
          let upDevIP := IPNet_IP (Device_IPv6 (Pcap_UpDev p)) in
          if is_nil upDevIP then (p, Drop IPVersionTransitionNotSupport)
          else (p, Drop IPv6NotSupport)
        end
      end
    end
  end.

(** The block "Guess network layer type" of [Pcap.handle]: the inner
    packet is decoded as IPv4 first and the [Version] field of that
    decoding picks the branch.  The result is [encappedNetworkLayerType],
    [encappedDstIP] and [encappedSrcIP], or the error printed. *)
Definition encapped_network (contents : list byte) : Diag + (LayerType * IP * IP) :=
  match NewPacket_NetworkLayer contents LayerTypeIPv4 with
  | None => inl MissingNetworkLayer
  | Some (NL_IPv6 _) => inl TypeNotSupport
  | Some (NL_IPv4 encappedIPv4Layer) =>
    let ipVersion := IPv4_Version encappedIPv4Layer in
    if ipVersion =? 4 then
      inr (LayerTypeIPv4,
           IPv4_DstIP encappedIPv4Layer, IPv4_SrcIP encappedIPv4Layer)
    else if ipVersion =? 6 then
      (* Not IPv4, but IPv6 *)
      match NewPacket_NetworkLayer contents LayerTypeIPv6 with
      | None => inl MissingNetworkLayer
      | Some (NL_IPv4 _) => inl TypeNotSupport
      | Some (NL_IPv6 encappedIPv6Layer) =>
        inr (LayerTypeIPv6,
             IPv6_DstIP encappedIPv6Layer, IPv6_SrcIP encappedIPv6Layer)
      end
    else inl (IPVersionNotSupport ipVersion)
  end.

(** The switch on the inner transport layer: [encappedDstPort] and
    [encappedSrcPort], zero when the layer is neither TCP nor UDP. *)
Definition encapped_ports (encappedTransportLayer : TransportLayer) : Z * Z :=
  match encappedTransportLayer with
  | TL_TCP encappedTCPLayer =>
    (TCP_DstPort encappedTCPLayer, TCP_SrcPort encappedTCPLayer)
  | TL_UDP encappedUDPLayer =>
    (UDP_DstPort encappedUDPLayer, UDP_SrcPort encappedUDPLayer)
  | TL_Other _ _ => (0, 0)
  end.

(** [Pcap.handle]: the inbound pipeline, for a packet captured on the
    upstream handle. *)
Definition handle (p : Pcap) (packet : Packet) : Pcap * Outcome :=
  (* Parse packet *)
  match pkt_application packet with
  | None => (p, Drop EmptyPayload)
  | Some contents =>
    match encapped_network contents with
    | inl e => (p, Drop e)
    | inr (encappedNetworkLayerType, encappedDstIP, encappedSrcIP) =>
      (* [encappedPacket] is the IPv4 decoding in both cases: the IPv6
         branch declares a packet of its own with [:=], local to it *)
      match NewPacket_IPv4_TransportLayer contents with
      | None => (p, Drop MissingTransportLayer)
      | Some encappedTransportLayer =>
        let encappedTransportLayerType :=
          TransportLayer_LayerType encappedTransportLayer in
        let '(encappedDstPort, encappedSrcPort) :=
          encapped_ports encappedTransportLayer in
        (* Create new link layer *)
        let link : Diag + LinkLayer :=
          if Device_IsLoop (Pcap_UpDev p)
          then inr (LL_Loopback {| Loopback_Family := 0 |})
          else
            match encappedNetworkLayerType with
            | LayerTypeIPv4 =>
              inr (LL_Ethernet (upstream_Ethernet p EthernetTypeIPv4))
            | t => inl (NotSupport t)
            end in
        match link with
        | inl e => (p, Drop e)
        | inr newLinkLayer =>
          (* Serialize layers *)
          match SerializeLayers [LinkLayer_serializable newLinkLayer;
                                 SPayload contents] with
          | None => (p, Drop SerializeFailed)
          | Some data =>
            (* Check map *)
            let q := {| Quintuple_SrcIP := IP_String encappedDstIP;
                        Quintuple_SrcPort := encappedDstPort;
                        Quintuple_DstIP := IP_String encappedSrcIP;
                        Quintuple_DstPort := encappedSrcPort;
                        Quintuple_Protocol := encappedTransportLayerType |} in
            let handle :=
              match Pcap_nat p !! q with
              | Some h => h
              | None => Pcap_upHandle p
              end in
            (* Write packet data *)
            (p, Inject handle data)
          end
        end
      end
    end
  end.

End Pipelines.

(** ** Notions the properties are stated with *)

(** Source address, destination address and TTL that [handleListen] reads
    off the network layer; the hop limit of IPv6 is not read. *)
Definition network_addrs (nl : NetworkLayer) : IP * IP * Z :=
  match nl with
  | NL_IPv4 l => (IPv4_SrcIP l, IPv4_DstIP l, IPv4_TTL l)
  | NL_IPv6 l => (IPv6_SrcIP l, IPv6_DstIP l, 0)
  end.

(** Source and destination port of a transport layer, zero when it is
    neither TCP nor UDP. *)
Definition transport_ports (tl : TransportLayer) : Z * Z :=
  match tl with
  | TL_TCP t => (TCP_SrcPort t, TCP_DstPort t)
  | TL_UDP u => (UDP_SrcPort u, UDP_DstPort u)
  | TL_Other _ _ => (0, 0)
  end.

(** The five-tuple of a packet with network layer [nl] and transport layer
    [tl]. *)
Definition packet_quintuple (IP_String : IP -> string)
    (nl : NetworkLayer) (tl : TransportLayer) : Quintuple :=
  {| Quintuple_SrcIP := IP_String (network_addrs nl).1.1;
     Quintuple_SrcPort := (transport_ports tl).1;
     Quintuple_DstIP := IP_String (network_addrs nl).1.2;
     Quintuple_DstPort := (transport_ports tl).2;
     Quintuple_Protocol := TransportLayer_LayerType tl |}.

(** The five-tuple with source and destination exchanged. *)
Definition reverse_quintuple (q : Quintuple) : Quintuple :=
  {| Quintuple_SrcIP := Quintuple_DstIP q;
     Quintuple_SrcPort := Quintuple_DstPort q;
     Quintuple_DstIP := Quintuple_SrcIP q;
     Quintuple_DstPort := Quintuple_SrcPort q;
     Quintuple_Protocol := Quintuple_Protocol q |}.

(** The tunnel payload: the contents of the captured network, transport
    and application layers. *)
Definition tunnel_payload (packet : Packet) (nl : NetworkLayer) (tl : TransportLayer) : list byte :=
  NetworkLayer_LayerContents nl ++ TransportLayer_LayerContents tl
  ++ match pkt_application packet with
     | Some c => c
     | None => []
     end.

(** The link header in front of a frame sent on the upstream side: four
    zero bytes on a loopback device, otherwise gateway MAC, upstream MAC
    and the IPv4 EtherType. *)
Definition link_header (p : Pcap) : list byte :=
  if Device_IsLoop (Pcap_UpDev p) then PutUint32LE 0
  else Device_HardwareAddr (Pcap_GatewayDev p)
       ++ Device_HardwareAddr (Pcap_UpDev p)
       ++ PutUint16 EthernetTypeIPv4.

(** The zero bytes [layers.Ethernet.SerializeTo] appends to a frame of
    [n] bytes; none on a loopback device. *)
Definition link_padding (p : Pcap) (n : nat) : list byte :=
  if Device_IsLoop (Pcap_UpDev p) then []
  else repeat Byte.x00 (60 - n).

(** The five-tuple the inbound pipeline derives from a carrier payload. *)
Definition encapped_quintuple (IP_String : IP -> string)
    (NewPacket_IPv4_TransportLayer : list byte -> option TransportLayer)
    (contents : list byte) : option Quintuple :=
  match encapped_network contents, NewPacket_IPv4_TransportLayer contents with
  | inr (_, dstIP, srcIP), Some tl =>
    Some {| Quintuple_SrcIP := IP_String srcIP;
            Quintuple_SrcPort := (transport_ports tl).1;
            Quintuple_DstIP := IP_String dstIP;
            Quintuple_DstPort := (transport_ports tl).2;
            Quintuple_Protocol := TransportLayer_LayerType tl |}
  | _, _ => None
  end.

Definition IPv4_has_flag (l : IPv4) (flag : Z) : bool :=
  negb (Z.land (IPv4_Flags l) flag =? 0).

Definition TransportLayer_pseudoheader (tl : TransportLayer) : option NetworkLayer :=
  match tl with
  | TL_TCP t => TCP_pseudoheader t
  | TL_UDP u => UDP_pseudoheader u
  | TL_Other _ _ => None
  end.

(** The carrier headers [handleListen] builds for a packet with the given
    TTL and tunnel payload: the IPv4 header with the length and checksum
    the pipeline fills in (both are computed from the [LayerContents()] of
    layers it has just built, which are empty), and the TCP header with
    its checksum. *)
Definition carrier_IPv4 (checkSum : list byte -> Z) (p : Pcap) (ttl : Z)
    (contents : list byte) : IPv4 :=
  let ipv4 := createIPv4 (IPNet_IP (Device_IPv4 (Pcap_UpDev p))) (Pcap_ServerIP p)
                         (Pcap_id p) (uint8 (ttl - 1)) in
  let ipv4 := IPv4_set_Length (uint16 ((5 + 0 + uint16 (len contents)) * 8)) ipv4 in
  IPv4_set_Checksum (checkSum []) ipv4.

Definition carrier_TCP (CheckTCPIPv4Sum : TCP -> list byte -> IPv4 -> Z)
    (p : Pcap) (ttl : Z) (contents : list byte) : TCP :=
  let tcp := createTCP (Pcap_UpPort p) (Pcap_ServerPort p) (Pcap_seq p) in
  TCP_set_Checksum
    (CheckTCPIPv4Sum tcp contents
       (createIPv4 (IPNet_IP (Device_IPv4 (Pcap_UpDev p))) (Pcap_ServerIP p)
                   (Pcap_id p) (uint8 (ttl - 1))))
    tcp.

(** The link layer of the upstream side. *)
Definition upstream_link (p : Pcap) : LinkLayer :=
  if Device_IsLoop (Pcap_UpDev p)
  then LL_Loopback {| Loopback_Family := 0 |}
  else LL_Ethernet (upstream_Ethernet p EthernetTypeIPv4).

(** The frame the outbound pipeline assembles: IPv4 header, TCP header
    and tunnel payload between link header and link padding; [src] and
    [dst] are the four-byte forms of the carrier addresses. *)
Definition carrier_frame (checkSum : list byte -> Z)
    (CheckTCPIPv4Sum : TCP -> list byte -> IPv4 -> Z)
    (p : Pcap) (ttl : Z) (contents src dst : list byte) : list byte :=
  let body :=
    IPv4_header (carrier_IPv4 checkSum p ttl contents) src dst
    ++ TCP_header (createTCP (Pcap_UpPort p) (Pcap_ServerPort p) (Pcap_seq p))
                  (TCP_Checksum (carrier_TCP CheckTCPIPv4Sum p ttl contents))
    ++ contents in
  link_header p ++ body ++ link_padding p (length (link_header p ++ body)).

(** The state after an outbound packet that passed the guards: both
    counters advanced and the five-tuple [q] bound to the handle [h]. *)
Definition registered (p : Pcap) (q : Quintuple) (h : Handle) : Pcap :=
  set_nat (<[q := h]> (Pcap_nat p))
    (set_id (uint16 (Pcap_id p + 1)) (set_seq (uint32 (Pcap_seq p + 1)) p)).

(** The link layer serializes: the device is a loopback device or both
    hardware addresses are six bytes long. *)
Definition link_serializable (p : Pcap) : Prop :=
  Device_IsLoop (Pcap_UpDev p) = true
  \/ (length (Device_HardwareAddr (Pcap_GatewayDev p)) = 6%nat
      /\ length (Device_HardwareAddr (Pcap_UpDev p)) = 6%nat).

(** The packets that pass every guard in front of the NAT registration: a
    network and a transport layer are present, the gateway's first
    address is IPv4 and the upstream device has an IPv4 address. *)
Definition reaches_registration (p : Pcap) (packet : Packet) : Prop :=
  is_Some (pkt_network packet) /\ is_Some (pkt_transport packet)
  /\ (exists gw, gatewayDevIP p = Some gw /\ is_Some (To4 gw))
  /\ is_nil (IPNet_IP (Device_IPv4 (Pcap_UpDev p))) = false.

(** ** Statements of the specification that the code does not meet

    Each is the property as the specification words it, at one input; the
    properties section refutes it at a scenario and proves what holds
    instead. *)

(** [FlagIPv4Layer]: never DF and MF together, DF when [df] is requested,
    MF when [mf] is requested, no flag when neither, and the given
    offset. *)
Definition FlagIPv4Layer_claim (layer : IPv4) (df mf : bool) (offset : Z) : Prop :=
  let l := FlagIPv4Layer layer df mf offset in
  (IPv4_has_flag l IPv4DontFragment && IPv4_has_flag l IPv4MoreFragments = false)
  /\ (df = true -> IPv4_has_flag l IPv4DontFragment = true)
  /\ (mf = true -> IPv4_has_flag l IPv4MoreFragments = true)
  /\ (df = false -> mf = false -> IPv4_Flags l = 0)
  /\ IPv4_FragOffset l = offset.

(** Outbound: whatever happens to an observed packet, its five-tuple is
    bound to the listen handle afterwards. *)
Definition nat_registration_claim (IP_String : IP -> string)
    (checkSum : list byte -> Z)
    (CheckTCPIPv4Sum : TCP -> list byte -> IPv4 -> Z)
    (p : Pcap) (packet : Packet) (h : Handle) : Prop :=
  forall nl tl,
    pkt_network packet = Some nl -> pkt_transport packet = Some tl ->
    Pcap_nat (handleListen IP_String checkSum CheckTCPIPv4Sum p packet h).1
      !! packet_quintuple IP_String nl tl = Some h.

(** Inbound: the frame sent is the link header and the carrier payload,
    nothing else. *)
Definition verbatim_claim (IP_String : IP -> string)
    (NewPacket_IPv4_TransportLayer : list byte -> option TransportLayer)
    (p : Pcap) (packet : Packet) : Prop :=
  forall p' h data contents,
    handle IP_String NewPacket_IPv4_TransportLayer p packet = (p', Inject h data) ->
    pkt_application packet = Some contents ->
    data = link_header p ++ contents.

(** Inbound: for a non-empty payload the first nibble decides: 4 gives the
    IPv4 decoding, 6 the IPv6 decoding, anything else an error. *)
Definition version_claim (contents : list byte) : Prop :=
  contents <> [] ->
  (first_nibble contents = 4 ->
   encapped_network contents
   = inr (LayerTypeIPv4, slice 16 20 contents, slice 12 16 contents))
  /\ (first_nibble contents = 6 ->
      encapped_network contents
      = inr (LayerTypeIPv6, IPv6_DstIP (IPv6_DecodeFromBytes contents),
             IPv6_SrcIP (IPv6_DecodeFromBytes contents)))
  /\ (first_nibble contents <> 4 -> first_nibble contents <> 6 ->
      exists e, encapped_network contents = inl e).

(** ** Scenarios *)

(** Dotted-decimal text of an IPv4 address, as [net.IP.String] prints
    it. *)
Definition dotted_IP_String (ip : IP) : string :=
  match To4 ip with
  | Some [a; b; c; d] =>
    pretty (byte_val a) +:+ "." +:+ pretty (byte_val b) +:+ "."
    +:+ pretty (byte_val c) +:+ "." +:+ pretty (byte_val d)
  | _ => "?"
  end.

(** A decoder for IPv4 packets without options that carry TCP or UDP. *)
Definition plain_IPv4_TransportLayer (data : list byte) : option TransportLayer :=
  let ip := IPv4_DecodeFromBytes data in
  let rest := skipn 20 data in
  let at_ i := nth i rest Byte.x00 in
  if negb ((IPv4_Version ip =? 4) && (IPv4_IHL ip =? 5)) then None
  else if (IPv4_Protocol ip =? IPProtocolTCP) && (20 <=? length rest)%nat then
    Some (TL_TCP
      {| TCP_Contents := firstn 20 rest;
         TCP_SrcPort := Uint16 (at_ 0%nat) (at_ 1%nat);
         TCP_DstPort := Uint16 (at_ 2%nat) (at_ 3%nat);
         TCP_Seq := 0; TCP_Ack := 0; TCP_DataOffset := 5;
         TCP_FIN := false; TCP_SYN := false; TCP_RST := false;
         TCP_PSH := false; TCP_ACK := false; TCP_URG := false;
         TCP_ECE := false; TCP_CWR := false; TCP_NS := false;
         TCP_Window := 0; TCP_Checksum := 0; TCP_Urgent := 0;
         TCP_pseudoheader := None |})
  else if (IPv4_Protocol ip =? IPProtocolUDP) && (8 <=? length rest)%nat then
    Some (TL_UDP
      {| UDP_Contents := firstn 8 rest;
         UDP_SrcPort := Uint16 (at_ 0%nat) (at_ 1%nat);
         UDP_DstPort := Uint16 (at_ 2%nat) (at_ 3%nat);
         UDP_Length := 0; UDP_Checksum := 0; UDP_pseudoheader := None |})
  else None.

Definition upstream_device : Device :=
  {| Device_Name := "eth0"; Device_FriendlyName := "Ethernet";
     Device_IsLoop := false;
     Device_HardwareAddr := bytes_of [0x02; 0; 0; 0; 0; 0x01];
     Device_IPAddrs := [ {| IPNet_IP := bytes_of [192; 168; 1; 10];
                            IPNet_Mask := bytes_of [255; 255; 255; 0] |} ] |}.

Definition gateway_device : Device :=
  {| Device_Name := "eth0"; Device_FriendlyName := "Gateway";
     Device_IsLoop := false;
     Device_HardwareAddr := bytes_of [0x02; 0; 0; 0; 0; 0x02];
     Device_IPAddrs := [ {| IPNet_IP := bytes_of [192; 168; 1; 1];
                            IPNet_Mask := bytes_of [255; 255; 255; 0] |} ] |}.

(** A gateway whose first address is IPv6 ([fe80::1]). *)
Definition gateway_device_v6 : Device :=
  {| Device_Name := "eth0"; Device_FriendlyName := "Gateway";
     Device_IsLoop := false;
     Device_HardwareAddr := bytes_of [0x02; 0; 0; 0; 0; 0x02];
     Device_IPAddrs := [ {| IPNet_IP := bytes_of [0xfe; 0x80; 0; 0; 0; 0; 0; 0;
                                                  0; 0; 0; 0; 0; 0; 0; 1];
                            IPNet_Mask := [] |} ] |}.

Definition listen_handle : Handle := 1%N.

(** A freshly opened proxy: upstream handle 0, one listen handle, counters
    at zero, empty NAT table; the server is [1.2.3.4:443]. *)
Definition proxy (gateway : Device) : Pcap :=
  {| Pcap_ListenPort := 8080; Pcap_UpPort := 54321;
     Pcap_ServerIP := bytes_of [1; 2; 3; 4]; Pcap_ServerPort := 443;
     Pcap_ListenDevs := [upstream_device];
     Pcap_UpDev := upstream_device; Pcap_GatewayDev := gateway;
     Pcap_listenHandles := [listen_handle]; Pcap_upHandle := 0%N;
     Pcap_seq := 0; Pcap_id := 0; Pcap_nat := ∅ |}.

(** The header bytes of an IPv4 packet [10.0.0.2 -> 8.8.8.8] of 40 bytes
    with TTL 64 and of its TCP segment [50000 -> 443]. *)
Definition out_ip_bytes : list byte :=
  bytes_of [0x45; 0; 0; 40; 0; 1; 0x40; 0; 64; 6; 0x20; 0xbe;
            10; 0; 0; 2; 8; 8; 8; 8].

Definition out_tcp_bytes : list byte :=
  bytes_of [0xc3; 0x50; 0x01; 0xbb; 0; 0; 0; 1; 0; 0; 0; 0;
            0x50; 0x02; 0xff; 0xff; 0; 0; 0; 0].

(** Scenario 1: that packet as gopacket decodes it on a listen handle. *)
Definition out_network : NetworkLayer :=
  NL_IPv4
    {| IPv4_Contents := out_ip_bytes; IPv4_Payload := out_tcp_bytes;
       IPv4_Version := 4; IPv4_IHL := 5; IPv4_TOS := 0; IPv4_Length := 40;
       IPv4_Id := 1; IPv4_Flags := IPv4DontFragment; IPv4_FragOffset := 0;
       IPv4_TTL := 64; IPv4_Protocol := IPProtocolTCP;
       IPv4_Checksum := 0x20be;
       IPv4_SrcIP := bytes_of [10; 0; 0; 2];
       IPv4_DstIP := bytes_of [8; 8; 8; 8] |}.

Definition out_transport : TransportLayer :=
  TL_TCP
    {| TCP_Contents := out_tcp_bytes;
       TCP_SrcPort := 50000; TCP_DstPort := 443;
       TCP_Seq := 1; TCP_Ack := 0; TCP_DataOffset := 5;
       TCP_FIN := false; TCP_SYN := true; TCP_RST := false;
       TCP_PSH := false; TCP_ACK := false; TCP_URG := false;
       TCP_ECE := false; TCP_CWR := false; TCP_NS := false;
       TCP_Window := 65535; TCP_Checksum := 0; TCP_Urgent := 0;
       TCP_pseudoheader := None |}.

Definition out_packet : Packet :=
  {| pkt_network := Some out_network;
     pkt_transport := Some out_transport;
     pkt_application := None |}.

Definition out_quintuple : Quintuple :=
  {| Quintuple_SrcIP := "10.0.0.2"; Quintuple_SrcPort := 50000;
     Quintuple_DstIP := "8.8.8.8"; Quintuple_DstPort := 443;
     Quintuple_Protocol := LayerTypeTCP |}.

(** Scenario 4: the reply [8.8.8.8:443 -> 10.0.0.2:50000], 40 bytes, as the
    payload of a carrier segment captured on the upstream handle. *)
Definition reply_bytes : list byte :=
  bytes_of [0x45; 0; 0; 40; 0; 7; 0x40; 0; 57; 6; 0; 0;
            8; 8; 8; 8; 10; 0; 0; 2;
            0x01; 0xbb; 0xc3; 0x50; 0; 0; 0; 9; 0; 0; 0; 2;
            0x50; 0x12; 0xff; 0xff; 0; 0; 0; 0].

(** Of the carrier frame only the application layer is read. *)
Definition carrier_packet (payload : option (list byte)) : Packet :=
  {| pkt_network := None; pkt_transport := None;
     pkt_application := payload |}.

(** The proxy after scenario 1, and the frame it sent. *)
Definition proxy_after_out : Pcap :=
  (handleListen dotted_IP_String spec_checkSum spec_CheckTCPIPv4Sum
    (proxy gateway_device) out_packet listen_handle).1.

Definition out_frame : list byte :=
  match (handleListen dotted_IP_String spec_checkSum spec_CheckTCPIPv4Sum
    (proxy gateway_device)
                      out_packet listen_handle).2 with
  | Inject _ data => data
  | _ => []
  end.

(** The frame scenario 4 sends back. *)
Definition in_frame : list byte :=
  match (handle dotted_IP_String plain_IPv4_TransportLayer proxy_after_out
                (carrier_packet (Some reply_bytes))).2 with
  | Inject _ data => data
  | _ => []
  end.

(** ** The other builders of [layer.go] *)


Definition IPv6_set_NextHeader (v : Z) (l : IPv6) : IPv6 :=
  {| IPv6_Contents := IPv6_Contents l; IPv6_Payload := IPv6_Payload l;
     IPv6_Version := IPv6_Version l; IPv6_Length := IPv6_Length l;
     IPv6_NextHeader := v; IPv6_HopLimit := IPv6_HopLimit l;
     IPv6_SrcIP := IPv6_SrcIP l; IPv6_DstIP := IPv6_DstIP l |}.

(** [CreateIPv6Layer].  An address is refused when it has an IPv4 form,
    and accepted otherwise, whatever its length.  The case
    [LayerTypeICMPv4] of the switch has no inhabitant among gopacket's
    transport layers.  The transport layer is not bound to the header. *)
Definition CreateIPv6Layer (srcIP dstIP : IP) (hopLimit : Z)
    (transportLayer : TransportLayer) : BuildError + IPv6 :=
  match To4 srcIP with
  | Some _ => inl InvalidSourceIP
  | None =>
    match To4 dstIP with
    | Some _ => inl InvalidDestinationIP
    | None =>
      let ipv6Layer :=
        {| IPv6_Contents := []; IPv6_Payload := [];
           IPv6_Version := 6; IPv6_Length := 0; IPv6_NextHeader := 0;
           IPv6_HopLimit := hopLimit;
           IPv6_SrcIP := srcIP; IPv6_DstIP := dstIP |} in
      match transportLayer with
      | TL_TCP _ => inr (IPv6_set_NextHeader IPProtocolTCP ipv6Layer)
      | TL_UDP _ => inr (IPv6_set_NextHeader IPProtocolUDP ipv6Layer)
      | TL_Other k _ => inl (TransportNotSupport (OtherTransport_LayerType k))
      end
    end
  end.

(** [CreateLoopbackLayer]. *)
Definition CreateLoopbackLayer : Loopback := {| Loopback_Family := 0 |}.

(** The errors of [CreateEthernetLayer] and [CreateLayers]. *)
Inductive LayersError :=
| NetworkNotSupport (t : LayerType)
| CreateNetworkLayerError (e : BuildError)
| CreateLinkLayerError (e : LayersError).

(** [CreateEthernetLayer]. *)
Definition CreateEthernetLayer (srcMAC dstMAC : list byte)
    (networkLayer : NetworkLayer) : LayersError + Ethernet :=
  let ethernetLayer (t : Z) :=
    {| Ethernet_SrcMAC := srcMAC; Ethernet_DstMAC := dstMAC;
       Ethernet_EthernetType := t; Ethernet_Length := 0 |} in
  match NetworkLayer_LayerType networkLayer with
  | LayerTypeIPv4 => inr (ethernetLayer EthernetTypeIPv4)
  | LayerTypeIPv6 => inr (ethernetLayer EthernetTypeIPv6)
  | t => inl (NetworkNotSupport t)
  end.

(** What [CreateLayers] reads through its [conn *RawConn]; the type and
    its methods are declared in a file that is not at hand:
    [conn.LocalDev().IPv4Addr().IP], [conn.LocalDev().IPv6Addr().IP],
    [conn.LocalDev().HardwareAddr()] and [conn.IsLoop()]. *)
Record RawConn := {
  RawConn_LocalDev_IPv4Addr_IP : IP;
  RawConn_LocalDev_IPv6Addr_IP : IP;
  RawConn_LocalDev_HardwareAddr : list byte;
  RawConn_IsLoop : bool
}.

(** [CreateLayers]: the transport, network and link layer of a segment
    from the local device to [dstIP].  The transport layer returned is
    the one [CreateIPv4Layer] has bound to the network layer. *)
Definition CreateLayers (srcPort dstPort seq ack : Z) (conn : RawConn)
    (dstIP : IP) (id hop : Z) (dstHardwareAddr : list byte) :
    LayersError + (TransportLayer * NetworkLayer * LinkLayer) :=
  (* Create transport layer *)
  let transportLayer := TL_TCP (CreateTCPLayer srcPort dstPort seq ack) in
  (* Decide IPv4 or IPv6, create new network layer *)
  let network : BuildError + (TransportLayer * NetworkLayer) :=
    match To4 dstIP with
    | Some _ =>
      match CreateIPv4Layer (RawConn_LocalDev_IPv4Addr_IP conn) dstIP id
                            (uint8 (hop - 1)) transportLayer with
      | inl e => inl e
      | inr (l, bound) => inr (bound, NL_IPv4 l)
      end
    | None =>
      match CreateIPv6Layer (RawConn_LocalDev_IPv6Addr_IP conn) dstIP
                            (uint8 (hop - 1)) transportLayer with
      | inl e => inl e
      | inr l => inr (transportLayer, NL_IPv6 l)
      end
    end in
  match network with
  | inl e => inl (CreateNetworkLayerError e)
  | inr (transportLayer, networkLayer) =>
    (* Decide Loopback or Ethernet, create new link layer *)
    if RawConn_IsLoop conn then
      inr (transportLayer, networkLayer, LL_Loopback CreateLoopbackLayer)
    else
      match CreateEthernetLayer (RawConn_LocalDev_HardwareAddr conn)
                                dstHardwareAddr networkLayer with
      | inl e => inl (CreateLinkLayerError e)
      | inr e => inr (transportLayer, networkLayer, LL_Ethernet e)
      end
  end.

(** ** gopacket serialization with options

    [Serialize] passes [ComputeChecksums] and [FixLengths], [SerializeRaw]
    the zero options.  With [FixLengths] a layer takes its lengths from
    the bytes serialized so far, with [ComputeChecksums] its checksum; a
    TCP or UDP layer needs the network layer it was bound to by
    [SetNetworkLayerForChecksum] for that.  The binding is a pointer to
    the header; of the header the checksum reads the two addresses only,
    which no function of this package changes once the header is built,
    so the layer keeps the header as it was when bound.  The layers here
    carry no IPv4 or TCP options; what gopacket does with an IPv6 header
    is a parameter. *)

Record SerializeOptions := { FixLengths : bool; ComputeChecksums : bool }.

Inductive Layer :=
| L_Loopback (l : Loopback)
| L_Ethernet (e : Ethernet)
| L_IPv4 (ip : IPv4)
| L_IPv6 (ip : IPv6)
| L_TCP (t : TCP)
| L_UDP (u : UDP)
| L_Payload (data : list byte).

Definition Layer_of_SerializableLayer (l : SerializableLayer) : Layer :=
  match l with
  | SLoopback l => L_Loopback l
  | SEthernet e => L_Ethernet e
  | SIPv4 ip => L_IPv4 ip
  | STCP t => L_TCP t
  | SPayload d => L_Payload d
  end.

(** The loop [for csum > 0xffff { csum = (csum >> 16) + (csum & 0xffff) }]
    of [layers.checksum] and [layers.tcpipChecksum]; three rounds bring
    every [uint32] below 2^16 (lemma [fold_carries_done]). *)
Fixpoint fold_carries (fuel : nat) (csum : Z) : Z :=
  match fuel with
  | O => csum
  | S fuel =>
    if 0xffff <? csum
    then fold_carries fuel (uint32 (Z.shiftr csum 16 + Z.land csum 0xffff))
    else csum
  end.

(** [^uint16(csum)]. *)
Definition not_uint16 (csum : Z) : Z := uint16 (Z.lnot csum).

(** [layers.checksum], on a header whose checksum bytes it has cleared. *)
Definition IPv4_checksum (bytes : list byte) : Z :=
  not_uint16 (fold_carries 3 (uint32 (sum16 bytes))).

(** [layers.tcpipChecksum]. *)
Definition tcpipChecksum (data : list byte) (csum : Z) : Z :=
  not_uint16 (fold_carries 3 (uint32 (csum + sum16 data))).

(** [layers.IPv4.pseudoheaderChecksum]; [AddressTo4] refuses an address
    without four-byte form. *)
Definition IPv4_pseudoheaderChecksum (ip : IPv4) : option Z :=
  match To4 (IPv4_SrcIP ip), To4 (IPv4_DstIP ip) with
  | Some src, Some dst =>
    let s i := byte_val (nth i src Byte.x00) in
    let d i := byte_val (nth i dst Byte.x00) in
    Some (uint32 ((s 0%nat + s 2%nat) * 256 + (s 1%nat + s 3%nat)
                  + (d 0%nat + d 2%nat) * 256 + (d 1%nat + d 3%nat)))
  | _, _ => None
  end.

Definition TCP_set_DataOffset (v : Z) (t : TCP) : TCP :=
  {| TCP_Contents := TCP_Contents t;
     TCP_SrcPort := TCP_SrcPort t; TCP_DstPort := TCP_DstPort t;
     TCP_Seq := TCP_Seq t; TCP_Ack := TCP_Ack t;
     TCP_DataOffset := v;
     TCP_FIN := TCP_FIN t; TCP_SYN := TCP_SYN t; TCP_RST := TCP_RST t;
     TCP_PSH := TCP_PSH t; TCP_ACK := TCP_ACK t; TCP_URG := TCP_URG t;
     TCP_ECE := TCP_ECE t; TCP_CWR := TCP_CWR t; TCP_NS := TCP_NS t;
     TCP_Window := TCP_Window t; TCP_Checksum := TCP_Checksum t;
     TCP_Urgent := TCP_Urgent t;
     TCP_pseudoheader := TCP_pseudoheader t |}.

Definition IPv4_set_IHL (v : Z) (l : IPv4) : IPv4 :=
  {| IPv4_Contents := IPv4_Contents l; IPv4_Payload := IPv4_Payload l;
     IPv4_Version := IPv4_Version l; IPv4_IHL := v;
     IPv4_TOS := IPv4_TOS l; IPv4_Length := IPv4_Length l;
     IPv4_Id := IPv4_Id l; IPv4_Flags := IPv4_Flags l;
     IPv4_FragOffset := IPv4_FragOffset l; IPv4_TTL := IPv4_TTL l;
     IPv4_Protocol := IPv4_Protocol l; IPv4_Checksum := IPv4_Checksum l;
     IPv4_SrcIP := IPv4_SrcIP l; IPv4_DstIP := IPv4_DstIP l |}.

(** The eight bytes [layers.UDP.SerializeTo] writes. *)
Definition UDP_header (u : UDP) (length csum : Z) : list byte :=
  PutUint16 (UDP_SrcPort u) ++ PutUint16 (UDP_DstPort u)
  ++ PutUint16 length ++ PutUint16 csum.

Section SerializeWithOptions.

(** [layers.IPv6.pseudoheaderChecksum] and [layers.IPv6.SerializeTo],
    [None] for an error. *)
Variable IPv6_pseudoheaderChecksum : IPv6 -> option Z.
Variable IPv6_SerializeTo_opts :
  SerializeOptions -> IPv6 -> list byte -> option (list byte).

(** [tcpipchecksum.computeChecksum]. *)
Definition computeChecksum (pseudoheader : option NetworkLayer)
    (headerAndPayload : list byte) (headerProtocol : Z) : option Z :=
  match pseudoheader with
  | None => None
  | Some network =>
    let length := uint32 (len headerAndPayload) in
    match match network with
          | NL_IPv4 ip => IPv4_pseudoheaderChecksum ip
          | NL_IPv6 ip => IPv6_pseudoheaderChecksum ip
          end with
    | None => None
    | Some csum =>
      let csum := uint32 (csum + headerProtocol) in
      let csum := uint32 (csum + Z.land length 0xffff) in
      let csum := uint32 (csum + Z.shiftr length 16) in
      Some (tcpipChecksum headerAndPayload csum)
    end
  end.

(** [layers.Ethernet.SerializeTo]. *)
Definition Ethernet_SerializeTo_opts (opts : SerializeOptions) (eth : Ethernet)
    (b : list byte) : option (list byte) :=
  if negb (length (Ethernet_DstMAC eth) =? 6)%nat then None
  else if negb (length (Ethernet_SrcMAC eth) =? 6)%nat then None
  else
    let head := Ethernet_DstMAC eth ++ Ethernet_SrcMAC eth in
    let typ :=
      if negb (Ethernet_Length eth =? 0)
         || (Ethernet_EthernetType eth =? EthernetTypeLLC)
      then
        let length := if FixLengths opts then uint16 (len b)
                      else Ethernet_Length eth in
        if negb (Ethernet_EthernetType eth =? EthernetTypeLLC) then None
        else if 0x0600 <? length then None
        else Some (PutUint16 length)
      else Some (PutUint16 (Ethernet_EthernetType eth)) in
    match typ with
    | None => None
    | Some typ =>
      let frame := head ++ typ ++ b in
      Some (frame ++ repeat Byte.x00 (60 - length frame))
    end.

(** [layers.IPv4.SerializeTo]. *)
Definition IPv4_SerializeTo_opts (opts : SerializeOptions) (ip : IPv4)
    (b : list byte) : option (list byte) :=
  let ip := if FixLengths opts
            then IPv4_set_Length (uint16 (20 + len b)) (IPv4_set_IHL 5 ip)
            else ip in
  match To4 (IPv4_SrcIP ip), To4 (IPv4_DstIP ip) with
  | Some src, Some dst =>
    let csum := if ComputeChecksums opts
                then IPv4_checksum (IPv4_header (IPv4_set_Checksum 0 ip) src dst)
                else IPv4_Checksum ip in
    Some (IPv4_header (IPv4_set_Checksum csum ip) src dst ++ b)
  | _, _ => None
  end.

(** [layers.TCP.SerializeTo]. *)
Definition TCP_SerializeTo_opts (opts : SerializeOptions) (t : TCP)
    (b : list byte) : option (list byte) :=
  let t := if FixLengths opts then TCP_set_DataOffset 5 t else t in
  if ComputeChecksums opts then
    match computeChecksum (TCP_pseudoheader t) (TCP_header t 0 ++ b)
                          IPProtocolTCP with
    | None => None
    | Some csum => Some (TCP_header t csum ++ b)
    end
  else Some (TCP_header t (TCP_Checksum t) ++ b).

(** [layers.UDP.SerializeTo]; over IPv6 a datagram too long for the
    length field is a jumbogram, with length 0. *)
Definition UDP_SerializeTo_opts (opts : SerializeOptions) (u : UDP)
    (b : list byte) : option (list byte) :=
  let jumbo := match UDP_pseudoheader u with
               | Some (NL_IPv6 _) => 65535 <? len b + 8
               | _ => false
               end in
  let length := if FixLengths opts
                then if jumbo then 0 else uint16 (uint16 (len b) + 8)
                else UDP_Length u in
  if ComputeChecksums opts then
    match computeChecksum (UDP_pseudoheader u) (UDP_header u length 0 ++ b)
                          IPProtocolUDP with
    | None => None
    | Some csum => Some (UDP_header u length csum ++ b)
    end
  else Some (UDP_header u length (UDP_Checksum u) ++ b).

Definition SerializeTo_opts (opts : SerializeOptions) (l : Layer)
    (b : list byte) : option (list byte) :=
  match l with
  | L_Loopback l => Loopback_SerializeTo l b
  | L_Ethernet e => Ethernet_SerializeTo_opts opts e b
  | L_IPv4 ip => IPv4_SerializeTo_opts opts ip b
  | L_IPv6 ip => IPv6_SerializeTo_opts opts ip b
  | L_TCP t => TCP_SerializeTo_opts opts t b
  | L_UDP u => UDP_SerializeTo_opts opts u b
  | L_Payload data => Some (data ++ b)
  end.

(** [gopacket.SerializeLayers]. *)
Definition SerializeLayers_opts (opts : SerializeOptions) (layers : list Layer) :
    option (list byte) :=
  fold_right (fun l acc => match acc with
                           | Some b => SerializeTo_opts opts l b
                           | None => None
                           end) (Some []) layers.

(** [Serialize]. *)
Definition Serialize (layers : list Layer) : option (list byte) :=
  SerializeLayers_opts {| FixLengths := true; ComputeChecksums := true |} layers.

(** [SerializeRaw]. *)
Definition SerializeRaw (layers : list Layer) : option (list byte) :=
  SerializeLayers_opts {| FixLengths := false; ComputeChecksums := false |} layers.

End SerializeWithOptions.

Definition LinkLayer_Layer (l : LinkLayer) : Layer :=
  match l with
  | LL_Loopback l => L_Loopback l
  | LL_Ethernet e => L_Ethernet e
  end.

(** The pseudo-header and the receiver's check for a transport protocol
    other than TCP as well. *)
Definition pseudo_header_of (protocol : Z) (srcIP dstIP : IP) (length : Z) : list byte :=
  ip4_bytes srcIP ++ ip4_bytes dstIP
  ++ [byte_of_Z 0; byte_of_Z protocol] ++ PutUint16 length.

Definition l4_checksum_verifies (protocol : Z) (srcIP dstIP : IP)
    (segment : list byte) : bool :=
  fold16 (sum16 (pseudo_header_of protocol srcIP dstIP (len segment) ++ segment))
  =? 0xFFFF.

(** The bytes a link layer puts in front of a packet. *)
Definition LinkLayer_header (l : LinkLayer) : list byte :=
  match l with
  | LL_Loopback l => PutUint32LE (Loopback_Family l)
  | LL_Ethernet e =>
    Ethernet_DstMAC e ++ Ethernet_SrcMAC e ++ PutUint16 (Ethernet_EthernetType e)
  end.

(** ** Handler invocations in sequence

    The capture loops [Pcap.Open] starts call [handleListen] with a
    packet and a listen handle, or [handle] with a packet.  [run] is a
    sequence of such calls, each one finished before the next begins; the
    loops themselves, which run side by side, are not modelled.  A panic
    ends the program. *)

Inductive Capture :=
| OnListen (packet : Packet) (h : Handle)
| OnUpstream (packet : Packet).

Section Run.

Variable IP_String : IP -> string.
Variable checkSum : list byte -> Z.
Variable CheckTCPIPv4Sum : TCP -> list byte -> IPv4 -> Z.
Variable NewPacket_IPv4_TransportLayer : list byte -> option TransportLayer.

Definition step (p : Pcap) (c : Capture) : Pcap * Outcome :=
  match c with
  | OnListen packet h => handleListen IP_String checkSum CheckTCPIPv4Sum p packet h
  | OnUpstream packet => handle IP_String NewPacket_IPv4_TransportLayer p packet
  end.

Fixpoint run (p : Pcap) (captures : list Capture) : Pcap * list Outcome :=
  match captures with
  | [] => (p, [])
  | c :: rest =>
    let '(p', o) := step p c in
    match o with
    | Panic => (p', [Panic])
    | _ => let '(p'', os) := run p' rest in (p'', o :: os)
    end
  end.

End Run.

(** The handles [handleListen] was called with in a sequence. *)
Definition listen_handles_of (captures : list Capture) : list Handle :=
  flat_map (fun c => match c with
                     | OnListen _ h => [h]
                     | OnUpstream _ => []
                     end) captures.


(** ** Further notions and scenarios *)

(** The configuration of a proxy: everything but the two counters and
    the NAT table. *)
Definition same_configuration (p p' : Pcap) : Prop :=
  Pcap_ListenPort p' = Pcap_ListenPort p /\ Pcap_UpPort p' = Pcap_UpPort p
  /\ Pcap_ServerIP p' = Pcap_ServerIP p /\ Pcap_ServerPort p' = Pcap_ServerPort p
  /\ Pcap_ListenDevs p' = Pcap_ListenDevs p /\ Pcap_UpDev p' = Pcap_UpDev p
  /\ Pcap_GatewayDev p' = Pcap_GatewayDev p
  /\ Pcap_listenHandles p' = Pcap_listenHandles p
  /\ Pcap_upHandle p' = Pcap_upHandle p.

(** A connection on the Ethernet device [192.168.1.10], [fe80::2]. *)
Definition local_conn : RawConn :=
  {| RawConn_LocalDev_IPv4Addr_IP := bytes_of [192; 168; 1; 10];
     RawConn_LocalDev_IPv6Addr_IP :=
       bytes_of [0xfe; 0x80; 0; 0; 0; 0; 0; 0; 0; 0; 0; 0; 0; 0; 0; 2];
     RawConn_LocalDev_HardwareAddr := bytes_of [0x02; 0; 0; 0; 0; 0x01];
     RawConn_IsLoop := false |}.

Definition server_IPv4 : IP := bytes_of [1; 2; 3; 4].

Definition server_IPv6 : IP :=
  bytes_of [0x20; 0x01; 0x0d; 0xb8; 0; 0; 0; 0; 0; 0; 0; 0; 0; 0; 0; 1].

Definition gateway_MAC : list byte := bytes_of [0x02; 0; 0; 0; 0; 0x02].

Definition greeting : list byte := bytes_of [104; 105].

(** An IPv6 layer is not serialized in the scenarios. *)
Definition no_IPv6_pseudoheaderChecksum (ip : IPv6) : option Z := None.

Definition no_IPv6_SerializeTo (opts : SerializeOptions) (ip : IPv6)
    (b : list byte) : option (list byte) := None.

(** A proxy whose server has an IPv6 address. *)
Definition proxy_to_IPv6 : Pcap :=
  {| Pcap_ListenPort := 8080; Pcap_UpPort := 54321;
     Pcap_ServerIP := server_IPv6; Pcap_ServerPort := 443;
     Pcap_ListenDevs := [upstream_device];
     Pcap_UpDev := upstream_device; Pcap_GatewayDev := gateway_device;
     Pcap_listenHandles := [listen_handle]; Pcap_upHandle := 0%N;
     Pcap_seq := 0; Pcap_id := 0; Pcap_nat := ∅ |}.
(** * Properties *)

(** ** Layer builders *)

(** C7. [CreateIPv4Layer] fails when the source or the destination address
    has no IPv4 form, and when the transport layer is neither TCP nor UDP;
    in every other case it returns a header with version 4, IHL 5, the DF
    flag alone, fragment offset 0, the given TTL and id, protocol TCP (6)
    or UDP (17) after the transport layer's kind, checksum and length
    zero, and the same transport layer bound to that header. *)
Theorem CreateIPv4Layer_spec (srcIP dstIP : IP) (id ttl : Z) (tl : TransportLayer) :
  match CreateIPv4Layer srcIP dstIP id ttl tl with
  | inl _ =>
    To4 srcIP = None \/ To4 dstIP = None
    \/ (TransportLayer_LayerType tl <> LayerTypeTCP
        /\ TransportLayer_LayerType tl <> LayerTypeUDP)
  | inr (ipv4Layer, bound) =>
    is_Some (To4 srcIP) /\ is_Some (To4 dstIP)
    /\ IPv4_Version ipv4Layer = 4 /\ IPv4_IHL ipv4Layer = 5
    /\ IPv4_Flags ipv4Layer = IPv4DontFragment
    /\ IPv4_FragOffset ipv4Layer = 0
    /\ IPv4_TTL ipv4Layer = ttl /\ IPv4_Id ipv4Layer = id
    /\ IPv4_SrcIP ipv4Layer = srcIP /\ IPv4_DstIP ipv4Layer = dstIP
    /\ IPv4_Checksum ipv4Layer = 0 /\ IPv4_Length ipv4Layer = 0
    /\ ((TransportLayer_LayerType tl = LayerTypeTCP
         /\ IPv4_Protocol ipv4Layer = IPProtocolTCP)
        \/ (TransportLayer_LayerType tl = LayerTypeUDP
            /\ IPv4_Protocol ipv4Layer = IPProtocolUDP))
    /\ TransportLayer_pseudoheader bound = Some (NL_IPv4 ipv4Layer)
    /\ TransportLayer_LayerType bound = TransportLayer_LayerType tl
    /\ TransportLayer_LayerContents bound = TransportLayer_LayerContents tl
    /\ transport_ports bound = transport_ports tl
  end.
Proof.
  unfold CreateIPv4Layer.
  destruct (To4 srcIP) as [s4|] eqn:Hs; [|left; reflexivity].
  destruct (To4 dstIP) as [d4|] eqn:Hd; [|right; left; reflexivity].
  destruct tl as [t|u|k c]; cbn.
  - repeat split; eauto.
  - repeat split; eauto.
  - right; right. destruct k; split; discriminate.
Qed.

(** The failures of [CreateIPv4Layer] are exactly these three. *)
Lemma CreateIPv4Layer_fails_iff (srcIP dstIP : IP) (id ttl : Z) (tl : TransportLayer) :
  (exists e, CreateIPv4Layer srcIP dstIP id ttl tl = inl e)
  <-> (To4 srcIP = None \/ To4 dstIP = None
       \/ (TransportLayer_LayerType tl <> LayerTypeTCP
           /\ TransportLayer_LayerType tl <> LayerTypeUDP)).
Proof.
  unfold CreateIPv4Layer. split.
  - intros [e He].
    destruct (To4 srcIP); [|tauto].
    destruct (To4 dstIP); [|tauto].
    destruct tl as [t|u|k c]; try discriminate.
    right; right. destruct k; split; discriminate.
  - intros [->|[H|[H1 H2]]]; [eauto| |].
    + destruct (To4 srcIP); rewrite ?H; eauto.
    + destruct (To4 srcIP); [|eauto].
      destruct (To4 dstIP); [|eauto].
      destruct tl as [t|u|k c]; cbn in *; [congruence|congruence|eauto].
Qed.

(** The flags [FlagIPv4Layer] leaves: MF when [mf] is asked for, else DF
    when [df] is, else none. *)
Lemma FlagIPv4Layer_Flags (layer : IPv4) (df mf : bool) (offset : Z) :
  IPv4_Flags (FlagIPv4Layer layer df mf offset)
  = if mf then IPv4MoreFragments else if df then IPv4DontFragment else 0.
Proof. destruct df, mf; reflexivity. Qed.

(** C8, counterexample: asked for both DF and MF, [FlagIPv4Layer] sets MF
    alone, so DF is not set although it was requested. *)
Lemma FlagIPv4Layer_df_and_mf_counterexample :
  ~ FlagIPv4Layer_claim zero_IPv4 true true 0.
Proof. intros (_ & Hdf & _). specialize (Hdf eq_refl). discriminate Hdf. Qed.

(** C8, amended. After [FlagIPv4Layer] DF and MF are never set together:
    the header has MF alone when [mf] is requested (whether or not [df]
    is), DF alone when [df] is requested and [mf] is not, no flag when
    neither is, and the fragment offset is the given one. *)
Theorem FlagIPv4Layer_spec (layer : IPv4) (df mf : bool) (offset : Z) :
  let l := FlagIPv4Layer layer df mf offset in
  (IPv4_has_flag l IPv4DontFragment && IPv4_has_flag l IPv4MoreFragments = false)
  /\ IPv4_has_flag l IPv4MoreFragments = mf
  /\ IPv4_has_flag l IPv4DontFragment = (df && negb mf)
  /\ IPv4_Flags l = (if mf then IPv4MoreFragments
                     else if df then IPv4DontFragment else 0)
  /\ IPv4_FragOffset l = offset.
Proof.
  cbv zeta. unfold IPv4_has_flag. rewrite FlagIPv4Layer_Flags.
  destruct df, mf; repeat split.
Qed.

(** ** Bytes and checksums *)

Lemma byte_val_of_Z (z : Z) : byte_val (byte_of_Z z) = z mod 256.
Proof.
  unfold byte_val, byte_of_Z.
  assert (Hr : 0 <= z mod 256 < 256) by (apply Z.mod_pos_bound; lia).
  destruct (Byte.of_N (Z.to_N (z mod 256))) as [b|] eqn:E.
  - apply Byte.to_of_N in E. rewrite E. lia.
  - apply Byte.of_N_None_iff in E. lia.
Qed.

(** One more than a sum that verifies does not verify. *)
Lemma fold16_succ (s : Z) :
  0 <= s < 2 ^ 24 -> fold16 s = 0xFFFF -> fold16 (s + 1) <> 0xFFFF.
Proof.
  unfold fold16. intros Hs H1 H2.
  change (2 ^ 16) with 65536 in *. change (2 ^ 24) with 16777216 in *.
  Z.div_mod_to_equations. lia.
Qed.

(** ** Serialization *)

Lemma To4_length (ip b : IP) : To4 ip = Some b -> length b = 4%nat.
Proof.
  unfold To4.
  destruct (length ip =? 4)%nat eqn:E4.
  - intros [= <-]. apply Nat.eqb_eq. exact E4.
  - destruct (length ip =? 16)%nat eqn:E16; cbn [andb]; [|discriminate].
    destruct (_ && _); [|discriminate].
    intros [= <-]. apply Nat.eqb_eq in E16.
    unfold slice. rewrite length_firstn, length_skipn. lia.
Qed.

Lemma IPv4_header_length (ip : IPv4) (src dst : IP) :
  length src = 4%nat -> length dst = 4%nat ->
  length (IPv4_header ip src dst) = 20%nat.
Proof.
  intros Hs Hd. unfold IPv4_header.
  rewrite !length_app, Hs, Hd. reflexivity.
Qed.

(** The checksum field sits at offset 10 of the header. *)
Lemma IPv4_header_checksum_field (ip : IPv4) (src dst : IP) :
  slice 10 12 (IPv4_header ip src dst) = PutUint16 (IPv4_Checksum ip).
Proof. reflexivity. Qed.

(** The bytes the upstream link layer puts around a buffer. *)
Lemma upstream_link_SerializeTo (p : Pcap) (b data : list byte) :
  SerializeTo (LinkLayer_serializable (upstream_link p)) b = Some data ->
  data = link_header p ++ b ++ link_padding p (length (link_header p ++ b)).
Proof.
  unfold upstream_link, link_header, link_padding.
  destruct (Device_IsLoop (Pcap_UpDev p)); cbn.
  - intros [= <-]. rewrite app_nil_r. reflexivity.
  - unfold Ethernet_SerializeTo. cbn.
    destruct (negb _); [discriminate|].
    destruct (negb _); [discriminate|].
    intros [= <-].
    rewrite <- !app_assoc. cbn. reflexivity.
Qed.

Lemma upstream_link_SerializeTo_ok (p : Pcap) (b : list byte) :
  link_serializable p ->
  SerializeTo (LinkLayer_serializable (upstream_link p)) b
  = Some (link_header p ++ b ++ link_padding p (length (link_header p ++ b))).
Proof.
  unfold link_serializable, upstream_link, link_header, link_padding.
  destruct (Device_IsLoop (Pcap_UpDev p)); cbn.
  - intros _. rewrite app_nil_r. reflexivity.
  - intros [H|[Hg Hu]]; [discriminate|].
    unfold Ethernet_SerializeTo. cbn. rewrite Hg, Hu. cbn.
    rewrite <- !app_assoc. reflexivity.
Qed.

(** ** The outbound pipeline *)

Section Outbound.

Variable IP_String : IP -> string.
Variable checkSum : list byte -> Z.
Variable CheckTCPIPv4Sum : TCP -> list byte -> IPv4 -> Z.

Local Abbreviation outbound := (handleListen IP_String checkSum CheckTCPIPv4Sum).

Local Abbreviation frame := (carrier_frame checkSum CheckTCPIPv4Sum).

(** What [handleListen] does once the guards are passed. *)
Lemma handleListen_registered (p : Pcap) (packet : Packet) (h : Handle)
    (nl : NetworkLayer) (tl : TransportLayer) (gw : IP) :
  pkt_network packet = Some nl ->
  pkt_transport packet = Some tl ->
  gatewayDevIP p = Some gw ->
  is_Some (To4 gw) ->
  is_nil (IPNet_IP (Device_IPv4 (Pcap_UpDev p))) = false ->
  let contents := tunnel_payload packet nl tl in
  let ttl := (network_addrs nl).2 in
  outbound p packet h
  = (registered p (packet_quintuple IP_String nl tl) h,
     match SerializeLayers [LinkLayer_serializable (upstream_link p);
                            SIPv4 (carrier_IPv4 checkSum p ttl contents);
                            STCP (carrier_TCP CheckTCPIPv4Sum p ttl contents);
                            SPayload contents] with
     | Some data => Inject (Pcap_upHandle p) data
     | None => Drop SerializeFailed
     end).
Proof.
  intros Hn Ht Hg [g4 Hg4] Hup. cbv zeta.
  unfold handleListen. rewrite Hn, Ht.
  replace (gatewayDevIP (set_seq (uint32 (Pcap_seq p + 1)) p))
    with (gatewayDevIP p) by reflexivity.
  rewrite Hg, Hg4. cbn [Pcap_UpDev set_seq set_id].
  destruct nl as [l|l], tl as [t|u|k c]; cbn [network_addrs transport_ports];
    rewrite Hup;
    unfold registered, carrier_IPv4, carrier_TCP, upstream_link,
           packet_quintuple, tunnel_payload;
    cbn;
    match goal with
    | |- match ?a with _ => _ end = (_, match ?b with _ => _ end) =>
      change b with a; destruct a; reflexivity
    end.
Qed.

(** Before the guards are passed nothing of the state but [seq] changes
    and nothing is sent. *)
Lemma handleListen_not_registered (p : Pcap) (packet : Packet) (h : Handle) :
  ~ reaches_registration p packet ->
  Pcap_nat (outbound p packet h).1 = Pcap_nat p
  /\ Pcap_id (outbound p packet h).1 = Pcap_id p
  /\ forall h' data, (outbound p packet h).2 <> Inject h' data.
Proof.
  intros Hnot. unfold handleListen.
  destruct (pkt_network packet) as [nl|] eqn:Hn; [|cbn; repeat split; discriminate].
  destruct (network_addrs nl) as [[srcIP dstIP] ttl] eqn:Hna.
  assert (Hlet : match nl with
                 | NL_IPv4 l => (IPv4_SrcIP l, IPv4_DstIP l, IPv4_TTL l)
                 | NL_IPv6 l => (IPv6_SrcIP l, IPv6_DstIP l, 0)
                 end = (srcIP, dstIP, ttl)) by exact Hna.
  rewrite Hlet.
  destruct (pkt_transport packet) as [tl|] eqn:Ht; [|cbn; repeat split; discriminate].
  destruct (transport_ports tl) as [sp dp] eqn:Htp.
  assert (Hlet2 : match tl with
                  | TL_TCP t => (TCP_SrcPort t, TCP_DstPort t)
                  | TL_UDP u => (UDP_SrcPort u, UDP_DstPort u)
                  | TL_Other _ _ => (0, 0)
                  end = (sp, dp)) by exact Htp.
  rewrite Hlet2.
  replace (gatewayDevIP (set_seq (uint32 (Pcap_seq p + 1)) p))
    with (gatewayDevIP p) by reflexivity.
  destruct (gatewayDevIP p) as [gw|] eqn:Hg; [|cbn; repeat split; discriminate].
  destruct (To4 gw) as [g4|] eqn:Hg4.
  - cbn [Pcap_UpDev set_seq].
    destruct (is_nil (IPNet_IP (Device_IPv4 (Pcap_UpDev p)))) eqn:Hup;
      [cbn; repeat split; discriminate|].
    exfalso. apply Hnot. repeat split; eauto.
  - destruct (is_nil _); cbn; repeat split; discriminate.
Qed.

Lemma reaches_registration_dec (p : Pcap) (packet : Packet) :
  reaches_registration p packet \/ ~ reaches_registration p packet.
Proof.
  unfold reaches_registration.
  destruct (pkt_network packet) as [nl|];
    [|right; intros ([? ?] & _); discriminate].
  destruct (pkt_transport packet) as [tl|];
    [|right; intros (_ & [? ?] & _); discriminate].
  destruct (gatewayDevIP p) as [gw|];
    [|right; intros (_ & _ & (? & ? & _) & _); discriminate].
  destruct (To4 gw) as [g4|] eqn:Hg4.
  - destruct (is_nil (IPNet_IP (Device_IPv4 (Pcap_UpDev p)))).
    + right; intros (_ & _ & _ & ?); discriminate.
    + left. repeat split; eauto.
  - right. intros (_ & _ & (g & Hg & [x Hx]) & _).
    injection Hg as <-. congruence.
Qed.

(** A packet that is sent has passed the guards. *)
Lemma handleListen_Inject_inv (p : Pcap) (packet : Packet) (h : Handle)
    (p' : Pcap) (h' : Handle) (data : list byte) :
  outbound p packet h = (p', Inject h' data) ->
  exists nl tl gw,
    pkt_network packet = Some nl /\ pkt_transport packet = Some tl
    /\ gatewayDevIP p = Some gw /\ is_Some (To4 gw)
    /\ is_nil (IPNet_IP (Device_IPv4 (Pcap_UpDev p))) = false.
Proof.
  intros H.
  destruct (reaches_registration_dec p packet)
    as [([nl Hn] & [tl Ht] & (gw & Hg & Hg4) & Hup) | Hnot].
  - exists nl, tl, gw. auto.
  - destruct (handleListen_not_registered p packet h Hnot) as (_ & _ & Hno).
    rewrite H in Hno. exfalso. exact (Hno h' data eq_refl).
Qed.

(** The layout of every frame the outbound pipeline sends, and the state
    it leaves. *)
Lemma handleListen_frame (p : Pcap) (packet : Packet) (h : Handle) (p' : Pcap)
    (h' : Handle) (data : list byte) :
  outbound p packet h = (p', Inject h' data) ->
  exists nl tl src dst,
    pkt_network packet = Some nl /\ pkt_transport packet = Some tl
    /\ To4 (IPNet_IP (Device_IPv4 (Pcap_UpDev p))) = Some src
    /\ To4 (Pcap_ServerIP p) = Some dst
    /\ h' = Pcap_upHandle p
    /\ p' = registered p (packet_quintuple IP_String nl tl) h
    /\ data = frame p (network_addrs nl).2
                            (tunnel_payload packet nl tl) src dst.
Proof.
  intros H.
  destruct (handleListen_Inject_inv p packet h p' h' data H)
    as (nl & tl & gw & Hn & Ht & Hg & Hg4 & Hup).
  rewrite (handleListen_registered p packet h nl tl gw Hn Ht Hg Hg4 Hup) in H.
  cbv zeta in H.
  destruct (SerializeLayers _) as [d|] eqn:Hser; [|discriminate].
  injection H as <- <- <-.
  cbn [SerializeLayers fold_right] in Hser.
  cbn [SerializeTo TCP_SerializeTo] in Hser.
  unfold IPv4_SerializeTo in Hser.
  change (IPv4_SrcIP (carrier_IPv4 checkSum p (network_addrs nl).2
                                   (tunnel_payload packet nl tl)))
    with (IPNet_IP (Device_IPv4 (Pcap_UpDev p))) in Hser.
  change (IPv4_DstIP (carrier_IPv4 checkSum p (network_addrs nl).2
                                   (tunnel_payload packet nl tl)))
    with (Pcap_ServerIP p) in Hser.
  destruct (To4 (IPNet_IP (Device_IPv4 (Pcap_UpDev p)))) as [src|] eqn:Hsrc;
    [|discriminate].
  destruct (To4 (Pcap_ServerIP p)) as [dst|] eqn:Hdst; [|discriminate].
  apply upstream_link_SerializeTo in Hser.
  exists nl, tl, src, dst. repeat split; try assumption.
  unfold carrier_frame. cbv zeta. rewrite Hser. rewrite !app_nil_r.
  rewrite <- !app_assoc. reflexivity.
Qed.

(** Conversely, a packet that passes the guards is sent when the carrier
    addresses have an IPv4 form and the link layer serializes. *)
Lemma handleListen_sends (p : Pcap) (packet : Packet) (h : Handle)
    (nl : NetworkLayer) (tl : TransportLayer) (gw src dst : IP) :
  pkt_network packet = Some nl ->
  pkt_transport packet = Some tl ->
  gatewayDevIP p = Some gw ->
  is_Some (To4 gw) ->
  To4 (IPNet_IP (Device_IPv4 (Pcap_UpDev p))) = Some src ->
  To4 (Pcap_ServerIP p) = Some dst ->
  link_serializable p ->
  outbound p packet h
  = (registered p (packet_quintuple IP_String nl tl) h,
     Inject (Pcap_upHandle p)
            (frame p (network_addrs nl).2
                           (tunnel_payload packet nl tl) src dst)).
Proof.
  intros Hn Ht Hg Hg4 Hsrc Hdst Hlink.
  assert (Hup : is_nil (IPNet_IP (Device_IPv4 (Pcap_UpDev p))) = false).
  { destruct (IPNet_IP (Device_IPv4 (Pcap_UpDev p))); [discriminate|reflexivity]. }
  rewrite (handleListen_registered p packet h nl tl gw Hn Ht Hg Hg4 Hup).
  cbv zeta. f_equal.
  cbn [SerializeLayers fold_right]. cbn [SerializeTo TCP_SerializeTo].
  unfold IPv4_SerializeTo.
  change (IPv4_SrcIP (carrier_IPv4 checkSum p (network_addrs nl).2
                                   (tunnel_payload packet nl tl)))
    with (IPNet_IP (Device_IPv4 (Pcap_UpDev p))).
  change (IPv4_DstIP (carrier_IPv4 checkSum p (network_addrs nl).2
                                   (tunnel_payload packet nl tl)))
    with (Pcap_ServerIP p).
  rewrite Hsrc, Hdst.
  rewrite (upstream_link_SerializeTo_ok p _ Hlink).
  unfold carrier_frame. cbv zeta. rewrite !app_nil_r.
  rewrite <- !app_assoc. reflexivity.
Qed.

(** X2. Every packet that passes the guards, on a proxy whose carrier
    addresses have an IPv4 form and whose link layer serializes, is
    written to the upstream handle, and to no other. *)
Theorem handleListen_emits_upstream (p : Pcap) (packet : Packet) (h : Handle)
    (nl : NetworkLayer) (tl : TransportLayer) (gw : IP) :
  pkt_network packet = Some nl ->
  pkt_transport packet = Some tl ->
  gatewayDevIP p = Some gw ->
  is_Some (To4 gw) ->
  is_Some (To4 (IPNet_IP (Device_IPv4 (Pcap_UpDev p)))) ->
  is_Some (To4 (Pcap_ServerIP p)) ->
  link_serializable p ->
  exists data, (outbound p packet h).2 = Inject (Pcap_upHandle p) data.
Proof.
  intros Hn Ht Hg Hg4 [src Hsrc] [dst Hdst] Hlink.
  rewrite (handleListen_sends p packet h nl tl gw src dst
             Hn Ht Hg Hg4 Hsrc Hdst Hlink).
  eexists. reflexivity.
Qed.

(** The IPv4 header of a frame built by [carrier_frame]. *)
Lemma carrier_frame_header (p : Pcap) (ttl : Z) (contents src dst : list byte) :
  length src = 4%nat -> length dst = 4%nat ->
  firstn 20 (skipn (length (link_header p)) (frame p ttl contents src dst))
  = IPv4_header (carrier_IPv4 checkSum p ttl contents) src dst.
Proof.
  intros Hs Hd. unfold carrier_frame. cbv zeta.
  rewrite drop_app_length, <- !app_assoc.
  apply take_app_length'. symmetry. apply IPv4_header_length; assumption.
Qed.

(** The checksum field of every IPv4 header the pipeline sends holds
    [checkSum] of the empty byte string, whatever the header is: the
    pipeline passes [ipv4.LayerContents()] of the header it has just
    built. *)
Lemma handleListen_checksum_field (p : Pcap) (packet : Packet) (h : Handle)
    (p' : Pcap) (h' : Handle) (data : list byte) :
  outbound p packet h = (p', Inject h' data) ->
  slice 10 12 (firstn 20 (skipn (length (link_header p)) data))
  = PutUint16 (checkSum []).
Proof.
  intros H.
  destruct (handleListen_frame p packet h p' h' data H)
    as (nl & tl & src & dst & _ & _ & Hsrc & Hdst & _ & _ & ->).
  rewrite carrier_frame_header by (eapply To4_length; eassumption).
  apply IPv4_header_checksum_field.
Qed.

(** X1. The total-length field of every IPv4 header the pipeline sends is
    eight times the sum of the IHL (5, in 32-bit words), the length of the
    [LayerContents()] of the TCP layer just built (0) and the length of
    the tunnel payload, modulo 2^16. *)
Theorem handleListen_total_length (p : Pcap) (packet : Packet) (h : Handle)
    (p' : Pcap) (h' : Handle) (data : list byte) :
  outbound p packet h = (p', Inject h' data) ->
  exists nl tl,
    pkt_network packet = Some nl /\ pkt_transport packet = Some tl
    /\ slice 2 4 (firstn 20 (skipn (length (link_header p)) data))
       = PutUint16 (((5 + 0 + len (tunnel_payload packet nl tl)) * 8) mod 2 ^ 16).
Proof.
  intros H.
  destruct (handleListen_frame p packet h p' h' data H)
    as (nl & tl & src & dst & Hn & Ht & Hsrc & Hdst & _ & _ & ->).
  exists nl, tl. split; [exact Hn|]. split; [exact Ht|].
  rewrite carrier_frame_header by (eapply To4_length; eassumption).
  change (slice 2 4 (IPv4_header ?ip src dst)) with (PutUint16 (IPv4_Length ip)).
  f_equal. cbn [carrier_IPv4 IPv4_Length IPv4_set_Length IPv4_set_Checksum].
  unfold uint16.
  rewrite <- Zmult_mod_idemp_l, Zplus_mod_idemp_r, Zmult_mod_idemp_l.
  reflexivity.
Qed.

(** C2. Whenever the outbound pipeline sends a frame, [seq] has advanced
    by exactly one modulo 2^32 and [id] by exactly one modulo 2^16 over
    their values before the packet was processed. *)
Theorem handleListen_counters (p : Pcap) (packet : Packet) (h : Handle)
    (p' : Pcap) (h' : Handle) (data : list byte) :
  outbound p packet h = (p', Inject h' data) ->
  Pcap_seq p' = (Pcap_seq p + 1) mod 2 ^ 32
  /\ Pcap_id p' = (Pcap_id p + 1) mod 2 ^ 16.
Proof.
  intros H.
  destruct (handleListen_frame p packet h p' h' data H)
    as (nl & tl & src & dst & _ & _ & _ & _ & _ & -> & _).
  split; reflexivity.
Qed.

(** C3, amended. For every packet observed on a listen handle that passes
    the guards in front of the registration (network and transport layer
    present, the gateway's first address IPv4, an IPv4 address on the
    upstream device), the NAT table afterwards maps the packet's
    five-tuple to that handle: source and destination address, the ports
    (0 when the transport is neither TCP nor UDP) and the layer type of
    the transport layer; every other entry is as before. *)
Theorem handleListen_registers (p : Pcap) (packet : Packet) (h : Handle)
    (nl : NetworkLayer) (tl : TransportLayer) (gw : IP) :
  pkt_network packet = Some nl ->
  pkt_transport packet = Some tl ->
  gatewayDevIP p = Some gw ->
  is_Some (To4 gw) ->
  is_nil (IPNet_IP (Device_IPv4 (Pcap_UpDev p))) = false ->
  let nat' := Pcap_nat (outbound p packet h).1 in
  nat' !! packet_quintuple IP_String nl tl = Some h
  /\ forall q, q <> packet_quintuple IP_String nl tl -> nat' !! q = Pcap_nat p !! q.
Proof.
  intros Hn Ht Hg Hg4 Hup.
  rewrite (handleListen_registered p packet h nl tl gw Hn Ht Hg Hg4 Hup).
  cbn. split.
  - apply lookup_insert_eq.
  - intros q Hq. apply lookup_insert_ne. congruence.
Qed.


End Outbound.

(** ** The outbound scenarios *)

(** Scenario 1 runs to the end: the frame goes out on the upstream
    handle. *)
Lemma scenario_out_sent :
  handleListen dotted_IP_String spec_checkSum spec_CheckTCPIPv4Sum
    (proxy gateway_device) out_packet listen_handle
  = (proxy_after_out, Inject 0%N out_frame).
Proof.
  apply injective_projections.
  - reflexivity.
  - vm_compute. reflexivity.
Qed.

Lemma handleListen_counters_witness :
  handleListen dotted_IP_String spec_checkSum spec_CheckTCPIPv4Sum
    (proxy gateway_device) out_packet listen_handle
  = (proxy_after_out, Inject 0%N out_frame)
  /\ Pcap_seq proxy_after_out = (0 + 1) mod 2 ^ 32
  /\ Pcap_id proxy_after_out = (0 + 1) mod 2 ^ 16.
Proof.
  split; [exact scenario_out_sent|].
  exact (handleListen_counters dotted_IP_String spec_checkSum
           spec_CheckTCPIPv4Sum (proxy gateway_device)
           out_packet listen_handle proxy_after_out 0%N out_frame
           scenario_out_sent).
Defined.

(** C3, counterexample: with a gateway whose first address is IPv6 the
    pipeline returns at "ipv6 not support", before the registration, and
    the five-tuple of the captured TCP packet is not in the NAT table. *)
Lemma handleListen_registers_counterexample :
  ~ nat_registration_claim dotted_IP_String spec_checkSum spec_CheckTCPIPv4Sum
      (proxy gateway_device_v6) out_packet listen_handle.
Proof.
  intros H.
  specialize (H _ _ eq_refl eq_refl).
  vm_compute in H. discriminate H.
Qed.

Lemma handleListen_registers_witness :
  Pcap_nat proxy_after_out !! out_quintuple = Some listen_handle
  /\ forall q, q <> out_quintuple ->
       Pcap_nat proxy_after_out !! q = (∅ : gmap Quintuple Handle) !! q.
Proof.
  refine (handleListen_registers dotted_IP_String spec_checkSum
            spec_CheckTCPIPv4Sum (proxy gateway_device)
            out_packet listen_handle out_network out_transport
            (bytes_of [192; 168; 1; 1])
            eq_refl eq_refl eq_refl _ eq_refl).
  vm_compute. eauto.
Defined.


Lemma handleListen_total_length_witness :
  handleListen dotted_IP_String spec_checkSum spec_CheckTCPIPv4Sum
    (proxy gateway_device) out_packet listen_handle
  = (proxy_after_out, Inject 0%N out_frame)
  /\ exists nl tl,
       pkt_network out_packet = Some nl /\ pkt_transport out_packet = Some tl
       /\ slice 2 4 (firstn 20 (skipn (length (link_header (proxy gateway_device)))
                                      out_frame))
          = PutUint16 (((5 + 0 + len (tunnel_payload out_packet nl tl)) * 8)
                       mod 2 ^ 16).
Proof.
  split; [exact scenario_out_sent|].
  exact (handleListen_total_length dotted_IP_String spec_checkSum
           spec_CheckTCPIPv4Sum (proxy gateway_device)
           out_packet listen_handle proxy_after_out 0%N out_frame
           scenario_out_sent).
Defined.

Lemma handleListen_emits_upstream_witness :
  exists data,
    (handleListen dotted_IP_String spec_checkSum spec_CheckTCPIPv4Sum
       (proxy gateway_device) out_packet listen_handle).2
    = Inject 0%N data.
Proof.
  refine (handleListen_emits_upstream dotted_IP_String spec_checkSum
            spec_CheckTCPIPv4Sum (proxy gateway_device) out_packet listen_handle
            out_network out_transport (bytes_of [192; 168; 1; 1])
            eq_refl eq_refl eq_refl _ _ _ _).
  - vm_compute. eauto.
  - vm_compute. eauto.
  - vm_compute. eauto.
  - right. split; reflexivity.
Defined.

(** The sum over an IPv4 header is the sum over the header with a zero
    checksum field plus the checksum field. *)
Lemma sum16_IPv4_header (ip : IPv4) (s0 s1 s2 s3 d0 d1 d2 d3 : byte) :
  sum16 (IPv4_header ip [s0; s1; s2; s3] [d0; d1; d2; d3])
  = sum16 (IPv4_header (IPv4_set_Checksum 0 ip) [s0; s1; s2; s3] [d0; d1; d2; d3])
    + (Z.shiftr (IPv4_Checksum ip) 8 mod 256 * 256 + IPv4_Checksum ip mod 256).
Proof.
  unfold IPv4_header, PutUint16.
  cbn [app sum16 IPv4_set_Checksum IPv4_Checksum IPv4_Version IPv4_IHL
       IPv4_TOS IPv4_Length IPv4_Id IPv4_TTL IPv4_Protocol].
  rewrite !byte_val_of_Z.
  change (IPv4_flagsfrags (IPv4_set_Checksum 0 ip)) with (IPv4_flagsfrags ip).
  change (Z.shiftr 0 8 mod 256) with 0. change (0 mod 256) with 0. lia.
Qed.

(** Where IPv4 header and checksum field sit in a frame behind an
    Ethernet header. *)
Lemma slice_header_field {A} (l : list A) :
  slice 24 26 l = slice 10 12 (slice 14 34 l).
Proof.
  unfold slice.
  change (34 - 14)%nat with (10 + 10)%nat.
  rewrite <- take_drop_commute, take_take, drop_drop. reflexivity.
Qed.

Lemma carrier_frame_slices (checkSum : list byte -> Z)
    (CheckTCPIPv4Sum : TCP -> list byte -> IPv4 -> Z)
    (p : Pcap) (ttl : Z) (contents src dst : list byte) :
  length (link_header p) = 14%nat -> length src = 4%nat -> length dst = 4%nat ->
  slice 14 34 (carrier_frame checkSum CheckTCPIPv4Sum p ttl contents src dst)
  = IPv4_header (carrier_IPv4 checkSum p ttl contents) src dst
  /\ slice 24 26 (carrier_frame checkSum CheckTCPIPv4Sum p ttl contents src dst)
     = PutUint16 (checkSum []).
Proof.
  intros Hl Hs Hd.
  pose proof (carrier_frame_header checkSum CheckTCPIPv4Sum p ttl contents
                src dst Hs Hd) as Hh.
  rewrite Hl in Hh. split; [exact Hh|].
  rewrite slice_header_field.
  change (slice 14 34 ?l) with (firstn 20 (skipn 14 l)).
  rewrite Hh. reflexivity.
Qed.

(** Scenario 2: the packet of scenario 1 captured twice on a fresh proxy.
    Whatever [checkSum] and [CheckTCPIPv4Sum] compute, both frames are
    sent, their IPv4 headers differ in the id alone and carry the same
    checksum field, so they cannot both verify. *)
Lemma scenario_twice_any_checkSum (checkSum : list byte -> Z)
    (CheckTCPIPv4Sum : TCP -> list byte -> IPv4 -> Z) :
  exists p1 d1 p2 d2,
    handleListen dotted_IP_String checkSum CheckTCPIPv4Sum
      (proxy gateway_device) out_packet listen_handle = (p1, Inject 0%N d1)
    /\ handleListen dotted_IP_String checkSum CheckTCPIPv4Sum
         p1 out_packet listen_handle = (p2, Inject 0%N d2)
    /\ slice 24 26 d1 = PutUint16 (checkSum [])
    /\ slice 24 26 d2 = PutUint16 (checkSum [])
    /\ ipv4_checksum_verifies (slice 14 34 d1)
       && ipv4_checksum_verifies (slice 14 34 d2) = false.
Proof.
  set (p0 := proxy gateway_device).
  set (src := bytes_of [192; 168; 1; 10]).
  set (dst := bytes_of [1; 2; 3; 4]).
  set (gw := bytes_of [192; 168; 1; 1]).
  assert (Hgw : is_Some (To4 gw)) by (vm_compute; eauto).
  assert (Hlink : forall p, Pcap_UpDev p = upstream_device ->
                            Pcap_GatewayDev p = gateway_device ->
                            link_serializable p).
  { intros p Hu Hg. right. rewrite Hu, Hg. split; reflexivity. }
  pose proof (handleListen_sends dotted_IP_String checkSum CheckTCPIPv4Sum
                p0 out_packet listen_handle out_network out_transport gw src dst
                eq_refl eq_refl eq_refl Hgw eq_refl eq_refl
                (Hlink p0 eq_refl eq_refl)) as H1.
  set (p1 := registered p0 (packet_quintuple dotted_IP_String out_network
                                             out_transport) listen_handle) in *.
  pose proof (handleListen_sends dotted_IP_String checkSum CheckTCPIPv4Sum
                p1 out_packet listen_handle out_network out_transport gw src dst
                eq_refl eq_refl eq_refl Hgw eq_refl eq_refl
                (Hlink p1 eq_refl eq_refl)) as H2.
  set (contents := tunnel_payload out_packet out_network out_transport) in *.
  change (network_addrs out_network).2 with 64 in *.
  eexists _, _, _, _. split; [exact H1|]. split; [exact H2|].
  destruct (carrier_frame_slices checkSum CheckTCPIPv4Sum p0 64 contents src dst
              eq_refl eq_refl eq_refl) as [Hh1 Hc1].
  destruct (carrier_frame_slices checkSum CheckTCPIPv4Sum p1 64 contents src dst
              eq_refl eq_refl eq_refl) as [Hh2 Hc2].
  split; [exact Hc1|]. split; [exact Hc2|].
  rewrite Hh1, Hh2. unfold ipv4_checksum_verifies.
  change src with [byte_of_Z 192; byte_of_Z 168; byte_of_Z 1; byte_of_Z 10].
  change dst with [byte_of_Z 1; byte_of_Z 2; byte_of_Z 3; byte_of_Z 4].
  rewrite (sum16_IPv4_header (carrier_IPv4 checkSum p0 64 contents)),
          (sum16_IPv4_header (carrier_IPv4 checkSum p1 64 contents)).
  cbn [carrier_IPv4 IPv4_Checksum IPv4_set_Checksum].
  set (X := Z.shiftr (checkSum []) 8 mod 256 * 256 + checkSum [] mod 256).
  assert (HX : 0 <= X < 65536).
  { unfold X.
    pose proof (Z.mod_pos_bound (Z.shiftr (checkSum []) 8) 256 eq_refl).
    pose proof (Z.mod_pos_bound (checkSum []) 256 eq_refl). lia. }
  match goal with
  | |- (fold16 (?a + X) =? _) && (fold16 (?b + X) =? _) = false =>
    assert (Ha : a = 101158) by (vm_compute; reflexivity);
    assert (Hb : b = 101159) by (vm_compute; reflexivity);
    rewrite Ha, Hb
  end.
  destruct (Z.eqb_spec (fold16 (101158 + X)) 0xFFFF) as [E1|]; [|reflexivity].
  destruct (Z.eqb_spec (fold16 (101159 + X)) 0xFFFF) as [E2|]; [|reflexivity].
  exfalso. apply (fold16_succ (101158 + X)); [lia|exact E1|].
  replace (101158 + X + 1) with (101159 + X) by lia. exact E2.
Qed.

(** C1, at scenarios 1 and 2. With the checksum functions of the
    specification, the frame sent for the captured TCP packet carries
    0xffff, [checkSum] of the empty [LayerContents()] of the header just
    built, in its IPv4 checksum field, and the header does not verify,
    while the TCP checksum verifies against the pseudo-header of the
    emitted addresses.  With any checksum functions at all, of the two
    frames sent for the same packet captured twice at least one has an
    IPv4 header that does not verify. *)
Theorem handleListen_ipv4_checksum_fails :
  ((handleListen dotted_IP_String spec_checkSum spec_CheckTCPIPv4Sum
      (proxy gateway_device) out_packet listen_handle).2
   = Inject 0%N out_frame
   /\ length out_frame = 94%nat
   /\ slice 24 26 out_frame = bytes_of [0xff; 0xff]
   /\ ipv4_checksum_verifies (slice 14 34 out_frame) = false
   /\ tcp_checksum_verifies (slice 26 30 out_frame) (slice 30 34 out_frame)
                            (skipn 34 out_frame) = true)
  /\ forall (checkSum : list byte -> Z)
            (CheckTCPIPv4Sum : TCP -> list byte -> IPv4 -> Z),
      exists p1 d1 p2 d2,
        handleListen dotted_IP_String checkSum CheckTCPIPv4Sum
          (proxy gateway_device) out_packet listen_handle = (p1, Inject 0%N d1)
        /\ handleListen dotted_IP_String checkSum CheckTCPIPv4Sum
             p1 out_packet listen_handle = (p2, Inject 0%N d2)
        /\ slice 24 26 d1 = PutUint16 (checkSum [])
        /\ slice 24 26 d2 = PutUint16 (checkSum [])
        /\ ipv4_checksum_verifies (slice 14 34 d1)
           && ipv4_checksum_verifies (slice 14 34 d2) = false.
Proof.
  split.
  - vm_compute. repeat split.
  - exact scenario_twice_any_checkSum.
Qed.

(** ** The inbound pipeline *)

Section Inbound.

Variable IP_String : IP -> string.
Variable NewPacket_IPv4_TransportLayer : list byte -> option TransportLayer.

Local Abbreviation inbound := (handle IP_String NewPacket_IPv4_TransportLayer).

(** The inbound pipeline never changes the proxy state. *)
Lemma handle_state (p : Pcap) (packet : Packet) : (inbound p packet).1 = p.
Proof.
  unfold handle.
  destruct (pkt_application packet) as [contents|]; [|reflexivity].
  destruct (encapped_network contents) as [e|[[t dstIP] srcIP]]; [reflexivity|].
  destruct (NewPacket_IPv4_TransportLayer contents) as [tl|]; [|reflexivity].
  destruct (encapped_ports tl) as [dp sp].
  destruct (Device_IsLoop (Pcap_UpDev p)).
  - destruct (SerializeLayers _); reflexivity.
  - destruct t; try reflexivity.
    destruct (SerializeLayers _); reflexivity.
Qed.

Lemma encapped_ports_transport_ports (tl : TransportLayer) :
  encapped_ports tl = ((transport_ports tl).2, (transport_ports tl).1).
Proof. destruct tl; reflexivity. Qed.

(** A carrier frame whose payload is forwarded has passed every guard. *)
Lemma handle_Inject_inv (p : Pcap) (packet : Packet) (p' : Pcap) (h : Handle)
    (data : list byte) :
  inbound p packet = (p', Inject h data) ->
  exists contents t dstIP srcIP tl,
    pkt_application packet = Some contents
    /\ encapped_network contents = inr (t, dstIP, srcIP)
    /\ NewPacket_IPv4_TransportLayer contents = Some tl
    /\ p' = p
    /\ h = match Pcap_nat p
                 !! {| Quintuple_SrcIP := IP_String dstIP;
                       Quintuple_SrcPort := (transport_ports tl).2;
                       Quintuple_DstIP := IP_String srcIP;
                       Quintuple_DstPort := (transport_ports tl).1;
                       Quintuple_Protocol := TransportLayer_LayerType tl |} with
           | Some h' => h'
           | None => Pcap_upHandle p
           end
    /\ SerializeLayers [LinkLayer_serializable (upstream_link p);
                        SPayload contents] = Some data.
Proof.
  unfold handle.
  destruct (pkt_application packet) as [contents|]; [|discriminate].
  destruct (encapped_network contents) as [e|[[t dstIP] srcIP]] eqn:Hnet;
    [discriminate|].
  destruct (NewPacket_IPv4_TransportLayer contents) as [tl|] eqn:Htl;
    [|discriminate].
  rewrite encapped_ports_transport_ports.
  unfold upstream_link.
  destruct (Device_IsLoop (Pcap_UpDev p)).
  - destruct (SerializeLayers _) as [d|] eqn:Hser; [|discriminate].
    intros [= <- <- <-]. exists contents, t, dstIP, srcIP, tl.
    repeat split; assumption || reflexivity.
  - destruct t; try discriminate.
    destruct (SerializeLayers _) as [d|] eqn:Hser; [|discriminate].
    intros [= <- <- <-].
    exists contents, LayerTypeIPv4, dstIP, srcIP, tl.
    repeat split; assumption || reflexivity.
Qed.


(** C5, amended. Every frame the inbound pipeline sends is the new link
    header, then the carrier TCP payload byte for byte, then, on an
    Ethernet upstream device only, the zero bytes that pad a frame shorter
    than 60 bytes up to 60; on a loopback device and for frames of 60
    bytes or more it is exactly link header and payload. *)
Theorem handle_forwards_verbatim (p : Pcap) (packet : Packet) (p' : Pcap)
    (h : Handle) (data : list byte) :
  inbound p packet = (p', Inject h data) ->
  exists contents,
    pkt_application packet = Some contents
    /\ data = link_header p ++ contents
              ++ link_padding p (length (link_header p ++ contents))
    /\ firstn (length contents) (skipn (length (link_header p)) data) = contents
    /\ (Device_IsLoop (Pcap_UpDev p) = true
        \/ (60 <= length (link_header p ++ contents))%nat ->
        data = link_header p ++ contents).
Proof.
  intros H.
  destruct (handle_Inject_inv p packet p' h data H)
    as (contents & t & dstIP & srcIP & tl & Happ & _ & _ & _ & _ & Hser).
  exists contents. split; [exact Happ|].
  cbn [SerializeLayers fold_right] in Hser.
  cbn [SerializeTo] in Hser.
  apply upstream_link_SerializeTo in Hser.
  rewrite app_nil_r in Hser.
  split; [exact Hser|]. split.
  - rewrite Hser, drop_app_length, take_app_length. reflexivity.
  - intros Hcase. rewrite Hser. unfold link_padding.
    destruct Hcase as [-> | Hlen].
    + rewrite app_nil_r. reflexivity.
    + destruct (Device_IsLoop _); [rewrite app_nil_r; reflexivity|].
      replace (60 - _)%nat with 0%nat by lia.
      cbn [repeat]. rewrite app_nil_r. reflexivity.
Qed.

(** X3. The inbound pipeline only reads the proxy state: NAT table, [seq] and
    [id] are the same after every carrier frame. *)
Theorem handle_preserves_state (p : Pcap) (packet : Packet) :
  Pcap_nat (inbound p packet).1 = Pcap_nat p
  /\ Pcap_seq (inbound p packet).1 = Pcap_seq p
  /\ Pcap_id (inbound p packet).1 = Pcap_id p.
Proof. rewrite handle_state. repeat split. Qed.

(** C10. A carrier frame without application layer is dropped as "empty
    payload": nothing is written on any handle, and the NAT table, [seq]
    and [id] (the whole state) are as before. *)
Theorem handle_empty_payload (p : Pcap) (packet : Packet) :
  pkt_application packet = None ->
  inbound p packet = (p, Drop EmptyPayload)
  /\ (forall h data, (inbound p packet).2 <> Inject h data)
  /\ Pcap_nat (inbound p packet).1 = Pcap_nat p
  /\ Pcap_seq (inbound p packet).1 = Pcap_seq p
  /\ Pcap_id (inbound p packet).1 = Pcap_id p.
Proof.
  intros H. unfold handle. rewrite H. cbn.
  repeat split. discriminate.
Qed.

End Inbound.

(** The "Guess network layer type" block on a payload too short for an
    IPv4 header: the decoder leaves [Version] at zero. *)
Lemma encapped_network_short (contents : list byte) :
  (length contents < 20)%nat ->
  encapped_network contents = inl (IPVersionNotSupport 0).
Proof.
  intros Hlen. unfold encapped_network, NewPacket_NetworkLayer, IPv4_DecodeFromBytes.
  apply Nat.ltb_lt in Hlen. rewrite Hlen. reflexivity.
Qed.

(** The same block on a payload of at least 20 bytes: the branch is picked
    by the first nibble. *)
Lemma encapped_network_long (contents : list byte) :
  (20 <= length contents)%nat ->
  encapped_network contents
  = if first_nibble contents =? 4 then
      inr (LayerTypeIPv4, slice 16 20 contents, slice 12 16 contents)
    else if first_nibble contents =? 6 then
      inr (LayerTypeIPv6, IPv6_DstIP (IPv6_DecodeFromBytes contents),
           IPv6_SrcIP (IPv6_DecodeFromBytes contents))
    else inl (IPVersionNotSupport (first_nibble contents)).
Proof.
  intros Hlen. unfold encapped_network, NewPacket_NetworkLayer, IPv4_DecodeFromBytes.
  apply Nat.ltb_ge in Hlen. rewrite Hlen. reflexivity.
Qed.

(** C6, counterexample: the one-byte payload [0x60] has first nibble 6,
    yet the IPv6 decoder is never reached: the IPv4 decoder returns at
    once on fewer than 20 bytes, the version the pipeline reads is 0 and
    the frame is dropped as "IP version 0 not support".  (Likewise [0x45]
    is not taken as IPv4.) *)
Lemma handle_version_counterexample : ~ version_claim (bytes_of [0x60]).
Proof.
  intros H. destruct H as (_ & H6 & _); [discriminate|].
  specialize (H6 eq_refl). vm_compute in H6. discriminate H6.
Qed.

(** C6, amended. For a carrier payload of at least 20 bytes the inbound
    pipeline takes the IP version from the first nibble: 4 selects the
    IPv4 decoding of the payload, 6 the IPv6 decoding, and any other
    value drops the frame; a payload shorter than 20 bytes is dropped
    whatever its first nibble.  A dropped frame is written nowhere and
    leaves the state as it was. *)
Theorem handle_version (IP_String : IP -> string)
    (NewPacket_IPv4_TransportLayer : list byte -> option TransportLayer)
    (p : Pcap) (packet : Packet) (contents : list byte) :
  pkt_application packet = Some contents ->
  ((20 <= length contents)%nat -> first_nibble contents = 4 ->
   encapped_network contents
   = inr (LayerTypeIPv4, slice 16 20 contents, slice 12 16 contents))
  /\ ((20 <= length contents)%nat -> first_nibble contents = 6 ->
      encapped_network contents
      = inr (LayerTypeIPv6, IPv6_DstIP (IPv6_DecodeFromBytes contents),
             IPv6_SrcIP (IPv6_DecodeFromBytes contents)))
  /\ ((length contents < 20)%nat
      \/ (first_nibble contents <> 4 /\ first_nibble contents <> 6) ->
      exists v, handle IP_String NewPacket_IPv4_TransportLayer p packet
                = (p, Drop (IPVersionNotSupport v))).
Proof.
  intros Happ. repeat split.
  - intros Hlen Hn. rewrite (encapped_network_long contents Hlen), Hn. reflexivity.
  - intros Hlen Hn. rewrite (encapped_network_long contents Hlen), Hn. reflexivity.
  - intros Hcase. unfold handle. rewrite Happ.
    destruct (Nat.lt_ge_cases (length contents) 20) as [Hlt|Hge].
    + rewrite (encapped_network_short contents Hlt). eauto.
    + destruct Hcase as [Hlt|[H4 H6]]; [lia|].
      rewrite (encapped_network_long contents Hge).
      destruct (Z.eqb_spec (first_nibble contents) 4); [contradiction|].
      destruct (Z.eqb_spec (first_nibble contents) 6); [contradiction|].
      eauto.
Qed.

(** Scenario 4 runs to the end: the reply goes out on the listen handle
    that scenario 1 registered. *)
Lemma scenario_in_sent :
  handle dotted_IP_String plain_IPv4_TransportLayer proxy_after_out
         (carrier_packet (Some reply_bytes))
  = (proxy_after_out, Inject listen_handle in_frame).
Proof.
  apply injective_projections.
  - apply handle_state.
  - vm_compute. reflexivity.
Qed.


(** C5, counterexample: the 40-byte reply of scenario 4 leaves as a frame
    of 60 bytes, six zero bytes longer than link header and payload. *)
Lemma handle_forwards_verbatim_counterexample :
  ~ verbatim_claim dotted_IP_String plain_IPv4_TransportLayer proxy_after_out
      (carrier_packet (Some reply_bytes)).
Proof.
  intros H.
  specialize (H _ _ _ _ scenario_in_sent eq_refl).
  apply (f_equal (@length byte)) in H.
  vm_compute in H. discriminate H.
Qed.

Lemma handle_forwards_verbatim_witness :
  handle dotted_IP_String plain_IPv4_TransportLayer proxy_after_out
         (carrier_packet (Some reply_bytes))
  = (proxy_after_out, Inject listen_handle in_frame)
  /\ exists contents,
       pkt_application (carrier_packet (Some reply_bytes)) = Some contents
       /\ in_frame = link_header proxy_after_out ++ contents
                     ++ link_padding proxy_after_out
                          (length (link_header proxy_after_out ++ contents))
       /\ firstn (length contents)
                 (skipn (length (link_header proxy_after_out)) in_frame)
          = contents
       /\ (Device_IsLoop (Pcap_UpDev proxy_after_out) = true
           \/ (60 <= length (link_header proxy_after_out ++ contents))%nat ->
           in_frame = link_header proxy_after_out ++ contents).
Proof.
  split; [exact scenario_in_sent|].
  exact (handle_forwards_verbatim dotted_IP_String plain_IPv4_TransportLayer
           proxy_after_out (carrier_packet (Some reply_bytes)) proxy_after_out
           listen_handle in_frame scenario_in_sent).
Defined.

Lemma handle_version_witness :
  encapped_network reply_bytes
  = inr (LayerTypeIPv4, bytes_of [10; 0; 0; 2], bytes_of [8; 8; 8; 8]).
Proof.
  refine (proj1 (handle_version dotted_IP_String plain_IPv4_TransportLayer
                   proxy_after_out (carrier_packet (Some reply_bytes))
                   reply_bytes eq_refl) _ _).
  - vm_compute. lia.
  - vm_compute. reflexivity.
Defined.

Lemma handle_empty_payload_witness :
  handle dotted_IP_String plain_IPv4_TransportLayer proxy_after_out
         (carrier_packet None)
  = (proxy_after_out, Drop EmptyPayload).
Proof.
  exact (proj1 (handle_empty_payload dotted_IP_String plain_IPv4_TransportLayer
                  proxy_after_out (carrier_packet None) eq_refl)).
Defined.
(** * Further properties *)

(** ** The other builders *)





(** X6. No pair of addresses is accepted by both network-layer builders;
    for a TCP or UDP transport layer, a pair of IPv4 addresses is
    accepted by [CreateIPv4Layer], a pair without IPv4 form by
    [CreateIPv6Layer], and a mixed pair by neither. *)
Theorem CreateIPv4Layer_CreateIPv6Layer (srcIP dstIP : IP) (id ttl : Z)
    (tl : TransportLayer) :
  let v4 := CreateIPv4Layer srcIP dstIP id ttl tl in
  let v6 := CreateIPv6Layer srcIP dstIP ttl tl in
  ~ ((exists r, v4 = inr r) /\ (exists r, v6 = inr r))
  /\ (TransportLayer_LayerType tl = LayerTypeTCP
      \/ TransportLayer_LayerType tl = LayerTypeUDP ->
      ((exists r, v4 = inr r) <-> (is_Some (To4 srcIP) /\ is_Some (To4 dstIP)))
      /\ ((exists r, v6 = inr r) <-> (To4 srcIP = None /\ To4 dstIP = None))).
Proof.
  cbv zeta. unfold CreateIPv4Layer, CreateIPv6Layer.
  destruct (To4 srcIP) as [s4|] eqn:Hs, (To4 dstIP) as [d4|] eqn:Hd.
  - split.
    + intros [_ [r Hr]]. discriminate.
    + intros Ht. split; split.
      * eauto.
      * intros _. destruct tl as [t|u|k c]; [eauto|eauto|].
        destruct Ht as [Ht|Ht]; destruct k; discriminate.
      * intros [r Hr]. discriminate.
      * intros [? _]. discriminate.
  - split.
    + intros [[r Hr] _]. discriminate.
    + intros Ht. split; split.
      * intros [r Hr]. discriminate.
      * intros [_ [x Hx]]. discriminate.
      * intros [r Hr]. discriminate.
      * intros [? _]. discriminate.
  - split.
    + intros [[r Hr] _]. discriminate.
    + intros Ht. split; split.
      * intros [r Hr]. discriminate.
      * intros [[x Hx] _]. discriminate.
      * intros [r Hr]. discriminate.
      * intros [_ ?]. discriminate.
  - split.
    + intros [[r Hr] _]. discriminate.
    + intros Ht. split; split.
      * intros [r Hr]. discriminate.
      * intros [[x Hx] _]. discriminate.
      * intros _. split; reflexivity.
      * intros _. destruct tl as [t|u|k c]; [eauto|eauto|].
        destruct Ht as [Ht|Ht]; destruct k; discriminate.
Qed.

(** ** Checksums of the serializer *)

Lemma byte_val_range (b : byte) : 0 <= byte_val b <= 255.
Proof.
  unfold byte_val. pose proof (Byte.to_N_bounded b). lia.
Qed.

Lemma fold_round (c : Z) :
  0 <= c < 2 ^ 32 ->
  uint32 (Z.shiftr c 16 + Z.land c 0xffff) = c / 65536 + c mod 65536.
Proof.
  intros Hc. rewrite Z.shiftr_div_pow2 by lia.
  change 0xffff with (Z.ones 16). rewrite Z.land_ones by lia.
  change (2 ^ 16) with 65536. unfold uint32. change (2 ^ 32) with 4294967296 in *.
  apply Z.mod_small. Z.div_mod_to_equations. lia.
Qed.

(** Three rounds end the carry loop on every [uint32]; the result is the
    sum modulo 65535, zero only for a zero sum. *)
Lemma fold_carries_done (c : Z) :
  0 <= c < 2 ^ 32 ->
  0 <= fold_carries 3 c <= 0xffff
  /\ (fold_carries 3 c) mod 65535 = c mod 65535
  /\ (fold_carries 3 c = 0 -> c = 0)
  /\ fold_carries 3 c <= c.
Proof.
  intros Hc. cbn [fold_carries].
  change (2 ^ 32) with 4294967296 in *.
  destruct (Z.ltb_spec 0xffff c) as [H1|H1]; [|repeat split; lia].
  rewrite (fold_round c) by (change (2 ^ 32) with 4294967296; lia).
  set (c1 := c / 65536 + c mod 65536).
  assert (Hc1 : 0 < c1 <= 131070 /\ c1 mod 65535 = c mod 65535 /\ c1 <= c).
  { unfold c1. Z.div_mod_to_equations. lia. }
  destruct (Z.ltb_spec 0xffff c1) as [H2|H2]; [|repeat split; lia].
  rewrite (fold_round c1) by (change (2 ^ 32) with 4294967296; lia).
  set (c2 := c1 / 65536 + c1 mod 65536).
  assert (Hc2 : 0 < c2 <= 65535 /\ c2 mod 65535 = c mod 65535 /\ c2 <= c).
  { unfold c2. Z.div_mod_to_equations. lia. }
  destruct (Z.ltb_spec 0xffff c2) as [H3|H3]; [lia|repeat split; lia].
Qed.

Lemma not_uint16_small (c : Z) : 0 <= c <= 0xffff -> not_uint16 c = 65535 - c.
Proof.
  intros Hc. unfold not_uint16, uint16, Z.lnot. change (2 ^ 16) with 65536.
  Z.div_mod_to_equations. lia.
Qed.

(** A sum and its folded complement add up to all ones. *)
Lemma checksum_verifies (s : Z) :
  0 <= s < 2 ^ 32 - 2 ^ 16 ->
  0 <= not_uint16 (fold_carries 3 (uint32 s)) <= 0xffff
  /\ fold16 (s + not_uint16 (fold_carries 3 (uint32 s))) = 0xFFFF.
Proof.
  intros Hs.
  assert (Hu : uint32 s = s) by (apply Z.mod_small; lia). rewrite Hu.
  destruct (fold_carries_done s) as (Hr & Hm & Hz & Hle); [lia|].
  rewrite not_uint16_small by exact Hr.
  set (f := fold_carries 3 s) in *. split; [lia|].
  unfold fold16. change (2 ^ 16) with 65536. change (2 ^ 32) with 4294967296 in *.
  set (t := s + (65535 - f)).
  assert (Ht : 65535 <= t < 4294967296 /\ t mod 65535 = 0).
  { unfold t. Z.div_mod_to_equations. lia. }
  set (t1 := t mod 65536 + t / 65536).
  assert (Ht1 : 0 < t1 <= 131070 /\ t1 mod 65535 = 0).
  { unfold t1. Z.div_mod_to_equations. lia. }
  Z.div_mod_to_equations. lia.
Qed.

Lemma uint16_word (c : Z) :
  0 <= c <= 0xffff -> Z.shiftr c 8 mod 256 * 256 + c mod 256 = c.
Proof.
  intros Hc. rewrite Z.shiftr_div_pow2 by lia. change (2 ^ 8) with 256.
  Z.div_mod_to_equations. lia.
Qed.

Lemma sum16_PutUint16 (v : Z) (rest : list byte) :
  sum16 (PutUint16 v ++ rest) = Z.shiftr v 8 mod 256 * 256 + v mod 256 + sum16 rest.
Proof. unfold PutUint16. cbn [app sum16]. rewrite !byte_val_of_Z. reflexivity. Qed.

(** [sum16] splits behind an even number of bytes. *)
Lemma sum16_app (a b : list byte) :
  Nat.Even (length a) -> sum16 (a ++ b) = sum16 a + sum16 b.
Proof.
  revert a.
  assert (H : forall n (a : list byte), (length a <= n)%nat ->
                Nat.Even (length a) -> sum16 (a ++ b) = sum16 a + sum16 b).
  { induction n as [|n IH]; intros a Hn He.
    - destruct a; [reflexivity|cbn in Hn; lia].
    - destruct a as [|x [|y a]].
      + reflexivity.
      + destruct He as [k Hk]. cbn in Hk. lia.
      + cbn [app sum16 length] in *.
        change (sum16 (x :: y :: a ++ b)) with
          (byte_val x * 256 + byte_val y + sum16 (a ++ b)).
        change (sum16 (x :: y :: a)) with
          (byte_val x * 256 + byte_val y + sum16 a).
        rewrite IH; [lia|lia|].
        destruct He as [k Hk]. exists (k - 1)%nat. lia. }
  intros a. apply (H (length a)). lia.
Qed.

Lemma sum16_bound (l : list byte) : 0 <= sum16 l <= 32768 * (len l + 1).
Proof.
  unfold len.
  assert (H : forall n (a : list byte), (length a <= n)%nat ->
                0 <= sum16 a <= 32768 * (Z.of_nat (length a) + 1)).
  { induction n as [|n IH]; intros a Hn.
    - destruct a; [cbn; lia|cbn in Hn; lia].
    - destruct a as [|x [|y a]].
      + cbn. lia.
      + cbn [sum16 length]. pose proof (byte_val_range x). lia.
      + change (sum16 (x :: y :: a)) with
          (byte_val x * 256 + byte_val y + sum16 a).
        cbn [length] in *.
        pose proof (byte_val_range x). pose proof (byte_val_range y).
        specialize (IH a ltac:(lia)). lia. }
  apply (H (length l)). lia.
Qed.

Lemma length_4 {A} (l : list A) :
  length l = 4%nat -> exists a b c d, l = [a; b; c; d].
Proof.
  destruct l as [|a [|b [|c [|d [|e l]]]]]; try discriminate. eauto.
Qed.

Lemma To4_Some_4 (ip b : IP) :
  To4 ip = Some b -> exists b0 b1 b2 b3, b = [b0; b1; b2; b3].
Proof. intros H. apply length_4. exact (To4_length ip b H). Qed.

Lemma sum16_TCP_header (t : TCP) (csum : Z) (b : list byte) :
  sum16 (TCP_header t csum ++ b)
  = sum16 (TCP_header t 0 ++ b) + (Z.shiftr csum 8 mod 256 * 256 + csum mod 256).
Proof.
  unfold TCP_header, PutUint16, PutUint32. cbn [app sum16].
  rewrite !byte_val_of_Z.
  change (Z.shiftr 0 8 mod 256) with 0. change (0 mod 256) with 0. lia.
Qed.

Lemma sum16_UDP_header (u : UDP) (length csum : Z) (b : list byte) :
  sum16 (UDP_header u length csum ++ b)
  = sum16 (UDP_header u length 0 ++ b)
    + (Z.shiftr csum 8 mod 256 * 256 + csum mod 256).
Proof.
  unfold UDP_header, PutUint16. cbn [app sum16].
  rewrite !byte_val_of_Z.
  change (Z.shiftr 0 8 mod 256) with 0. change (0 mod 256) with 0. lia.
Qed.

Lemma TCP_header_length (t : TCP) (csum : Z) : length (TCP_header t csum) = 20%nat.
Proof. reflexivity. Qed.

Lemma UDP_header_length (u : UDP) (length csum : Z) :
  List.length (UDP_header u length csum) = 8%nat.
Proof. reflexivity. Qed.

(** The sum over the pseudo-header is what [computeChecksum] starts
    from, as long as the length fits the 16 bits of its field. *)
Lemma sum16_pseudo_header_of (protocol : Z) (ip : IPv4) (length csum : Z)
    (segment : list byte) :
  0 <= protocol <= 255 -> 0 <= length <= 0xffff ->
  IPv4_pseudoheaderChecksum ip = Some csum ->
  sum16 (pseudo_header_of protocol (IPv4_SrcIP ip) (IPv4_DstIP ip) length ++ segment)
  = uint32 (uint32 (uint32 (csum + protocol) + Z.land (uint32 length) 0xffff)
            + Z.shiftr (uint32 length) 16)
    + sum16 segment
  /\ 0 <= uint32 (uint32 (uint32 (csum + protocol) + Z.land (uint32 length) 0xffff)
                  + Z.shiftr (uint32 length) 16) <= 6 * 65536.
Proof.
  intros Hp Hl. unfold IPv4_pseudoheaderChecksum, pseudo_header_of, ip4_bytes.
  destruct (To4 (IPv4_SrcIP ip)) as [src|] eqn:Hs; [|discriminate].
  destruct (To4 (IPv4_DstIP ip)) as [dst|] eqn:Hd; [|discriminate].
  destruct (To4_Some_4 _ _ Hs) as (s0 & s1 & s2 & s3 & ->).
  destruct (To4_Some_4 _ _ Hd) as (d0 & d1 & d2 & d3 & ->).
  intros [= <-]. cbn [nth app sum16]. unfold PutUint16. cbn [app sum16].
  rewrite !byte_val_of_Z.
  pose proof (byte_val_range s0). pose proof (byte_val_range s1).
  pose proof (byte_val_range s2). pose proof (byte_val_range s3).
  pose proof (byte_val_range d0). pose proof (byte_val_range d1).
  pose proof (byte_val_range d2). pose proof (byte_val_range d3).
  assert (Hu : uint32 length = length) by (apply Z.mod_small; lia).
  rewrite Hu.
  assert (Hland : Z.land length 0xffff = length).
  { change 0xffff with (Z.ones 16). rewrite Z.land_ones by lia.
    apply Z.mod_small. change (2 ^ 16) with 65536. lia. }
  assert (Hshr : Z.shiftr length 16 = 0).
  { rewrite Z.shiftr_div_pow2 by lia. apply Z.div_small.
    change (2 ^ 16) with 65536. lia. }
  rewrite Hland, Hshr.
  pose proof (uint16_word length ltac:(lia)) as Hw.
  change (0 mod 256) with 0.
  assert (Hpm : protocol mod 256 = protocol) by (apply Z.mod_small; lia).
  rewrite Hpm.
  unfold uint32. change (2 ^ 32) with 4294967296.
  set (ph := (byte_val s0 + byte_val s2) * 256 + (byte_val s1 + byte_val s3)
             + (byte_val d0 + byte_val d2) * 256 + (byte_val d1 + byte_val d3)).
  assert (Hph : 0 <= ph <= 4 * 65535) by (unfold ph; lia).
  rewrite (Z.mod_small ph) by lia.
  rewrite (Z.mod_small (ph + protocol)) by lia.
  rewrite (Z.mod_small (ph + protocol + length)) by lia.
  rewrite Z.add_0_r.
  rewrite (Z.mod_small (ph + protocol + length)) by lia.
  unfold ph. clear ph Hph.
  revert Hw. generalize (Z.shiftr length 8 mod 256 * 256 + length mod 256).
  intros w Hw. split; lia.
Qed.

(** ** [Serialize] and [SerializeRaw] *)

Lemma uint16_range (z : Z) : 0 <= uint16 z <= 0xffff.
Proof.
  unfold uint16. change (2 ^ 16) with 65536.
  pose proof (Z.mod_pos_bound z 65536). lia.
Qed.

Lemma IPv4_checksum_verifies (ip : IPv4) (src dst : IP) :
  length src = 4%nat -> length dst = 4%nat ->
  let csum := IPv4_checksum (IPv4_header (IPv4_set_Checksum 0 ip) src dst) in
  0 <= csum <= 0xffff
  /\ ipv4_checksum_verifies (IPv4_header (IPv4_set_Checksum csum ip) src dst) = true.
Proof.
  intros Hs Hd.
  destruct (length_4 _ Hs) as (s0 & s1 & s2 & s3 & ->).
  destruct (length_4 _ Hd) as (d0 & d1 & d2 & d3 & ->).
  cbv zeta. unfold IPv4_checksum, ipv4_checksum_verifies.
  set (h0 := IPv4_header (IPv4_set_Checksum 0 ip) [s0; s1; s2; s3] [d0; d1; d2; d3]).
  pose proof (sum16_bound h0) as Hb.
  assert (Hl : len h0 = 20) by reflexivity. rewrite Hl in Hb.
  destruct (checksum_verifies (sum16 h0)) as [Hr Hv].
  { change (2 ^ 32) with 4294967296. change (2 ^ 16) with 65536. lia. }
  split; [exact Hr|].
  rewrite sum16_IPv4_header.
  change (IPv4_set_Checksum 0 (IPv4_set_Checksum ?c ip)) with (IPv4_set_Checksum 0 ip).
  fold h0.
  change (IPv4_Checksum (IPv4_set_Checksum ?c ip)) with c.
  rewrite uint16_word by exact Hr.
  apply Z.eqb_eq. exact Hv.
Qed.

Section Serializer.

Variable IPv6_pseudoheaderChecksum : IPv6 -> option Z.
Variable IPv6_SerializeTo_opts :
  SerializeOptions -> IPv6 -> list byte -> option (list byte).

Local Abbreviation fixup :=
  (Serialize IPv6_pseudoheaderChecksum IPv6_SerializeTo_opts).
Local Abbreviation raw :=
  (SerializeRaw IPv6_pseudoheaderChecksum IPv6_SerializeTo_opts).
Local Abbreviation fix_opts := {| FixLengths := true; ComputeChecksums := true |}.
Local Abbreviation raw_opts := {| FixLengths := false; ComputeChecksums := false |}.
Local Abbreviation serializeTo :=
  (SerializeTo_opts IPv6_pseudoheaderChecksum IPv6_SerializeTo_opts).
Local Abbreviation computeChecksum' := (computeChecksum IPv6_pseudoheaderChecksum).

Lemma Serialize_cons (l : Layer) (rest : list Layer) (b : list byte) :
  fixup rest = Some b -> fixup (l :: rest) = serializeTo fix_opts l b.
Proof.
  unfold Serialize, SerializeLayers_opts. cbn [fold_right]. intros ->. reflexivity.
Qed.

Lemma Serialize_cons_None (l : Layer) (rest : list Layer) :
  fixup rest = None -> fixup (l :: rest) = None.
Proof.
  unfold Serialize, SerializeLayers_opts. cbn [fold_right]. intros ->. reflexivity.
Qed.

Lemma Serialize_Payload (data : list byte) : fixup [L_Payload data] = Some data.
Proof.
  unfold Serialize, SerializeLayers_opts. cbn [fold_right SerializeTo_opts].
  rewrite app_nil_r. reflexivity.
Qed.

Lemma SerializeRaw_cons (l : Layer) (rest : list Layer) (b : list byte) :
  raw rest = Some b -> raw (l :: rest) = serializeTo raw_opts l b.
Proof.
  unfold SerializeRaw, SerializeLayers_opts. cbn [fold_right]. intros ->. reflexivity.
Qed.

Lemma SerializeRaw_Payload (data : list byte) : raw [L_Payload data] = Some data.
Proof.
  unfold SerializeRaw, SerializeLayers_opts. cbn [fold_right SerializeTo_opts].
  rewrite app_nil_r. reflexivity.
Qed.

(** With the zero options the serializer is the one the two pipelines
    call. *)
Lemma SerializeRaw_SerializeLayers (layers : list SerializableLayer) :
  raw (map Layer_of_SerializableLayer layers) = SerializeLayers layers.
Proof.
  unfold SerializeRaw, SerializeLayers_opts, SerializeLayers.
  induction layers as [|l rest IH]; [reflexivity|].
  cbn [map fold_right]. rewrite IH.
  destruct (fold_right _ _ rest) as [b|]; [|reflexivity].
  destruct l; reflexivity.
Qed.

(** What [layers.IPv4.SerializeTo] writes in fix-up mode. *)
Lemma IPv4_SerializeTo_fixup (ip : IPv4) (b : list byte) (src dst : IP) :
  To4 (IPv4_SrcIP ip) = Some src -> To4 (IPv4_DstIP ip) = Some dst ->
  exists csum,
    let fixed := IPv4_set_Checksum csum
                   (IPv4_set_Length (uint16 (20 + len b)) (IPv4_set_IHL 5 ip)) in
    IPv4_SerializeTo_opts fix_opts ip b = Some (IPv4_header fixed src dst ++ b)
    /\ length (IPv4_header fixed src dst) = 20%nat
    /\ ipv4_checksum_verifies (IPv4_header fixed src dst) = true
    /\ IPv4_Length (IPv4_DecodeFromBytes (IPv4_header fixed src dst ++ b))
       = (20 + len b) mod 2 ^ 16.
Proof.
  intros Hs Hd.
  pose proof (To4_length _ _ Hs) as Hsl. pose proof (To4_length _ _ Hd) as Hdl.
  set (ip' := IPv4_set_Length (uint16 (20 + len b)) (IPv4_set_IHL 5 ip)).
  destruct (IPv4_checksum_verifies ip' src dst Hsl Hdl) as [Hr Hv].
  exists (IPv4_checksum (IPv4_header (IPv4_set_Checksum 0 ip') src dst)).
  cbv zeta. fold ip'.
  split; [|split; [|split]].
  - unfold IPv4_SerializeTo_opts.
    cbn [FixLengths ComputeChecksums]. fold ip'.
    change (IPv4_SrcIP ip') with (IPv4_SrcIP ip).
    change (IPv4_DstIP ip') with (IPv4_DstIP ip).
    rewrite Hs, Hd. reflexivity.
  - apply IPv4_header_length; assumption.
  - exact Hv.
  - unfold IPv4_DecodeFromBytes.
    assert (Hlen : (length (IPv4_header (IPv4_set_Checksum
              (IPv4_checksum (IPv4_header (IPv4_set_Checksum 0 ip') src dst)) ip')
              src dst ++ b) <? 20)%nat = false).
    { apply Nat.ltb_ge. rewrite length_app, IPv4_header_length by assumption. lia. }
    rewrite Hlen. cbn [IPv4_Length].
    unfold IPv4_header. cbn [app nth].
    change (IPv4_Length (IPv4_set_Checksum ?c ip')) with (uint16 (20 + len b)).
    unfold Uint16, PutUint16. cbn [app nth]. rewrite !byte_val_of_Z.
    apply uint16_word. apply uint16_range.
Qed.


(** What [layers.TCP.SerializeTo] writes in fix-up mode. *)
Lemma TCP_SerializeTo_fixup (t : TCP) (ip : IPv4) (b : list byte) :
  TCP_pseudoheader t = Some (NL_IPv4 ip) ->
  is_Some (To4 (IPv4_SrcIP ip)) -> is_Some (To4 (IPv4_DstIP ip)) ->
  20 + len b <= 0xffff ->
  exists csum,
    0 <= csum <= 0xffff
    /\ TCP_SerializeTo_opts IPv6_pseudoheaderChecksum fix_opts t b
       = Some (TCP_header (TCP_set_DataOffset 5 t) csum ++ b)
    /\ tcp_checksum_verifies (IPv4_SrcIP ip) (IPv4_DstIP ip)
         (TCP_header (TCP_set_DataOffset 5 t) csum ++ b) = true.
Proof.
  intros Hbound [src Hs] [dst Hd] Hlen.
  set (t' := TCP_set_DataOffset 5 t).
  assert (Hph : exists ph, IPv4_pseudoheaderChecksum ip = Some ph).
  { unfold IPv4_pseudoheaderChecksum. rewrite Hs, Hd. eauto. }
  destruct Hph as [ph Hph].
  assert (Hsl : len (TCP_header t' 0 ++ b) = 20 + len b).
  { unfold len. rewrite length_app, TCP_header_length. lia. }
  assert (Hb0 : 0 <= len b) by (unfold len; lia).
  destruct (sum16_pseudo_header_of IPProtocolTCP ip (20 + len b) ph
              (TCP_header t' 0 ++ b)) as [Hsum Hrange];
    [unfold IPProtocolTCP; lia|lia|exact Hph|].
  set (c0 := uint32 (uint32 (uint32 (ph + IPProtocolTCP)
                            + Z.land (uint32 (20 + len b)) 0xffff)
                    + Z.shiftr (uint32 (20 + len b)) 16)) in *.
  pose proof (sum16_bound (TCP_header t' 0 ++ b)) as Hsb. rewrite Hsl in Hsb.
  destruct (checksum_verifies (c0 + sum16 (TCP_header t' 0 ++ b))) as [Hr Hv].
  { change (2 ^ 32) with 4294967296. change (2 ^ 16) with 65536. lia. }
  exists (tcpipChecksum (TCP_header t' 0 ++ b) c0).
  split; [exact Hr|]. split.
  - unfold TCP_SerializeTo_opts.
    cbn [FixLengths ComputeChecksums]. fold t'.
    change (TCP_pseudoheader t') with (TCP_pseudoheader t). rewrite Hbound.
    unfold computeChecksum. rewrite Hph, Hsl. reflexivity.
  - unfold tcp_checksum_verifies. apply Z.eqb_eq.
    change (pseudo_header (IPv4_SrcIP ip) (IPv4_DstIP ip))
      with (pseudo_header_of IPProtocolTCP (IPv4_SrcIP ip) (IPv4_DstIP ip)).
    assert (Hl2 : len (TCP_header t' (tcpipChecksum (TCP_header t' 0 ++ b) c0) ++ b)
                  = 20 + len b).
    { unfold len. rewrite length_app, TCP_header_length. lia. }
    rewrite Hl2.
    destruct (sum16_pseudo_header_of IPProtocolTCP ip (20 + len b) ph
                (TCP_header t' (tcpipChecksum (TCP_header t' 0 ++ b) c0) ++ b))
      as [Hsum' _]; [unfold IPProtocolTCP; lia|lia|exact Hph|].
    rewrite Hsum'. fold c0.
    rewrite sum16_TCP_header, uint16_word by exact Hr.
    rewrite Z.add_assoc. exact Hv.
Qed.


(** X9. In fix-up mode a UDP layer bound to an IPv4 header whose
    addresses have a four-byte form is written with the length 8 plus
    the length of the bytes behind it and a checksum with which the
    one's-complement sum over the IPv4 pseudo-header and the datagram is
    all ones, as long as the datagram fits the 16 bits of the length
    field. *)
Theorem Serialize_UDP (u : UDP) (ip : IPv4) (rest : list Layer) (b : list byte) :
  UDP_pseudoheader u = Some (NL_IPv4 ip) ->
  is_Some (To4 (IPv4_SrcIP ip)) -> is_Some (To4 (IPv4_DstIP ip)) ->
  fixup rest = Some b ->
  8 + len b <= 0xffff ->
  exists csum,
    0 <= csum <= 0xffff
    /\ fixup (L_UDP u :: rest) = Some (UDP_header u (8 + len b) csum ++ b)
    /\ l4_checksum_verifies IPProtocolUDP (IPv4_SrcIP ip) (IPv4_DstIP ip)
         (UDP_header u (8 + len b) csum ++ b) = true.
Proof.
  intros Hbound [src Hs] [dst Hd] Hrest Hlen.
  assert (Hph : exists ph, IPv4_pseudoheaderChecksum ip = Some ph).
  { unfold IPv4_pseudoheaderChecksum. rewrite Hs, Hd. eauto. }
  destruct Hph as [ph Hph].
  assert (Hb0 : 0 <= len b) by (unfold len; lia).
  assert (Hfix : uint16 (uint16 (len b) + 8) = 8 + len b).
  { unfold uint16. change (2 ^ 16) with 65536.
    rewrite (Z.mod_small (len b)) by lia. rewrite Z.mod_small by lia. lia. }
  set (n := 8 + len b) in *.
  assert (Hsl : forall c, len (UDP_header u n c ++ b) = n).
  { intros c. unfold len. rewrite length_app, UDP_header_length.
    unfold n, len. lia. }
  destruct (sum16_pseudo_header_of IPProtocolUDP ip n ph
              (UDP_header u n 0 ++ b)) as [Hsum Hrange];
    [unfold IPProtocolUDP; lia|lia|exact Hph|].
  set (c0 := uint32 (uint32 (uint32 (ph + IPProtocolUDP)
                            + Z.land (uint32 n) 0xffff)
                    + Z.shiftr (uint32 n) 16)) in *.
  pose proof (sum16_bound (UDP_header u n 0 ++ b)) as Hsb. rewrite Hsl in Hsb.
  destruct (checksum_verifies (c0 + sum16 (UDP_header u n 0 ++ b))) as [Hr Hv].
  { change (2 ^ 32) with 4294967296. change (2 ^ 16) with 65536. lia. }
  exists (tcpipChecksum (UDP_header u n 0 ++ b) c0).
  split; [exact Hr|]. split.
  - rewrite (Serialize_cons _ _ _ Hrest).
    cbn [SerializeTo_opts]. unfold UDP_SerializeTo_opts.
    cbn [FixLengths ComputeChecksums]. rewrite Hbound, Hfix.
    unfold computeChecksum. rewrite Hph, Hsl. reflexivity.
  - unfold l4_checksum_verifies. apply Z.eqb_eq. rewrite Hsl.
    destruct (sum16_pseudo_header_of IPProtocolUDP ip n ph
                (UDP_header u n (tcpipChecksum (UDP_header u n 0 ++ b) c0) ++ b))
      as [Hsum' _]; [unfold IPProtocolUDP; lia|lia|exact Hph|].
    rewrite Hsum'. fold c0.
    rewrite sum16_UDP_header, uint16_word by exact Hr.
    rewrite Z.add_assoc. exact Hv.
Qed.

Lemma Serialize_In_None (l : Layer) (layers : list Layer) :
  In l layers -> (forall b, serializeTo fix_opts l b = None) ->
  fixup layers = None.
Proof.
  intros Hin Hl. induction layers as [|x rest IH]; [destruct Hin|].
  destruct (fixup rest) as [b|] eqn:Hrest.
  - destruct Hin as [->|Hin].
    + rewrite (Serialize_cons _ _ _ Hrest). apply Hl.
    + specialize (IH Hin). discriminate.
  - apply Serialize_cons_None. exact Hrest.
Qed.

Lemma Serialize_unbound_TCP (t : TCP) (layers : list Layer) :
  In (L_TCP t) layers -> TCP_pseudoheader t = None -> fixup layers = None.
Proof.
  intros Hin Hnone. apply (Serialize_In_None _ _ Hin). intros b.
  cbn [SerializeTo_opts]. unfold TCP_SerializeTo_opts.
  cbn [FixLengths ComputeChecksums].
  change (TCP_pseudoheader (TCP_set_DataOffset 5 t)) with (TCP_pseudoheader t).
  rewrite Hnone. reflexivity.
Qed.

(** X10. [Serialize] refuses every list of layers that holds a TCP or
    UDP layer which was not bound to a network layer, wherever the layer
    stands and whatever the other layers are. *)
Theorem Serialize_unbound (layers : list Layer) :
  (exists t, In (L_TCP t) layers /\ TCP_pseudoheader t = None)
  \/ (exists u, In (L_UDP u) layers /\ UDP_pseudoheader u = None) ->
  fixup layers = None.
Proof.
  intros [(t & Hin & Hnone)|(u & Hin & Hnone)].
  - exact (Serialize_unbound_TCP t layers Hin Hnone).
  - apply (Serialize_In_None _ _ Hin). intros b.
    cbn [SerializeTo_opts]. unfold UDP_SerializeTo_opts.
    cbn [FixLengths ComputeChecksums]. rewrite Hnone. reflexivity.
Qed.

(** What [layers.Ethernet.SerializeTo] writes for a frame with an
    EtherType, in either mode. *)
Lemma Ethernet_SerializeTo_frame (opts : SerializeOptions) (e : Ethernet)
    (b : list byte) :
  length (Ethernet_DstMAC e) = 6%nat -> length (Ethernet_SrcMAC e) = 6%nat ->
  Ethernet_Length e = 0 -> Ethernet_EthernetType e <> EthernetTypeLLC ->
  Ethernet_SerializeTo_opts opts e b
  = Some (Ethernet_DstMAC e ++ Ethernet_SrcMAC e
          ++ PutUint16 (Ethernet_EthernetType e) ++ b
          ++ repeat Byte.x00 (46 - length b)).
Proof.
  intros Hd Hs Hl Ht. unfold Ethernet_SerializeTo_opts.
  rewrite Hd, Hs, Hl. cbn [Nat.eqb negb Z.eqb orb].
  destruct (Z.eqb_spec (Ethernet_EthernetType e) EthernetTypeLLC) as [E|_];
    [contradiction|].
  cbv zeta. f_equal. rewrite <- !app_assoc. do 3 f_equal.
  rewrite !length_app, Hd, Hs. cbn [length PutUint16].
  replace (60 - (6 + (6 + (2 + length b))))%nat with (46 - length b)%nat by lia.
  reflexivity.
Qed.

Lemma Ethernet_SerializeTo_bad_MAC (opts : SerializeOptions) (e : Ethernet)
    (b : list byte) :
  length (Ethernet_DstMAC e) <> 6%nat \/ length (Ethernet_SrcMAC e) <> 6%nat ->
  Ethernet_SerializeTo_opts opts e b = None.
Proof.
  intros H. unfold Ethernet_SerializeTo_opts.
  destruct (Nat.eqb_spec (length (Ethernet_DstMAC e)) 6) as [Ed|Ed];
    [|reflexivity].
  destruct (Nat.eqb_spec (length (Ethernet_SrcMAC e)) 6) as [Es|Es];
    [|reflexivity].
  destruct H; contradiction.
Qed.

(** X11. [CreateEthernetLayer] fails for no IPv4 or IPv6 network layer.
    With hardware addresses of six bytes, [Serialize] and [SerializeRaw]
    both write its layer as destination, source and the EtherType of the
    network layer's family (0x0800 or 0x86DD) in front of the packet,
    and zero bytes behind a packet shorter than 46 bytes, so that no
    frame is shorter than 60 bytes; with a hardware address of another
    length both fail. *)
Theorem CreateEthernetLayer_frame (srcMAC dstMAC : list byte)
    (networkLayer : NetworkLayer) (data : list byte) :
  exists e,
    CreateEthernetLayer srcMAC dstMAC networkLayer = inr e
    /\ let etherType := match networkLayer with
                        | NL_IPv4 _ => 0x0800
                        | NL_IPv6 _ => 0x86DD
                        end in
       let frame := dstMAC ++ srcMAC ++ PutUint16 etherType ++ data
                    ++ repeat Byte.x00 (46 - length data) in
       (length srcMAC = 6%nat /\ length dstMAC = 6%nat ->
        fixup [L_Ethernet e; L_Payload data] = Some frame
        /\ raw [L_Ethernet e; L_Payload data] = Some frame
        /\ (60 <= length frame)%nat
        /\ length frame = Nat.max 60 (14 + length data))
       /\ (length srcMAC <> 6%nat \/ length dstMAC <> 6%nat ->
           fixup [L_Ethernet e; L_Payload data] = None
           /\ raw [L_Ethernet e; L_Payload data] = None).
Proof.
  unfold CreateEthernetLayer.
  destruct networkLayer as [ip|ip]; cbn [NetworkLayer_LayerType];
    eexists; (split; [reflexivity|]); cbv zeta; split.
  - intros [Hs Hd].
    rewrite (Serialize_cons _ _ _ (Serialize_Payload data)).
    rewrite (SerializeRaw_cons _ _ _ (SerializeRaw_Payload data)).
    cbn [SerializeTo_opts].
    rewrite !Ethernet_SerializeTo_frame by (assumption || reflexivity || discriminate).
    cbn [Ethernet_DstMAC Ethernet_SrcMAC Ethernet_EthernetType].
    repeat split; rewrite !length_app, Hs, Hd, repeat_length; cbn [length PutUint16]; lia.
  - intros H.
    rewrite (Serialize_cons _ _ _ (Serialize_Payload data)).
    rewrite (SerializeRaw_cons _ _ _ (SerializeRaw_Payload data)).
    cbn [SerializeTo_opts].
    rewrite !Ethernet_SerializeTo_bad_MAC by (cbn; tauto). split; reflexivity.
  - intros [Hs Hd].
    rewrite (Serialize_cons _ _ _ (Serialize_Payload data)).
    rewrite (SerializeRaw_cons _ _ _ (SerializeRaw_Payload data)).
    cbn [SerializeTo_opts].
    rewrite !Ethernet_SerializeTo_frame by (assumption || reflexivity || discriminate).
    cbn [Ethernet_DstMAC Ethernet_SrcMAC Ethernet_EthernetType].
    repeat split; rewrite !length_app, Hs, Hd, repeat_length; cbn [length PutUint16]; lia.
  - intros H.
    rewrite (Serialize_cons _ _ _ (Serialize_Payload data)).
    rewrite (SerializeRaw_cons _ _ _ (SerializeRaw_Payload data)).
    cbn [SerializeTo_opts].
    rewrite !Ethernet_SerializeTo_bad_MAC by (cbn; tauto). split; reflexivity.
Qed.

End Serializer.

(** ** [CreateLayers] *)

Lemma CreateLayers_IPv4 (srcPort dstPort seq ack : Z) (conn : RawConn)
    (dstIP : IP) (id hop : Z) (dstHardwareAddr : list byte) (src4 dst4 : IP) :
  To4 (RawConn_LocalDev_IPv4Addr_IP conn) = Some src4 ->
  To4 dstIP = Some dst4 ->
  let ip := {| IPv4_Contents := []; IPv4_Payload := [];
               IPv4_Version := 4; IPv4_IHL := 5; IPv4_TOS := 0;
               IPv4_Length := 0; IPv4_Id := id;
               IPv4_Flags := IPv4DontFragment; IPv4_FragOffset := 0;
               IPv4_TTL := uint8 (hop - 1); IPv4_Protocol := IPProtocolTCP;
               IPv4_Checksum := 0;
               IPv4_SrcIP := RawConn_LocalDev_IPv4Addr_IP conn;
               IPv4_DstIP := dstIP |} in
  CreateLayers srcPort dstPort seq ack conn dstIP id hop dstHardwareAddr
  = inr (TL_TCP (TCP_set_pseudoheader (NL_IPv4 ip)
                   (CreateTCPLayer srcPort dstPort seq ack)),
         NL_IPv4 ip,
         if RawConn_IsLoop conn then LL_Loopback CreateLoopbackLayer
         else LL_Ethernet
                {| Ethernet_SrcMAC := RawConn_LocalDev_HardwareAddr conn;
                   Ethernet_DstMAC := dstHardwareAddr;
                   Ethernet_EthernetType := EthernetTypeIPv4;
                   Ethernet_Length := 0 |}).
Proof.
  intros Hs Hd. cbv zeta. unfold CreateLayers, CreateIPv4Layer.
  rewrite Hd, Hs. cbn [IPv4_set_Protocol IPv4_Contents IPv4_Payload IPv4_Version
    IPv4_IHL IPv4_TOS IPv4_Length IPv4_Id IPv4_Flags IPv4_FragOffset IPv4_TTL
    IPv4_Checksum IPv4_SrcIP IPv4_DstIP].
  destruct (RawConn_IsLoop conn); reflexivity.
Qed.

Lemma CreateLayers_IPv6 (srcPort dstPort seq ack : Z) (conn : RawConn)
    (dstIP : IP) (id hop : Z) (dstHardwareAddr : list byte) :
  To4 (RawConn_LocalDev_IPv6Addr_IP conn) = None ->
  To4 dstIP = None ->
  let ip := {| IPv6_Contents := []; IPv6_Payload := [];
               IPv6_Version := 6; IPv6_Length := 0;
               IPv6_NextHeader := IPProtocolTCP;
               IPv6_HopLimit := uint8 (hop - 1);
               IPv6_SrcIP := RawConn_LocalDev_IPv6Addr_IP conn;
               IPv6_DstIP := dstIP |} in
  CreateLayers srcPort dstPort seq ack conn dstIP id hop dstHardwareAddr
  = inr (TL_TCP (CreateTCPLayer srcPort dstPort seq ack),
         NL_IPv6 ip,
         if RawConn_IsLoop conn then LL_Loopback CreateLoopbackLayer
         else LL_Ethernet
                {| Ethernet_SrcMAC := RawConn_LocalDev_HardwareAddr conn;
                   Ethernet_DstMAC := dstHardwareAddr;
                   Ethernet_EthernetType := EthernetTypeIPv6;
                   Ethernet_Length := 0 |}).
Proof.
  intros Hs Hd. cbv zeta. unfold CreateLayers, CreateIPv6Layer.
  rewrite Hd, Hs. cbn [IPv6_set_NextHeader IPv6_Contents IPv6_Payload IPv6_Version
    IPv6_Length IPv6_HopLimit IPv6_SrcIP IPv6_DstIP].
  destruct (RawConn_IsLoop conn); reflexivity.
Qed.

(** X12. [CreateLayers] picks the family of the destination: with an
    IPv4 destination it needs the device's IPv4 address to have a
    four-byte form, with any other destination the device's IPv6 address
    to have none, and it fails with the error of the source address
    otherwise, and in no other case.  The TTL or hop limit is [hop - 1]
    modulo 256, so 255 for a hop of 0.  The segment is bound to the
    header for IPv4 only.  The link layer is a loopback layer on a
    loopback device and otherwise an Ethernet layer from the device's
    hardware address to the given one with the family's EtherType. *)
Theorem CreateLayers_spec (srcPort dstPort seq ack : Z) (conn : RawConn)
    (dstIP : IP) (id hop : Z) (dstHardwareAddr : list byte) :
  let local := if bool_decide (is_Some (To4 dstIP))
               then RawConn_LocalDev_IPv4Addr_IP conn
               else RawConn_LocalDev_IPv6Addr_IP conn in
  match CreateLayers srcPort dstPort seq ack conn dstIP id hop dstHardwareAddr with
  | inl e =>
    e = CreateNetworkLayerError InvalidSourceIP
    /\ (is_Some (To4 dstIP) <-> To4 local = None)
  | inr (transportLayer, networkLayer, linkLayer) =>
    (is_Some (To4 dstIP) <-> is_Some (To4 local))
    /\ (exists t,
          transportLayer = TL_TCP t
          /\ TCP_header t 0 = TCP_header (CreateTCPLayer srcPort dstPort seq ack) 0
          /\ TCP_pseudoheader t
             = match networkLayer with
               | NL_IPv4 _ => Some networkLayer
               | NL_IPv6 _ => None
               end)
    /\ match networkLayer with
       | NL_IPv4 ip =>
         is_Some (To4 dstIP)
         /\ IPv4_SrcIP ip = local /\ IPv4_DstIP ip = dstIP
         /\ IPv4_TTL ip = (hop - 1) mod 256 /\ IPv4_Id ip = id
         /\ IPv4_Protocol ip = IPProtocolTCP
         /\ IPv4_Flags ip = IPv4DontFragment
       | NL_IPv6 ip =>
         To4 dstIP = None
         /\ IPv6_SrcIP ip = local /\ IPv6_DstIP ip = dstIP
         /\ IPv6_HopLimit ip = (hop - 1) mod 256
         /\ IPv6_NextHeader ip = IPProtocolTCP
       end
    /\ match linkLayer with
       | LL_Loopback l => RawConn_IsLoop conn = true /\ Loopback_Family l = 0
       | LL_Ethernet e =>
         RawConn_IsLoop conn = false
         /\ Ethernet_SrcMAC e = RawConn_LocalDev_HardwareAddr conn
         /\ Ethernet_DstMAC e = dstHardwareAddr
         /\ Ethernet_EthernetType e
            = match networkLayer with
              | NL_IPv4 _ => 0x0800
              | NL_IPv6 _ => 0x86DD
              end
       end
  end.
Proof.
  cbv zeta.
  destruct (To4 dstIP) as [dst4|] eqn:Hd.
  - rewrite bool_decide_eq_true_2 by eauto.
    destruct (To4 (RawConn_LocalDev_IPv4Addr_IP conn)) as [src4|] eqn:Hs.
    + rewrite (CreateLayers_IPv4 _ _ _ _ _ _ _ _ _ src4 dst4 Hs Hd).
      split; [split; eauto|]. split; [eexists; repeat split|].
      split; [repeat split; eauto|].
      destruct (RawConn_IsLoop conn); repeat split.
    + unfold CreateLayers, CreateIPv4Layer. rewrite Hd, Hs.
      split; [reflexivity|]. split; eauto.
  - rewrite bool_decide_eq_false_2 by (intros [x Hx]; discriminate).
    destruct (To4 (RawConn_LocalDev_IPv6Addr_IP conn)) as [src4|] eqn:Hs.
    + unfold CreateLayers, CreateIPv6Layer. rewrite Hd, Hs.
      split; [reflexivity|]. split; [intros [x Hx]|]; discriminate.
    + rewrite (CreateLayers_IPv6 _ _ _ _ _ _ _ _ _ Hs Hd).
      split; [split; intros [x Hx]; discriminate|].
      split; [eexists; repeat split|].
      split; [repeat split|].
      destruct (RawConn_IsLoop conn); repeat split.
Qed.

Section LayersOnTheWire.

Variable IPv6_pseudoheaderChecksum : IPv6 -> option Z.
Variable IPv6_SerializeTo_opts :
  SerializeOptions -> IPv6 -> list byte -> option (list byte).

Local Abbreviation fixup :=
  (Serialize IPv6_pseudoheaderChecksum IPv6_SerializeTo_opts).
Local Abbreviation fix_opts := {| FixLengths := true; ComputeChecksums := true |}.

(** X13. The layers [CreateLayers] returns for an IPv4 destination,
    followed by a payload of at most 65495 bytes, are written by
    [Serialize] as link header, IPv4 header, TCP header and payload,
    padded to 60 bytes on Ethernet.  The IPv4 header has the total
    length 40 plus the payload length, the given id, DF, the TTL
    [hop - 1] and protocol 6, and its checksum verifies; the TCP header
    is that of [CreateTCPLayer] with a checksum that verifies against
    the pseudo-header of the two addresses.  On a device that is not
    loopback both hardware addresses must be six bytes long. *)
Theorem CreateLayers_Serialize (srcPort dstPort seq ack : Z) (conn : RawConn)
    (dstIP : IP) (id hop : Z) (dstHardwareAddr : list byte)
    (payload : list byte) (src4 dst4 : IP) :
  To4 (RawConn_LocalDev_IPv4Addr_IP conn) = Some src4 ->
  To4 dstIP = Some dst4 ->
  40 + len payload <= 0xffff ->
  (RawConn_IsLoop conn = false ->
   length (RawConn_LocalDev_HardwareAddr conn) = 6%nat
   /\ length dstHardwareAddr = 6%nat) ->
  exists t ip linkLayer ipCsum tcpCsum,
    CreateLayers srcPort dstPort seq ack conn dstIP id hop dstHardwareAddr
    = inr (TL_TCP t, NL_IPv4 ip, linkLayer)
    /\ let ipHeader :=
         IPv4_header
           {| IPv4_Contents := []; IPv4_Payload := [];
              IPv4_Version := 4; IPv4_IHL := 5; IPv4_TOS := 0;
              IPv4_Length := 40 + len payload; IPv4_Id := id;
              IPv4_Flags := IPv4DontFragment; IPv4_FragOffset := 0;
              IPv4_TTL := uint8 (hop - 1); IPv4_Protocol := IPProtocolTCP;
              IPv4_Checksum := ipCsum;
              IPv4_SrcIP := RawConn_LocalDev_IPv4Addr_IP conn;
              IPv4_DstIP := dstIP |} src4 dst4 in
       let segment :=
         TCP_header (CreateTCPLayer srcPort dstPort seq ack) tcpCsum ++ payload in
       fixup [LinkLayer_Layer linkLayer; L_IPv4 ip; L_TCP t; L_Payload payload]
       = Some (LinkLayer_header linkLayer ++ ipHeader ++ segment
               ++ (if RawConn_IsLoop conn then []
                   else repeat Byte.x00 (6 - length payload)))
       /\ ipv4_checksum_verifies ipHeader = true
       /\ tcp_checksum_verifies (RawConn_LocalDev_IPv4Addr_IP conn) dstIP segment
          = true.
Proof.
  intros Hs Hd Hlen Hmac.
  pose proof (CreateLayers_IPv4 srcPort dstPort seq ack conn dstIP id hop
                dstHardwareAddr src4 dst4 Hs Hd) as Hcreate.
  cbv zeta in Hcreate.
  set (ip := {| IPv4_Contents := []; IPv4_Payload := [];
                IPv4_Version := 4; IPv4_IHL := 5; IPv4_TOS := 0;
                IPv4_Length := 0; IPv4_Id := id;
                IPv4_Flags := IPv4DontFragment; IPv4_FragOffset := 0;
                IPv4_TTL := uint8 (hop - 1); IPv4_Protocol := IPProtocolTCP;
                IPv4_Checksum := 0;
                IPv4_SrcIP := RawConn_LocalDev_IPv4Addr_IP conn;
                IPv4_DstIP := dstIP |}) in *.
  set (t := TCP_set_pseudoheader (NL_IPv4 ip)
              (CreateTCPLayer srcPort dstPort seq ack)) in *.
  assert (Hp0 : 0 <= len payload) by (unfold len; lia).
  destruct (TCP_SerializeTo_fixup IPv6_pseudoheaderChecksum t ip payload)
    as (tcpCsum & Htr & Htcp & Htv);
    [reflexivity|cbn; rewrite Hs; eauto|cbn; rewrite Hd; eauto|lia|].
  change (TCP_header (TCP_set_DataOffset 5 t) tcpCsum)
    with (TCP_header (CreateTCPLayer srcPort dstPort seq ack) tcpCsum) in *.
  set (segment := TCP_header (CreateTCPLayer srcPort dstPort seq ack) tcpCsum
                  ++ payload) in *.
  assert (Hseg : len segment = 20 + len payload).
  { unfold segment, len. rewrite length_app, TCP_header_length. lia. }
  destruct (IPv4_SerializeTo_fixup ip segment src4 dst4 Hs Hd)
    as (ipCsum & Hip & Hil & Hiv & _).
  assert (Hu : uint16 (20 + len segment) = 40 + len payload).
  { rewrite Hseg. unfold uint16. change (2 ^ 16) with 65536.
    rewrite Z.mod_small by lia. lia. }
  rewrite Hu in Hip, Hil, Hiv.
  eexists t, ip, _, ipCsum, tcpCsum. split; [exact Hcreate|].
  cbv zeta. fold segment.
  split; [|split; [exact Hiv|exact Htv]].
  assert (Hinner : fixup [L_IPv4 ip; L_TCP t; L_Payload payload]
                   = Some (IPv4_header
                             (IPv4_set_Checksum ipCsum
                                (IPv4_set_Length (40 + len payload)
                                   (IPv4_set_IHL 5 ip))) src4 dst4 ++ segment)).
  { rewrite (Serialize_cons _ _ (L_IPv4 ip) [L_TCP t; L_Payload payload] segment).
    - exact Hip.
    - rewrite (Serialize_cons _ _ _ _ _ (Serialize_Payload _ _ payload)).
      exact Htcp. }
  rewrite (Serialize_cons _ _ _ _ _ Hinner).
  destruct (RawConn_IsLoop conn) eqn:Hloop.
  - cbn [LinkLayer_Layer SerializeTo_opts LinkLayer_header].
    unfold Loopback_SerializeTo. rewrite app_nil_r. reflexivity.
  - destruct (Hmac eq_refl) as [Hsm Hdm].
    cbn [LinkLayer_Layer SerializeTo_opts LinkLayer_header].
    rewrite Ethernet_SerializeTo_frame by (assumption || discriminate || reflexivity).
    cbn [Ethernet_DstMAC Ethernet_SrcMAC Ethernet_EthernetType].
    rewrite <- !app_assoc. do 5 f_equal.
    rewrite !length_app, Hil. unfold segment.
    rewrite length_app, TCP_header_length.
    replace (46 - (20 + (20 + length payload)))%nat with (6 - length payload)%nat by lia.
    reflexivity.
Qed.

(** X14. For a destination without IPv4 form [CreateLayers] returns a
    TCP layer that is bound to no network layer, [CreateIPv6Layer]
    binding none: [Serialize] refuses every list of layers that holds
    it. *)
Theorem CreateLayers_IPv6_Serialize (srcPort dstPort seq ack : Z) (conn : RawConn)
    (dstIP : IP) (id hop : Z) (dstHardwareAddr : list byte)
    (transportLayer : TransportLayer) (networkLayer : NetworkLayer)
    (linkLayer : LinkLayer) :
  To4 dstIP = None ->
  CreateLayers srcPort dstPort seq ack conn dstIP id hop dstHardwareAddr
  = inr (transportLayer, networkLayer, linkLayer) ->
  exists t ip,
    transportLayer = TL_TCP t /\ networkLayer = NL_IPv6 ip
    /\ forall layers, In (L_TCP t) layers -> fixup layers = None.
Proof.
  intros Hd Hcreate.
  destruct (To4 (RawConn_LocalDev_IPv6Addr_IP conn)) as [src4|] eqn:Hs.
  - unfold CreateLayers, CreateIPv6Layer in Hcreate. rewrite Hd, Hs in Hcreate.
    discriminate.
  - rewrite (CreateLayers_IPv6 _ _ _ _ _ _ _ _ _ Hs Hd) in Hcreate.
    injection Hcreate as <- <- <-.
    eexists _, _. split; [reflexivity|]. split; [reflexivity|].
    intros layers Hin.
    exact (Serialize_unbound_TCP _ _ _ layers Hin eq_refl).
Qed.

End LayersOnTheWire.

(** ** The two pipelines together *)

Lemma Device_IPv4_To4 (d : Device) :
  is_nil (IPNet_IP (Device_IPv4 d)) = false ->
  is_Some (To4 (IPNet_IP (Device_IPv4 d))).
Proof.
  unfold Device_IPv4.
  destruct (List.find _ (Device_IPAddrs d)) as [a|] eqn:Hfind.
  - intros _. apply find_some in Hfind. destruct Hfind as [_ Hdec].
    apply bool_decide_eq_true in Hdec. exact Hdec.
  - discriminate.
Qed.

Lemma Uint16_of_Z (v : Z) :
  Uint16 (byte_of_Z (Z.shiftr v 8)) (byte_of_Z v) = v mod 2 ^ 16.
Proof.
  unfold Uint16. rewrite !byte_val_of_Z.
  rewrite Z.shiftr_div_pow2 by lia. change (2 ^ 8) with 256.
  change (2 ^ 16) with 65536. Z.div_mod_to_equations. lia.
Qed.

Section Tunnel.

Variable IP_String : IP -> string.
Variable checkSum : list byte -> Z.
Variable CheckTCPIPv4Sum : TCP -> list byte -> IPv4 -> Z.
Variable NewPacket_IPv4_TransportLayer : list byte -> option TransportLayer.

Local Abbreviation outbound := (handleListen IP_String checkSum CheckTCPIPv4Sum).
Local Abbreviation inbound := (handle IP_String NewPacket_IPv4_TransportLayer).
Local Abbreviation frame := (carrier_frame checkSum CheckTCPIPv4Sum).
Local Abbreviation run' :=
  (run IP_String checkSum CheckTCPIPv4Sum NewPacket_IPv4_TransportLayer).
Local Abbreviation step' :=
  (step IP_String checkSum CheckTCPIPv4Sum NewPacket_IPv4_TransportLayer).

(** Every way through [handleListen]. *)
Lemma handleListen_cases (p : Pcap) (packet : Packet) (h : Handle) :
  let advanced := set_seq (uint32 (Pcap_seq p + 1)) p in
  (pkt_network packet = None
   /\ outbound p packet h = (p, Drop MissingNetworkLayer))
  \/ (pkt_transport packet = None
      /\ outbound p packet h = (p, Drop MissingTransportLayer))
  \/ exists nl tl,
       pkt_network packet = Some nl /\ pkt_transport packet = Some tl
       /\ ((gatewayDevIP p = None /\ outbound p packet h = (advanced, Panic))
           \/ exists gw,
                gatewayDevIP p = Some gw
                /\ ((To4 gw = None
                     /\ is_nil (IPNet_IP (Device_IPv6 (Pcap_UpDev p))) = false
                     /\ outbound p packet h = (advanced, Drop IPv6NotSupport))
                    \/ (is_nil (IPNet_IP (if bool_decide (is_Some (To4 gw))
                                          then Device_IPv4 (Pcap_UpDev p)
                                          else Device_IPv6 (Pcap_UpDev p))) = true
                        /\ outbound p packet h
                           = (advanced, Drop IPVersionTransitionNotSupport))
                    \/ (is_Some (To4 gw)
                        /\ is_nil (IPNet_IP (Device_IPv4 (Pcap_UpDev p))) = false
                        /\ outbound p packet h
                           = (registered p (packet_quintuple IP_String nl tl) h,
                              match SerializeLayers
                                      [LinkLayer_serializable (upstream_link p);
                                       SIPv4 (carrier_IPv4 checkSum p
                                                (network_addrs nl).2
                                                (tunnel_payload packet nl tl));
                                       STCP (carrier_TCP CheckTCPIPv4Sum p
                                               (network_addrs nl).2
                                               (tunnel_payload packet nl tl));
                                       SPayload (tunnel_payload packet nl tl)] with
                              | Some data => Inject (Pcap_upHandle p) data
                              | None => Drop SerializeFailed
                              end)))).
Proof.
  cbv zeta.
  destruct (pkt_network packet) as [nl|] eqn:Hn;
    [|left; split; [reflexivity|unfold handleListen; rewrite Hn; reflexivity]].
  destruct (pkt_transport packet) as [tl|] eqn:Ht.
  2:{ right; left. split; [reflexivity|].
      unfold handleListen. rewrite Hn, Ht. destruct nl; reflexivity. }
  right; right. exists nl, tl. split; [reflexivity|]. split; [reflexivity|].
  destruct (gatewayDevIP p) as [gw|] eqn:Hg.
  2:{ left. split; [reflexivity|].
      unfold handleListen. rewrite Hn, Ht.
      replace (gatewayDevIP (set_seq (uint32 (Pcap_seq p + 1)) p))
        with (gatewayDevIP p) by reflexivity.
      rewrite Hg. destruct nl, tl; reflexivity. }
  right. exists gw. split; [reflexivity|].
  destruct (To4 gw) as [g4|] eqn:Hg4.
  - rewrite bool_decide_eq_true_2 by eauto.
    destruct (is_nil (IPNet_IP (Device_IPv4 (Pcap_UpDev p)))) eqn:Hup.
    + right; left. split; [reflexivity|].
      unfold handleListen. rewrite Hn, Ht.
      replace (gatewayDevIP (set_seq (uint32 (Pcap_seq p + 1)) p))
        with (gatewayDevIP p) by reflexivity.
      rewrite Hg, Hg4. cbn [Pcap_UpDev set_seq]. rewrite Hup.
      destruct nl, tl; reflexivity.
    + right; right. split; [eauto|]. split; [reflexivity|].
      apply (handleListen_registered IP_String checkSum CheckTCPIPv4Sum
               p packet h nl tl gw Hn Ht Hg); [eauto|exact Hup].
  - rewrite bool_decide_eq_false_2 by (intros [x Hx]; discriminate).
    destruct (is_nil (IPNet_IP (Device_IPv6 (Pcap_UpDev p)))) eqn:Hup.
    + right; left. split; [reflexivity|].
      unfold handleListen. rewrite Hn, Ht.
      replace (gatewayDevIP (set_seq (uint32 (Pcap_seq p + 1)) p))
        with (gatewayDevIP p) by reflexivity.
      rewrite Hg, Hg4. cbn [Pcap_UpDev set_seq]. rewrite Hup.
      destruct nl, tl; reflexivity.
    + left. split; [reflexivity|]. split; [reflexivity|].
      unfold handleListen. rewrite Hn, Ht.
      replace (gatewayDevIP (set_seq (uint32 (Pcap_seq p + 1)) p))
        with (gatewayDevIP p) by reflexivity.
      rewrite Hg, Hg4. cbn [Pcap_UpDev set_seq]. rewrite Hup.
      destruct nl, tl; reflexivity.
Qed.

Lemma link_serializable_dec (p : Pcap) :
  link_serializable p \/ ~ link_serializable p.
Proof.
  unfold link_serializable.
  destruct (Device_IsLoop (Pcap_UpDev p)); [left; left; reflexivity|].
  destruct (Nat.eq_dec (length (Device_HardwareAddr (Pcap_GatewayDev p))) 6%nat) as [Hg|Hg];
    [|right; intros [H|[H _]]; [discriminate|contradiction]].
  destruct (Nat.eq_dec (length (Device_HardwareAddr (Pcap_UpDev p))) 6%nat) as [Hu|Hu];
    [|right; intros [H|[_ H]]; [discriminate|contradiction]].
  left; right. split; assumption.
Qed.

(** The carrier frame is serialized exactly when the server address has
    an IPv4 form and the link layer serializes. *)
Lemma carrier_SerializeLayers (p : Pcap) (ttl : Z) (contents : list byte) :
  is_nil (IPNet_IP (Device_IPv4 (Pcap_UpDev p))) = false ->
  SerializeLayers [LinkLayer_serializable (upstream_link p);
                   SIPv4 (carrier_IPv4 checkSum p ttl contents);
                   STCP (carrier_TCP CheckTCPIPv4Sum p ttl contents);
                   SPayload contents] = None
  <-> (To4 (Pcap_ServerIP p) = None \/ ~ link_serializable p).
Proof.
  intros Hup. destruct (Device_IPv4_To4 _ Hup) as [src Hsrc].
  cbn [SerializeLayers fold_right]. cbn [SerializeTo TCP_SerializeTo].
  unfold IPv4_SerializeTo.
  change (IPv4_SrcIP (carrier_IPv4 checkSum p ttl contents))
    with (IPNet_IP (Device_IPv4 (Pcap_UpDev p))).
  change (IPv4_DstIP (carrier_IPv4 checkSum p ttl contents))
    with (Pcap_ServerIP p).
  rewrite Hsrc.
  destruct (To4 (Pcap_ServerIP p)) as [dst|] eqn:Hdst.
  - destruct (link_serializable_dec p) as [Hlink|Hlink].
    + rewrite (upstream_link_SerializeTo_ok p _ Hlink).
      split; [discriminate|]. intros [H|H]; [discriminate|contradiction].
    + split; [auto|]. intros _.
      destruct (SerializeTo _ _) as [d|] eqn:Hser; [|reflexivity].
      exfalso. apply Hlink. unfold link_serializable.
      revert Hser. unfold upstream_link.
      destruct (Device_IsLoop (Pcap_UpDev p)); [auto|].
      cbn [LinkLayer_serializable SerializeTo]. unfold Ethernet_SerializeTo.
      cbn [upstream_Ethernet Ethernet_DstMAC Ethernet_SrcMAC].
      destruct (Nat.eqb_spec (length (Device_HardwareAddr (Pcap_GatewayDev p))) 6%nat);
        [|discriminate].
      destruct (Nat.eqb_spec (length (Device_HardwareAddr (Pcap_UpDev p))) 6%nat);
        [|discriminate].
      auto.
  - split; [auto|reflexivity].
Qed.

(** X15. What a packet that [handleListen] drops leaves behind.  Without
    a network or a transport layer the state is untouched.  With both,
    the sequence number is used up even though nothing is sent: when the
    gateway's first address is IPv6, or the upstream device has no
    address of the gateway's family, only [seq] has advanced; when the
    frame cannot be serialized (the server address has no IPv4 form or a
    hardware address is not six bytes long), [seq] and [id] have
    advanced and the five-tuple is in the NAT table.  No other error is
    reported. *)
Theorem handleListen_drop (p : Pcap) (packet : Packet) (h : Handle) (e : Diag) :
  (outbound p packet h).2 = Drop e ->
  let p' := (outbound p packet h).1 in
  match e with
  | MissingNetworkLayer | MissingTransportLayer => p' = p
  | IPVersionTransitionNotSupport | IPv6NotSupport =>
    p' = set_seq (uint32 (Pcap_seq p + 1)) p
  | SerializeFailed =>
    exists nl tl,
      pkt_network packet = Some nl /\ pkt_transport packet = Some tl
      /\ p' = registered p (packet_quintuple IP_String nl tl) h
      /\ (To4 (Pcap_ServerIP p) = None \/ ~ link_serializable p)
  | _ => False
  end.
Proof.
  cbv zeta.
  destruct (handleListen_cases p packet h)
    as [[_ ->]|[[_ ->]|(nl & tl & Hn & Ht & [[_ ->]|(gw & Hg & Hcase)])]];
    cbn [fst snd].
  - intros [= <-]. reflexivity.
  - intros [= <-]. reflexivity.
  - discriminate.
  - destruct Hcase as [(_ & _ & ->)|[(_ & ->)|(Hg4 & Hup & ->)]]; cbn [fst snd].
    + intros [= <-]. reflexivity.
    + intros [= <-]. reflexivity.
    + destruct (SerializeLayers _) as [d|] eqn:Hser; [discriminate|].
      intros [= <-]. exists nl, tl. repeat split; try assumption.
      apply (carrier_SerializeLayers p (network_addrs nl).2
               (tunnel_payload packet nl tl) Hup). exact Hser.
Qed.

(** X16. A packet that passes the guards while the server address has
    no IPv4 form, or a hardware address of a device that is not
    loopback is not six bytes long, is not sent: the error of the
    serializer is reported, but by then the five-tuple is registered and
    both counters have advanced. *)
Theorem handleListen_serialization_fails (p : Pcap) (packet : Packet)
    (h : Handle) (nl : NetworkLayer) (tl : TransportLayer) (gw : IP) :
  pkt_network packet = Some nl ->
  pkt_transport packet = Some tl ->
  gatewayDevIP p = Some gw ->
  is_Some (To4 gw) ->
  is_nil (IPNet_IP (Device_IPv4 (Pcap_UpDev p))) = false ->
  To4 (Pcap_ServerIP p) = None \/ ~ link_serializable p ->
  outbound p packet h
  = (registered p (packet_quintuple IP_String nl tl) h, Drop SerializeFailed)
  /\ Pcap_nat (outbound p packet h).1 !! packet_quintuple IP_String nl tl = Some h
  /\ Pcap_seq (outbound p packet h).1 = (Pcap_seq p + 1) mod 2 ^ 32
  /\ Pcap_id (outbound p packet h).1 = (Pcap_id p + 1) mod 2 ^ 16.
Proof.
  intros Hn Ht Hg Hg4 Hup Hfail.
  rewrite (handleListen_registered IP_String checkSum CheckTCPIPv4Sum
             p packet h nl tl gw Hn Ht Hg Hg4 Hup).
  cbv zeta.
  apply (carrier_SerializeLayers p (network_addrs nl).2
           (tunnel_payload packet nl tl) Hup) in Hfail.
  rewrite Hfail. cbn [fst]. split; [reflexivity|].
  split; [|split; reflexivity].
  unfold registered. cbn [Pcap_nat set_nat]. apply lookup_insert_eq.
Qed.

(** X17. The IPv4 header of every frame the outbound pipeline sends,
    read back with gopacket's decoder: version 4, IHL 5, the TTL of the
    observed packet less one modulo 256 (255 for an observed TTL of 0
    and for every IPv6 packet, whose hop limit is not read), the id
    counter, DF without fragment offset, protocol 6, and the four-byte
    forms of the upstream device's IPv4 address and of the server
    address. *)
Theorem handleListen_carrier_IPv4 (p : Pcap) (packet : Packet) (h : Handle)
    (p' : Pcap) (h' : Handle) (data : list byte) :
  outbound p packet h = (p', Inject h' data) ->
  exists nl src dst,
    pkt_network packet = Some nl
    /\ To4 (IPNet_IP (Device_IPv4 (Pcap_UpDev p))) = Some src
    /\ To4 (Pcap_ServerIP p) = Some dst
    /\ let carrier := IPv4_DecodeFromBytes (skipn (length (link_header p)) data) in
       IPv4_Version carrier = 4 /\ IPv4_IHL carrier = 5
       /\ IPv4_TTL carrier
          = match nl with
            | NL_IPv4 l => (IPv4_TTL l - 1) mod 256
            | NL_IPv6 _ => 255
            end
       /\ IPv4_Id carrier = Pcap_id p mod 2 ^ 16
       /\ IPv4_Flags carrier = IPv4DontFragment /\ IPv4_FragOffset carrier = 0
       /\ IPv4_Protocol carrier = IPProtocolTCP
       /\ IPv4_SrcIP carrier = src /\ IPv4_DstIP carrier = dst.
Proof.
  intros H.
  destruct (handleListen_frame IP_String checkSum CheckTCPIPv4Sum
              p packet h p' h' data H)
    as (nl & tl & src & dst & Hn & Ht & Hsrc & Hdst & _ & _ & ->).
  exists nl, src, dst. repeat (split; [assumption|]).
  destruct (To4_Some_4 _ _ Hsrc) as (s0 & s1 & s2 & s3 & ->).
  destruct (To4_Some_4 _ _ Hdst) as (d0 & d1 & d2 & d3 & ->).
  unfold carrier_frame. cbv zeta. rewrite drop_app_length.
  set (ttl := (network_addrs nl).2).
  set (contents := tunnel_payload packet nl tl).
  unfold IPv4_header. rewrite <- !app_assoc.
  unfold PutUint16. cbn [app].
  unfold IPv4_DecodeFromBytes. cbn [length Nat.ltb Nat.leb].
  cbn [IPv4_Version IPv4_IHL IPv4_TTL IPv4_Id IPv4_Flags IPv4_FragOffset
       IPv4_Protocol IPv4_SrcIP IPv4_DstIP nth].
  rewrite !Uint16_of_Z. rewrite !byte_val_of_Z.
  change (IPv4_Version (carrier_IPv4 checkSum p ttl contents)) with 4.
  change (IPv4_IHL (carrier_IPv4 checkSum p ttl contents)) with 5.
  change (IPv4_TTL (carrier_IPv4 checkSum p ttl contents)) with (uint8 (ttl - 1)).
  change (IPv4_Id (carrier_IPv4 checkSum p ttl contents)) with (Pcap_id p).
  change (IPv4_Protocol (carrier_IPv4 checkSum p ttl contents)) with 6.
  change (IPv4_flagsfrags (carrier_IPv4 checkSum p ttl contents)) with 16384.
  repeat split.
  - unfold uint8. rewrite Z.mod_mod by (change (2 ^ 8) with 256; lia).
    unfold ttl. destruct nl; reflexivity.
Qed.

Lemma encapped_network_IPv4 (contents : list byte) (t : LayerType) (dstIP srcIP : IP) :
  encapped_network contents = inr (t, dstIP, srcIP) ->
  (20 <= length contents)%nat
  /\ ((first_nibble contents = 4 /\ t = LayerTypeIPv4)
      \/ (first_nibble contents = 6 /\ t = LayerTypeIPv6)).
Proof.
  intros H.
  destruct (Nat.lt_ge_cases (length contents) 20) as [Hlt|Hge].
  - rewrite (encapped_network_short contents Hlt) in H. discriminate.
  - split; [exact Hge|].
    rewrite (encapped_network_long contents Hge) in H.
    destruct (Z.eqb_spec (first_nibble contents) 4) as [E4|_].
    + injection H as <- _ _. left. split; [assumption|reflexivity].
    + destruct (Z.eqb_spec (first_nibble contents) 6) as [E6|_]; [|discriminate].
      injection H as <- _ _. right. split; [assumption|reflexivity].
Qed.

(** What [handle] does with a payload whose five-tuple it can derive. *)
Lemma handle_forwards (p : Pcap) (packet : Packet) (contents : list byte)
    (q : Quintuple) :
  pkt_application packet = Some contents ->
  encapped_quintuple IP_String NewPacket_IPv4_TransportLayer contents = Some q ->
  link_serializable p ->
  Device_IsLoop (Pcap_UpDev p) = true \/ first_nibble contents = 4 ->
  inbound p packet
  = (p, Inject match Pcap_nat p !! reverse_quintuple q with
               | Some h => h
               | None => Pcap_upHandle p
               end
               (link_header p ++ contents
                ++ link_padding p (length (link_header p ++ contents)))).
Proof.
  intros Happ Hq Hlink Hfam. unfold handle. rewrite Happ.
  unfold encapped_quintuple in Hq.
  destruct (encapped_network contents) as [e|[[t dstIP] srcIP]] eqn:Hnet;
    [discriminate|].
  destruct (NewPacket_IPv4_TransportLayer contents) as [tl|]; [|discriminate].
  injection Hq as <-.
  rewrite encapped_ports_transport_ports.
  assert (Hl : (if Device_IsLoop (Pcap_UpDev p)
                then inr (LL_Loopback {| Loopback_Family := 0 |})
                else match t with
                     | LayerTypeIPv4 =>
                       inr (LL_Ethernet (upstream_Ethernet p EthernetTypeIPv4))
                     | t => inl (NotSupport t)
                     end) = (inr (upstream_link p) : Diag + LinkLayer)).
  { unfold upstream_link.
    destruct (Device_IsLoop (Pcap_UpDev p)) eqn:Hloop; [reflexivity|].
    destruct Hfam as [Hf|Hf]; [discriminate|].
    destruct (encapped_network_IPv4 _ _ _ _ Hnet) as [_ [[_ ->]|[H6 _]]];
      [reflexivity|congruence]. }
  rewrite Hl.
  cbn [SerializeLayers fold_right]. cbn [SerializeTo].
  rewrite app_nil_r.
  rewrite (upstream_link_SerializeTo_ok p contents Hlink). reflexivity.
Qed.

(** X18. Round trip through the NAT table.  Once a packet observed on a
    listen handle has passed the guards of the outbound pipeline, a
    carrier payload whose five-tuple is the reverse of that packet's is
    written by the inbound pipeline on that listen handle, as the link
    header, the payload and the Ethernet padding, provided the link
    layer serializes and the payload is IPv4 or the upstream device is
    loopback.  This holds whether or not the outbound packet itself
    could be sent. *)
Theorem handle_after_handleListen (p : Pcap) (packet : Packet) (h : Handle)
    (nl : NetworkLayer) (tl : TransportLayer) (gw : IP)
    (reply : Packet) (contents : list byte) (q : Quintuple) :
  pkt_network packet = Some nl ->
  pkt_transport packet = Some tl ->
  gatewayDevIP p = Some gw ->
  is_Some (To4 gw) ->
  is_nil (IPNet_IP (Device_IPv4 (Pcap_UpDev p))) = false ->
  pkt_application reply = Some contents ->
  encapped_quintuple IP_String NewPacket_IPv4_TransportLayer contents = Some q ->
  reverse_quintuple q = packet_quintuple IP_String nl tl ->
  link_serializable p ->
  Device_IsLoop (Pcap_UpDev p) = true \/ first_nibble contents = 4 ->
  (inbound (outbound p packet h).1 reply).2
  = Inject h (link_header p ++ contents
              ++ link_padding p (length (link_header p ++ contents))).
Proof.
  intros Hn Ht Hg Hg4 Hup Happ Hq Hrev Hlink Hfam.
  rewrite (handleListen_registered IP_String checkSum CheckTCPIPv4Sum
             p packet h nl tl gw Hn Ht Hg Hg4 Hup).
  cbv zeta. cbn [fst].
  rewrite (handle_forwards _ reply contents q Happ Hq); [|exact Hlink|exact Hfam].
  cbn [snd]. rewrite Hrev.
  unfold registered at 1. cbn [Pcap_nat set_nat].
  rewrite lookup_insert_eq. reflexivity.
Qed.

(** X19. On an upstream device that is not loopback the inbound
    pipeline forwards IPv4 only: every payload it writes has at least 20
    bytes and the first nibble 4, or the first nibble 6 on a loopback
    device. *)
Theorem handle_forwards_IPv4_only (p : Pcap) (packet : Packet) (p' : Pcap)
    (h : Handle) (data : list byte) :
  inbound p packet = (p', Inject h data) ->
  exists contents,
    pkt_application packet = Some contents
    /\ (20 <= length contents)%nat
    /\ (first_nibble contents = 4
        \/ (first_nibble contents = 6 /\ Device_IsLoop (Pcap_UpDev p) = true)).
Proof.
  unfold handle.
  destruct (pkt_application packet) as [contents|]; [|discriminate].
  destruct (encapped_network contents) as [e|[[t dstIP] srcIP]] eqn:Hnet;
    [discriminate|].
  destruct (encapped_network_IPv4 _ _ _ _ Hnet) as [Hlen Hfam].
  destruct (NewPacket_IPv4_TransportLayer contents) as [tl|]; [|discriminate].
  destruct (encapped_ports tl) as [dp sp].
  destruct (Device_IsLoop (Pcap_UpDev p)).
  - intros _. exists contents. split; [reflexivity|]. split; [exact Hlen|].
    destruct Hfam as [[H4 _]|[H6 _]]; auto.
  - destruct Hfam as [[H4 ->]|[H6 ->]]; [|discriminate].
    intros _. exists contents. auto.
Qed.

(** One call keeps the configuration, keeps every key of the NAT table,
    and binds at most the handle it was given. *)
Lemma step_keeps (p : Pcap) (c : Capture) :
  same_configuration p (step' p c).1
  /\ (forall q, is_Some (Pcap_nat p !! q) -> is_Some (Pcap_nat (step' p c).1 !! q))
  /\ (forall q h, Pcap_nat (step' p c).1 !! q = Some h ->
        Pcap_nat p !! q = Some h
        \/ exists packet, c = OnListen packet h).
Proof.
  destruct c as [packet hc|packet]; cbn [step].
  - assert (Hcases : (outbound p packet hc).1 = p
                     \/ (outbound p packet hc).1 = set_seq (uint32 (Pcap_seq p + 1)) p
                     \/ exists q, (outbound p packet hc).1 = registered p q hc).
    { destruct (handleListen_cases p packet hc)
        as [[_ ->]|[[_ ->]|(nl & tl & _ & _ & [[_ ->]|(gw & _ & Hcase)])]];
        cbn [fst]; auto.
      destruct Hcase as [(_ & _ & ->)|[(_ & ->)|(_ & _ & ->)]]; cbn [fst]; eauto. }
    destruct Hcases as [->|[->|[q0 ->]]].
    + repeat split; auto.
    + repeat split; auto.
    + split; [repeat split|]. unfold registered. cbn [Pcap_nat set_nat]. split.
      * intros q Hq. destruct (decide (q0 = q)) as [->|Hne].
        -- rewrite lookup_insert_eq. eauto.
        -- rewrite lookup_insert_ne by exact Hne. exact Hq.
      * intros q h Hq. destruct (decide (q0 = q)) as [->|Hne].
        -- rewrite lookup_insert_eq in Hq. injection Hq as <-. eauto.
        -- rewrite lookup_insert_ne in Hq by exact Hne. auto.
  - rewrite handle_state. repeat split; auto.
Qed.

Lemma same_configuration_trans (p p' p'' : Pcap) :
  same_configuration p p' -> same_configuration p' p'' -> same_configuration p p''.
Proof.
  unfold same_configuration.
  intros (H1 & H2 & H3 & H4 & H5 & H6 & H7 & H8 & H9)
         (G1 & G2 & G3 & G4 & G5 & G6 & G7 & G8 & G9).
  repeat split; congruence.
Qed.

Lemma run_cons (p : Pcap) (c : Capture) (rest : list Capture) :
  run' p (c :: rest)
  = match (step' p c).2 with
    | Panic => ((step' p c).1, [Panic])
    | o => ((run' (step' p c).1 rest).1, o :: (run' (step' p c).1 rest).2)
    end.
Proof.
  cbn [run]. destruct (step' p c) as [p1 o]. cbn [fst snd].
  destruct o; try reflexivity; destruct (run' p1 rest); reflexivity.
Qed.

(** X20. However many packets the two pipelines handle one after the
    other, in whatever order, the configuration of the proxy (ports,
    server address, devices, handles) stays as it was and no key ever
    leaves the NAT table: an entry is only ever added or bound to
    another handle. *)
Theorem run_keeps (p : Pcap) (captures : list Capture) :
  same_configuration p (run' p captures).1
  /\ forall q, is_Some (Pcap_nat p !! q) ->
               is_Some (Pcap_nat (run' p captures).1 !! q).
Proof.
  revert p. induction captures as [|c rest IH]; intros p.
  - cbn. repeat split; auto.
  - rewrite run_cons.
    destruct (step_keeps p c) as (Hc & Hk & _).
    destruct (IH (step' p c).1) as [Hc' Hk'].
    destruct ((step' p c).2); cbn [fst].
    + split; [exact (same_configuration_trans _ _ _ Hc Hc')|auto].
    + split; [exact (same_configuration_trans _ _ _ Hc Hc')|auto].
    + split; [exact Hc|exact Hk].
Qed.

(** X21. Every frame the two pipelines write, handling packets one
    after the other, goes to the upstream handle, to a handle that was
    in the NAT table at the start, or to a handle that [handleListen]
    was called with for one of the packets. *)
Theorem run_inject_targets (p : Pcap) (captures : list Capture) (h : Handle)
    (data : list byte) :
  In (Inject h data) (run' p captures).2 ->
  h = Pcap_upHandle p
  \/ (exists q, Pcap_nat p !! q = Some h)
  \/ In h (listen_handles_of captures).
Proof.
  revert p. induction captures as [|c rest IH]; intros p.
  - cbn. tauto.
  - rewrite run_cons.
    destruct (step_keeps p c) as (Hc & _ & Hb).
    assert (Hup : Pcap_upHandle (step' p c).1 = Pcap_upHandle p)
      by (destruct Hc as (_ & _ & _ & _ & _ & _ & _ & _ & Hc); exact Hc).
    assert (Hlater : In (Inject h data) (run' (step' p c).1 rest).2 ->
                     h = Pcap_upHandle p
                     \/ (exists q, Pcap_nat p !! q = Some h)
                     \/ In h (listen_handles_of (c :: rest))).
    { intros Hin. destruct (IH _ Hin) as [->|[[q Hq]|Hin']].
      - left. exact Hup.
      - destruct (Hb q h Hq) as [Hq'|[packet ->]].
        + right; left. eauto.
        + right; right. left. reflexivity.
      - right; right. unfold listen_handles_of. cbn [flat_map].
        apply in_or_app. right. exact Hin'. }
    assert (Hnow : (step' p c).2 = Inject h data ->
                   h = Pcap_upHandle p
                   \/ (exists q, Pcap_nat p !! q = Some h)
                   \/ In h (listen_handles_of (c :: rest))).
    { intros Ho. destruct c as [packet hc|packet]; cbn [step] in Ho.
      - destruct (handleListen_frame IP_String checkSum CheckTCPIPv4Sum
                    p packet hc (outbound p packet hc).1 h data)
          as (_ & _ & _ & _ & _ & _ & _ & _ & -> & _).
        { rewrite <- Ho. apply surjective_pairing. }
        left. reflexivity.
      - destruct (handle_Inject_inv IP_String NewPacket_IPv4_TransportLayer
                    p packet (inbound p packet).1 h data)
          as (contents & t & dstIP & srcIP & tl & _ & _ & _ & _ & Hh & _).
        { rewrite <- Ho. apply surjective_pairing. }
        destruct (Pcap_nat p !! _) as [h0|] eqn:Hq.
        + right; left. subst h. eauto.
        + left. exact Hh. }
    destruct ((step' p c).2) as [e|h0 d0|] eqn:Ho; cbn [snd].
    + intros [Hin|Hin]; [discriminate|auto].
    + intros [Hin|Hin]; [|auto]. injection Hin as -> ->.
      exact (Hnow eq_refl).
    + intros [Hin|[]]. discriminate.
Qed.


End Tunnel.

(** ** The further properties at the scenarios *)



Lemma Serialize_UDP_witness :
  let ip := IPv4_set_Protocol IPProtocolUDP
                (createIPv4 (bytes_of [192; 168; 1; 10]) server_IPv4 7 64) in
  let u := UDP_set_pseudoheader (NL_IPv4 ip) (CreateUDPLayer 5353 53) in
  exists csum,
    0 <= csum <= 0xffff
    /\ Serialize no_IPv6_pseudoheaderChecksum no_IPv6_SerializeTo
         [L_UDP u; L_Payload greeting]
       = Some (UDP_header u (8 + len greeting) csum ++ greeting)
    /\ l4_checksum_verifies IPProtocolUDP (IPv4_SrcIP ip) (IPv4_DstIP ip)
         (UDP_header u (8 + len greeting) csum ++ greeting) = true.
Proof.
  cbv zeta.
  refine (Serialize_UDP no_IPv6_pseudoheaderChecksum no_IPv6_SerializeTo
            (UDP_set_pseudoheader
               (NL_IPv4 (IPv4_set_Protocol IPProtocolUDP
                (createIPv4 (bytes_of [192; 168; 1; 10]) server_IPv4 7 64)))
               (CreateUDPLayer 5353 53))
            (IPv4_set_Protocol IPProtocolUDP
                (createIPv4 (bytes_of [192; 168; 1; 10]) server_IPv4 7 64))
            [L_Payload greeting] greeting eq_refl _ _ eq_refl _).
  - eexists. reflexivity.
  - eexists. reflexivity.
  - vm_compute. discriminate.
Defined.

Lemma Serialize_unbound_witness :
  Serialize no_IPv6_pseudoheaderChecksum no_IPv6_SerializeTo
    [L_IPv4 (createIPv4 (bytes_of [192; 168; 1; 10]) server_IPv4 7 64);
     L_TCP (CreateTCPLayer 54321 443 1 0); L_Payload greeting]
  = None.
Proof.
  apply (Serialize_unbound no_IPv6_pseudoheaderChecksum no_IPv6_SerializeTo).
  left. exists (CreateTCPLayer 54321 443 1 0).
  split; [right; left; reflexivity|reflexivity].
Defined.

Lemma CreateLayers_Serialize_witness :
  exists t ip linkLayer ipCsum tcpCsum,
    CreateLayers 54321 443 1 0 local_conn server_IPv4 7 64 gateway_MAC
    = inr (TL_TCP t, NL_IPv4 ip, linkLayer)
    /\ let ipHeader :=
         IPv4_header
           {| IPv4_Contents := []; IPv4_Payload := [];
              IPv4_Version := 4; IPv4_IHL := 5; IPv4_TOS := 0;
              IPv4_Length := 40 + len greeting; IPv4_Id := 7;
              IPv4_Flags := IPv4DontFragment; IPv4_FragOffset := 0;
              IPv4_TTL := uint8 (64 - 1); IPv4_Protocol := IPProtocolTCP;
              IPv4_Checksum := ipCsum;
              IPv4_SrcIP := RawConn_LocalDev_IPv4Addr_IP local_conn;
              IPv4_DstIP := server_IPv4 |}
           (bytes_of [192; 168; 1; 10]) server_IPv4 in
       let segment := TCP_header (CreateTCPLayer 54321 443 1 0) tcpCsum ++ greeting in
       Serialize no_IPv6_pseudoheaderChecksum no_IPv6_SerializeTo
         [LinkLayer_Layer linkLayer; L_IPv4 ip; L_TCP t; L_Payload greeting]
       = Some (LinkLayer_header linkLayer ++ ipHeader ++ segment
               ++ (if RawConn_IsLoop local_conn then []
                   else repeat Byte.x00 (6 - length greeting)))
       /\ ipv4_checksum_verifies ipHeader = true
       /\ tcp_checksum_verifies (RawConn_LocalDev_IPv4Addr_IP local_conn)
            server_IPv4 segment = true.
Proof.
  refine (CreateLayers_Serialize no_IPv6_pseudoheaderChecksum no_IPv6_SerializeTo
            54321 443 1 0 local_conn server_IPv4 7 64 gateway_MAC greeting
            (bytes_of [192; 168; 1; 10]) server_IPv4 eq_refl eq_refl _ _).
  - vm_compute. discriminate.
  - intros _. split; reflexivity.
Defined.

Lemma CreateLayers_IPv6_Serialize_witness :
  exists t ip linkLayer,
    CreateLayers 54321 443 1 0 local_conn server_IPv6 7 64 gateway_MAC
    = inr (TL_TCP t, NL_IPv6 ip, linkLayer)
    /\ Serialize no_IPv6_pseudoheaderChecksum no_IPv6_SerializeTo
         [LinkLayer_Layer linkLayer; L_IPv6 ip; L_TCP t; L_Payload greeting]
       = None.
Proof.
  destruct (CreateLayers 54321 443 1 0 local_conn server_IPv6 7 64 gateway_MAC)
    as [e|[[tl nl] ll]] eqn:Hcreate; [discriminate Hcreate|].
  destruct (CreateLayers_IPv6_Serialize no_IPv6_pseudoheaderChecksum
              no_IPv6_SerializeTo 54321 443 1 0 local_conn server_IPv6 7 64
              gateway_MAC tl nl ll eq_refl Hcreate)
    as (t & ip & -> & -> & Hnone).
  exists t, ip, ll. split; [reflexivity|].
  apply Hnone. right; right; left. reflexivity.
Defined.

Lemma handleListen_drop_witness :
  (handleListen dotted_IP_String spec_checkSum spec_CheckTCPIPv4Sum
     (proxy gateway_device_v6) out_packet listen_handle).1
  = set_seq (uint32 (Pcap_seq (proxy gateway_device_v6) + 1))
            (proxy gateway_device_v6).
Proof.
  exact (handleListen_drop dotted_IP_String spec_checkSum spec_CheckTCPIPv4Sum
           (proxy gateway_device_v6) out_packet listen_handle
           IPVersionTransitionNotSupport eq_refl).
Defined.

Lemma handleListen_serialization_fails_witness :
  handleListen dotted_IP_String spec_checkSum spec_CheckTCPIPv4Sum
    proxy_to_IPv6 out_packet listen_handle
  = (registered proxy_to_IPv6
       (packet_quintuple dotted_IP_String out_network out_transport) listen_handle,
     Drop SerializeFailed)
  /\ Pcap_nat (handleListen dotted_IP_String spec_checkSum spec_CheckTCPIPv4Sum
                 proxy_to_IPv6 out_packet listen_handle).1
       !! packet_quintuple dotted_IP_String out_network out_transport
     = Some listen_handle
  /\ Pcap_seq (handleListen dotted_IP_String spec_checkSum spec_CheckTCPIPv4Sum
                 proxy_to_IPv6 out_packet listen_handle).1
     = (Pcap_seq proxy_to_IPv6 + 1) mod 2 ^ 32
  /\ Pcap_id (handleListen dotted_IP_String spec_checkSum spec_CheckTCPIPv4Sum
                proxy_to_IPv6 out_packet listen_handle).1
     = (Pcap_id proxy_to_IPv6 + 1) mod 2 ^ 16.
Proof.
  refine (handleListen_serialization_fails dotted_IP_String spec_checkSum
            spec_CheckTCPIPv4Sum proxy_to_IPv6 out_packet listen_handle
            out_network out_transport (bytes_of [192; 168; 1; 1])
            eq_refl eq_refl eq_refl _ eq_refl _).
  - eexists. reflexivity.
  - left. reflexivity.
Defined.

Lemma handleListen_carrier_IPv4_witness :
  exists nl src dst,
    pkt_network out_packet = Some nl
    /\ To4 (IPNet_IP (Device_IPv4 (Pcap_UpDev (proxy gateway_device)))) = Some src
    /\ To4 (Pcap_ServerIP (proxy gateway_device)) = Some dst
    /\ let carrier :=
         IPv4_DecodeFromBytes
           (skipn (length (link_header (proxy gateway_device))) out_frame) in
       IPv4_Version carrier = 4 /\ IPv4_IHL carrier = 5
       /\ IPv4_TTL carrier
          = match nl with
            | NL_IPv4 l => (IPv4_TTL l - 1) mod 256
            | NL_IPv6 _ => 255
            end
       /\ IPv4_Id carrier = Pcap_id (proxy gateway_device) mod 2 ^ 16
       /\ IPv4_Flags carrier = IPv4DontFragment /\ IPv4_FragOffset carrier = 0
       /\ IPv4_Protocol carrier = IPProtocolTCP
       /\ IPv4_SrcIP carrier = src /\ IPv4_DstIP carrier = dst.
Proof.
  exact (handleListen_carrier_IPv4 dotted_IP_String spec_checkSum
           spec_CheckTCPIPv4Sum (proxy gateway_device) out_packet listen_handle
           proxy_after_out 0%N out_frame scenario_out_sent).
Defined.

Lemma handle_after_handleListen_witness :
  (handle dotted_IP_String plain_IPv4_TransportLayer
     (handleListen dotted_IP_String spec_checkSum spec_CheckTCPIPv4Sum
        (proxy gateway_device) out_packet listen_handle).1
     (carrier_packet (Some reply_bytes))).2
  = Inject listen_handle
      (link_header (proxy gateway_device) ++ reply_bytes
       ++ link_padding (proxy gateway_device)
            (length (link_header (proxy gateway_device) ++ reply_bytes))).
Proof.
  refine (handle_after_handleListen dotted_IP_String spec_checkSum
            spec_CheckTCPIPv4Sum plain_IPv4_TransportLayer
            (proxy gateway_device) out_packet listen_handle
            out_network out_transport (bytes_of [192; 168; 1; 1])
            (carrier_packet (Some reply_bytes)) reply_bytes
            (reverse_quintuple out_quintuple)
            eq_refl eq_refl eq_refl _ eq_refl eq_refl _ _ _ _).
  - eexists. reflexivity.
  - vm_compute. reflexivity.
  - vm_compute. reflexivity.
  - right. split; reflexivity.
  - right. reflexivity.
Defined.

Lemma handle_forwards_IPv4_only_witness :
  exists contents,
    pkt_application (carrier_packet (Some reply_bytes)) = Some contents
    /\ (20 <= length contents)%nat
    /\ (first_nibble contents = 4
        \/ (first_nibble contents = 6
            /\ Device_IsLoop (Pcap_UpDev proxy_after_out) = true)).
Proof.
  exact (handle_forwards_IPv4_only dotted_IP_String plain_IPv4_TransportLayer
           proxy_after_out (carrier_packet (Some reply_bytes))
           proxy_after_out listen_handle in_frame scenario_in_sent).
Defined.

Lemma scenario_run :
  (run dotted_IP_String spec_checkSum spec_CheckTCPIPv4Sum
     plain_IPv4_TransportLayer (proxy gateway_device)
     [OnListen out_packet listen_handle;
      OnUpstream (carrier_packet (Some reply_bytes))]).2
  = [Inject 0%N out_frame; Inject listen_handle in_frame].
Proof.
  cbn [run step]. rewrite scenario_out_sent, scenario_in_sent. reflexivity.
Qed.

Lemma run_inject_targets_witness :
  listen_handle = Pcap_upHandle (proxy gateway_device)
  \/ (exists q, Pcap_nat (proxy gateway_device) !! q = Some listen_handle)
  \/ In listen_handle
        (listen_handles_of [OnListen out_packet listen_handle;
                            OnUpstream (carrier_packet (Some reply_bytes))]).
Proof.
  refine (run_inject_targets dotted_IP_String spec_checkSum spec_CheckTCPIPv4Sum
            plain_IPv4_TransportLayer (proxy gateway_device)
            [OnListen out_packet listen_handle;
             OnUpstream (carrier_packet (Some reply_bytes))]
            listen_handle in_frame _).
  rewrite scenario_run. right; left. reflexivity.
Defined.
